(** * write_mysql: connection life cycle, identifier resolution and the
      locked write pipeline of collectd's [src/write_mysql.c].

    The plugin is embedded as state-passing code over an explicit machine
    state: the callback structure [wm_callback_t], the outside world (the
    MySQL client library, libc and the collectd helpers, reached only
    through the calls the C code makes) and the trace of those calls.
    Every C function keeps its name.

    Left out of the embedding: the log output ([ERROR], [DEBUG]), the
    release of memory ([sfree]), and the threads -- a mutex is the flag
    that it is held, and one call runs at a time. *)

From Stdlib Require Import ZArith Ascii String List Lia.
From stdpp Require Import base option list gmap strings pretty.

Local Open Scope Z_scope.

(** ** Machine integers and C strings *)

(** [(int) z]: narrowing of an integer value to a 32-bit signed [int]. *)
Definition int_of (z : Z) : Z := (z + 2 ^ 31) mod 2 ^ 32 - 2 ^ 31.

(** [(unsigned long) z] on an LP64 target. *)
Definition ulong_of (z : Z) : Z := z mod 2 ^ 64.

(** Conversion to [unsigned int], the type of the [MYSQL_TIME] fields. *)
Definition uint_of (z : Z) : Z := z mod 2 ^ 32.

Definition ENOMEM : Z := 12.

(** What a [char buf[size]] holds after [snprintf]-style output of [s]:
    at most [size - 1] characters, the rest is cut off. *)
Fixpoint truncate (n : nat) (s : string) : string :=
  match n, s with
  | S n', String c s' => String c (truncate n' s')
  | _, _ => EmptyString
  end.

Definition snprintf_result (size : nat) (s : string) : string :=
  truncate (Nat.pred size) s.

(** ** Data of the MySQL client library *)

(** Handles behind [MYSQL *] and [MYSQL_STMT *]; a pointer is an [option],
    [None] being [NULL]. *)
Definition MYSQL := N.
Definition MYSQL_STMT := N.

Record MYSQL_TIME := mk_MYSQL_TIME {
  year : Z; month : Z; day : Z; hour : Z; minute : Z; second : Z
}.

Record tm := mk_tm {
  tm_year : Z; tm_mon : Z; tm_mday : Z; tm_hour : Z; tm_min : Z; tm_sec : Z
}.

(** A [double], kept as its 64-bit pattern: the plugin only passes rates on. *)
Definition gauge_t := Z.

(** One [MYSQL_BIND] parameter: [buffer_type] and what [buffer] points to.
    For strings [buffer_length] is [strlen] of the field, so the bound value
    is the field itself.  [BIND_DOUBLE] holds [rates + i], which is [None]
    when it points past the array. *)
Inductive MYSQL_BIND :=
| BIND_STRING (buffer : string)
| BIND_LONG (buffer : Z)
| BIND_DATETIME (buffer : MYSQL_TIME)
| BIND_DOUBLE (buffer : option gauge_t).

Inductive mysql_option := MYSQL_OPT_RECONNECT | MYSQL_OPT_COMPRESS.

(** ** Data of collectd (plugin.h) *)

(** Modelled from the spec: [value_list_t] of plugin.h, which is not part
    of the sources at hand: what the data sources of a batch share -- the
    timestamp, host, plugin, plugin instance, type and type instance.
    These are the fields the plugin reads. *)
Record value_list_t := mk_value_list {
  vl_time : Z;
  vl_host : string;
  vl_plugin : string;
  vl_plugin_instance : string;
  vl_type : string;
  vl_type_instance : string
}.

(** Modelled from the spec: [data_source_t] and [data_set_t] of plugin.h:
    a batch has an ordered list of data sources, each with a name and a
    type; [ds_num] is the length of the array [ds]. *)
Record data_source_t := mk_data_source {
  ds_name : string;
  ds_type : Z
}.

Record data_set_t := mk_data_set {
  dset_type : string;
  ds : list data_source_t
}.

Definition ds_num (d : data_set_t) : nat := length (ds d).

(** [ds->ds[index]]; every index the plugin uses is below [ds_num]. *)
Definition ds_at (d : data_set_t) (index : nat) : data_source_t :=
  default (mk_data_source "" 0) (ds d !! index).

(** ** The SQL statements *)

Definition wm_data_statement : string :=
  "INSERT INTO data (identifier_id, timestamp, value) VALUES (?, ?, ?)".

Definition wm_identifier_statement_select : string :=
  "SELECT id FROM identifier WHERE host = ? AND plugin = ? AND plugin_instance = ? AND type = ? AND type_instance = ? AND data_source_name = ?".

Definition wm_identifier_statement_insert : string :=
  "INSERT INTO identifier (host, plugin, plugin_instance, type, type_instance, data_source_name, data_source_type) VALUES (?, ?, ?, ?, ?, ?, ?)".

(** ** Calls that leave the plugin *)

(** Every call the plugin makes into the MySQL client library, libc or
    collectd's helpers, with the arguments it passes. *)
Inductive call :=
| Mysql_init
| Mysql_options (conn : option MYSQL) (opt : mysql_option)
| Mysql_real_connect (conn : option MYSQL)
    (host user passwd : option string) (port : Z)
| Mysql_select_db (conn : option MYSQL) (db : option string)
| Mysql_stmt_init (conn : option MYSQL)
| Mysql_stmt_prepare (stmt : option MYSQL_STMT) (query : string)
| Mysql_stmt_close (stmt : option MYSQL_STMT)
| Mysql_close (conn : option MYSQL)
| Mysql_stmt_reset (stmt : option MYSQL_STMT)
| Mysql_stmt_bind_param (stmt : option MYSQL_STMT) (binding : list MYSQL_BIND)
| Mysql_stmt_bind_result (stmt : option MYSQL_STMT)
| Mysql_stmt_execute (stmt : option MYSQL_STMT)
| Mysql_stmt_store_result (stmt : option MYSQL_STMT)
| Mysql_stmt_free_result (stmt : option MYSQL_STMT)
| Mysql_stmt_num_rows (stmt : option MYSQL_STMT)
| Mysql_stmt_fetch (stmt : option MYSQL_STMT)
| Mysql_stmt_affected_rows (stmt : option MYSQL_STMT)
| Mysql_stmt_insert_id (stmt : option MYSQL_STMT)
| Localtime_r (t : Z)
| Strdup (s : string)
| Malloc
| Uc_get_rate (d : data_set_t) (vl : value_list_t).

(** What a call hands back.  Each wrapper below reads the one field its C
    function returns: [r_int] a status or a count, [r_ptr] a pointer,
    [r_id]/[r_is_null] the output buffers bound for the identifier SELECT,
    [r_tm] the broken-down time, [r_rates] the rate array. *)
Record reply := mk_reply {
  r_int : Z;
  r_ptr : option N;
  r_id : Z;
  r_is_null : bool;
  r_tm : option tm;
  r_rates : option (list gauge_t)
}.

Definition event : Type := call * reply.

(** The outside world, seen through the calls.  Nothing is assumed about
    it: any reply may follow any call. *)
Class Environment (W : Type) := {
  perform : call -> W -> reply * W;
  (** [DATA_MAX_NAME_LEN] of plugin.h *)
  DATA_MAX_NAME_LEN : nat;
  (** [FORMAT_VL (ret, ret_len, vl)] of common.h: [None] is a non-zero
      status, [Some s] the string left in [ret]. *)
  FORMAT_VL : nat -> value_list_t -> option string;
  (** [DS_TYPE_TO_STRING] of plugin.h *)
  DS_TYPE_TO_STRING : Z -> string;
  (** [CDTIME_T_TO_TIME_T] of utils_time.h *)
  CDTIME_T_TO_TIME_T : Z -> Z
}.

(** ** The callback structure *)

Record wm_callback_t := mk_wm_callback {
  host : option string;
  port : Z;
  user : option string;
  passwd : option string;
  database : option string;
  conn : option MYSQL;
  conn_lock : bool;
  data_lock : bool;
  data_stmt : option MYSQL_STMT;
  identifier_lock : bool;
  identifier_cache : gmap string Z;
  identifier_stmt_select : option MYSQL_STMT;
  identifier_stmt_insert : option MYSQL_STMT
}.

Definition set_conn (p : option MYSQL) (c : wm_callback_t) : wm_callback_t :=
  mk_wm_callback (host c) (port c) (user c) (passwd c) (database c)
    p (conn_lock c) (data_lock c) (data_stmt c) (identifier_lock c)
    (identifier_cache c) (identifier_stmt_select c) (identifier_stmt_insert c).

Definition set_conn_lock (b : bool) (c : wm_callback_t) : wm_callback_t :=
  mk_wm_callback (host c) (port c) (user c) (passwd c) (database c)
    (conn c) b (data_lock c) (data_stmt c) (identifier_lock c)
    (identifier_cache c) (identifier_stmt_select c) (identifier_stmt_insert c).

Definition set_data_stmt (p : option MYSQL_STMT) (c : wm_callback_t)
  : wm_callback_t :=
  mk_wm_callback (host c) (port c) (user c) (passwd c) (database c)
    (conn c) (conn_lock c) (data_lock c) p (identifier_lock c)
    (identifier_cache c) (identifier_stmt_select c) (identifier_stmt_insert c).

Definition set_identifier_lock (b : bool) (c : wm_callback_t) : wm_callback_t :=
  mk_wm_callback (host c) (port c) (user c) (passwd c) (database c)
    (conn c) (conn_lock c) (data_lock c) (data_stmt c) b
    (identifier_cache c) (identifier_stmt_select c) (identifier_stmt_insert c).

Definition set_identifier_cache (t : gmap string Z) (c : wm_callback_t)
  : wm_callback_t :=
  mk_wm_callback (host c) (port c) (user c) (passwd c) (database c)
    (conn c) (conn_lock c) (data_lock c) (data_stmt c) (identifier_lock c)
    t (identifier_stmt_select c) (identifier_stmt_insert c).

Definition set_identifier_stmt_select (p : option MYSQL_STMT)
  (c : wm_callback_t) : wm_callback_t :=
  mk_wm_callback (host c) (port c) (user c) (passwd c) (database c)
    (conn c) (conn_lock c) (data_lock c) (data_stmt c) (identifier_lock c)
    (identifier_cache c) p (identifier_stmt_insert c).

Definition set_identifier_stmt_insert (p : option MYSQL_STMT)
  (c : wm_callback_t) : wm_callback_t :=
  mk_wm_callback (host c) (port c) (user c) (passwd c) (database c)
    (conn c) (conn_lock c) (data_lock c) (data_stmt c) (identifier_lock c)
    (identifier_cache c) (identifier_stmt_select c) p.

(** [wm_callback_init]: [memset] to zero, every pointer [NULL], the mutexes
    unlocked.  The cache is created empty by [wm_config_instance]. *)
Definition wm_callback_init : wm_callback_t :=
  mk_wm_callback None 0 None None None None false false None false ∅ None None.

(** ** Machine state and the monad of plugin code *)

Record state (W : Type) := mk_state {
  cb : wm_callback_t;
  world : W;
  (** calls made so far, newest first *)
  trace : list event
}.
Arguments mk_state {W}.
Arguments cb {W}.
Arguments world {W}.
Arguments trace {W}.

(** Ways a run ends without returning. *)
Inductive fault := AssertionFailed | Deadlock.

Inductive outcome (S A : Type) :=
| Ret (a : A) (s : S)
| Fault (f : fault).
Arguments Ret {S A}.
Arguments Fault {S A}.

Definition M (W A : Type) : Type := state W -> outcome (state W) A.

Definition ret {W A} (a : A) : M W A := fun s => Ret a s.

Definition bind {W A B} (m : M W A) (k : A -> M W B) : M W B :=
  fun s => match m s with
           | Ret a s' => k a s'
           | Fault f => Fault f
           end.

Declare Scope wm_scope.
Delimit Scope wm_scope with wm.
Notation "x <- m ;; k" := (bind m (fun x => k))
  (at level 100, m at next level, right associativity) : wm_scope.
Notation "m ;;; k" := (bind m (fun _ => k))
  (at level 100, right associativity) : wm_scope.

Definition get_cb {W} : M W wm_callback_t := fun s => Ret (cb s) s.

(** The state with its callback structure updated by [f]. *)
Definition with_cb {W} (f : wm_callback_t -> wm_callback_t) (s : state W)
  : state W :=
  mk_state (f (cb s)) (world s) (trace s).

Definition modify_cb {W} (f : wm_callback_t -> wm_callback_t) : M W unit :=
  fun s => Ret tt (with_cb f s).

Definition c_assert {W} (b : bool) : M W unit :=
  fun s => if b then Ret tt s else Fault AssertionFailed.

Definition is_null {A} (p : option A) : bool :=
  match p with None => true | Some _ => false end.

Section Plugin.

Context {W : Type} `{Env : Environment W}.

Local Open Scope wm_scope.

(** One call into the outside world, recorded in the trace. *)
Definition api (c : call) : M W reply :=
  fun s =>
    let (r, w') := perform c (world s) in
    Ret r (mk_state (cb s) w' ((c, r) :: trace s)).

(** *** The library functions, by their C names *)

Definition mysql_init : M W (option MYSQL) :=
  r <- api Mysql_init ;; ret (r_ptr r).
Definition mysql_options (c : option MYSQL) (o : mysql_option) : M W unit :=
  _ <- api (Mysql_options c o) ;; ret tt.
Definition mysql_real_connect (c : option MYSQL)
  (h u p : option string) (prt : Z) : M W (option MYSQL) :=
  r <- api (Mysql_real_connect c h u p prt) ;; ret (r_ptr r).
Definition mysql_select_db (c : option MYSQL) (db : option string) : M W Z :=
  r <- api (Mysql_select_db c db) ;; ret (r_int r).
Definition mysql_stmt_init (c : option MYSQL) : M W (option MYSQL_STMT) :=
  r <- api (Mysql_stmt_init c) ;; ret (r_ptr r).
Definition mysql_stmt_prepare (st : option MYSQL_STMT) (q : string) : M W Z :=
  r <- api (Mysql_stmt_prepare st q) ;; ret (r_int r).
Definition mysql_stmt_close (st : option MYSQL_STMT) : M W unit :=
  _ <- api (Mysql_stmt_close st) ;; ret tt.
Definition mysql_close (c : option MYSQL) : M W unit :=
  _ <- api (Mysql_close c) ;; ret tt.
Definition mysql_stmt_reset (st : option MYSQL_STMT) : M W Z :=
  r <- api (Mysql_stmt_reset st) ;; ret (r_int r).
Definition mysql_stmt_bind_param (st : option MYSQL_STMT)
  (b : list MYSQL_BIND) : M W Z :=
  r <- api (Mysql_stmt_bind_param st b) ;; ret (r_int r).
Definition mysql_stmt_bind_result (st : option MYSQL_STMT) : M W Z :=
  r <- api (Mysql_stmt_bind_result st) ;; ret (r_int r).
Definition mysql_stmt_execute (st : option MYSQL_STMT) : M W Z :=
  r <- api (Mysql_stmt_execute st) ;; ret (r_int r).
Definition mysql_stmt_store_result (st : option MYSQL_STMT) : M W Z :=
  r <- api (Mysql_stmt_store_result st) ;; ret (r_int r).
Definition mysql_stmt_free_result (st : option MYSQL_STMT) : M W unit :=
  _ <- api (Mysql_stmt_free_result st) ;; ret tt.
(** [my_ulonglong] results are unsigned 64-bit counts. *)
Definition mysql_stmt_num_rows (st : option MYSQL_STMT) : M W Z :=
  r <- api (Mysql_stmt_num_rows st) ;; ret (r_int r mod 2 ^ 64).
Definition mysql_stmt_affected_rows (st : option MYSQL_STMT) : M W Z :=
  r <- api (Mysql_stmt_affected_rows st) ;; ret (r_int r mod 2 ^ 64).
Definition mysql_stmt_insert_id (st : option MYSQL_STMT) : M W Z :=
  r <- api (Mysql_stmt_insert_id st) ;; ret (r_int r mod 2 ^ 64).
(** [mysql_stmt_fetch] fills the bound output buffers: the [int id] and
    its [is_null] flag. *)
Definition mysql_stmt_fetch (st : option MYSQL_STMT) : M W (Z * (Z * bool)) :=
  r <- api (Mysql_stmt_fetch st) ;;
  ret (r_int r, (int_of (r_id r), r_is_null r)).
Definition localtime_r (t : Z) : M W (option tm) :=
  r <- api (Localtime_r t) ;; ret (r_tm r).
Definition strdup (s : string) : M W (option N) :=
  r <- api (Strdup s) ;; ret (r_ptr r).
Definition uc_get_rate (d : data_set_t) (vl : value_list_t)
  : M W (option (list gauge_t)) :=
  r <- api (Uc_get_rate d vl) ;; ret (r_rates r).

(** *** Connection life cycle *)

Definition wm_callback_disconnect : M W Z :=
  c <- get_cb ;;
  if is_null (conn c) then ret 0 else
  (c <- get_cb ;;
   if negb (is_null (data_stmt c)) then
     (mysql_stmt_close (data_stmt c) ;;;
      modify_cb (set_data_stmt None))
   else ret tt) ;;;
  (c <- get_cb ;;
   if negb (is_null (identifier_stmt_select c)) then
     (mysql_stmt_close (identifier_stmt_select c) ;;;
      modify_cb (set_identifier_stmt_select None))
   else ret tt) ;;;
  (c <- get_cb ;;
   if negb (is_null (identifier_stmt_insert c)) then
     (mysql_stmt_close (identifier_stmt_insert c) ;;;
      modify_cb (set_identifier_stmt_insert None))
   else ret tt) ;;;
  c <- get_cb ;;
  mysql_close (conn c) ;;;
  modify_cb (set_conn None) ;;;
  ret 0.

(** The recurring failure exit of [wm_callback_connect]: tear down, then
    [return (-1)]. *)
Definition disconnect_and_fail : M W Z :=
  wm_callback_disconnect ;;; ret (-1).

Definition wm_callback_connect : M W Z :=
  c <- get_cb ;;
  if negb (is_null (conn c)) then ret 0 else
  c_assert (is_null (data_stmt c)) ;;;
  p <- mysql_init ;;
  modify_cb (set_conn p) ;;;
  if is_null p then ret (-1) else
  c <- get_cb ;;
  mysql_options (conn c) MYSQL_OPT_RECONNECT ;;;
  mysql_options (conn c) MYSQL_OPT_COMPRESS ;;;
  q <- mysql_real_connect (conn c) (host c) (user c) (passwd c) (port c) ;;
  if is_null q then disconnect_and_fail else
  status <- mysql_select_db (conn c) (database c) ;;
  if negb (status =? 0) then disconnect_and_fail else
  (* Prepare the data INSERT statement *)
  st <- mysql_stmt_init (conn c) ;;
  modify_cb (set_data_stmt st) ;;;
  if is_null st then disconnect_and_fail else
  status <- mysql_stmt_prepare st wm_data_statement ;;
  if negb (status =? 0) then disconnect_and_fail else
  (* Prepare the identifier SELECT statement *)
  st <- mysql_stmt_init (conn c) ;;
  modify_cb (set_identifier_stmt_select st) ;;;
  if is_null st then disconnect_and_fail else
  status <- mysql_stmt_prepare st wm_identifier_statement_select ;;
  if negb (status =? 0) then disconnect_and_fail else
  (* Prepare the identifier INSERT statement *)
  st <- mysql_stmt_init (conn c) ;;
  modify_cb (set_identifier_stmt_insert st) ;;;
  if is_null st then disconnect_and_fail else
  status <- mysql_stmt_prepare st wm_identifier_statement_insert ;;
  if negb (status =? 0) then disconnect_and_fail else
  ret 0.

(** *** Mutexes *)

Inductive mutex := Conn_lock | Identifier_lock.

Definition held (m : mutex) (c : wm_callback_t) : bool :=
  match m with
  | Conn_lock => conn_lock c
  | Identifier_lock => identifier_lock c
  end.

Definition set_held (m : mutex) (b : bool) : wm_callback_t -> wm_callback_t :=
  match m with
  | Conn_lock => set_conn_lock b
  | Identifier_lock => set_identifier_lock b
  end.

(** Locking a mutex that is already held never returns. *)
Definition pthread_mutex_lock (m : mutex) : M W unit :=
  c <- get_cb ;;
  if held m c then (fun _ => Fault Deadlock) else modify_cb (set_held m true).

Definition pthread_mutex_unlock (m : mutex) : M W unit :=
  modify_cb (set_held m false).

(** *** The identifier cache *)

(** Modelled from the spec: [c_avl_get] of utils_avltree.c, which is not
    part of the sources at hand.  The cache is the ordered mapping from a
    serialized key to its id; a lookup is read-only and yields the id or
    a miss. *)
Definition c_avl_get (t : gmap string Z) (key : string) : option Z := t !! key.

(** Modelled from the spec: [c_avl_insert] of utils_avltree.c.  The
    insertion may fail for want of memory, and an entry once stored is
    never replaced; a failed insertion leaves the mapping as it was.
    Status 0 is success, -1 an allocation failure, 1 a key already
    present. *)
Definition c_avl_insert (key : string) (value : Z) : M W Z :=
  r <- api Malloc ;;
  if is_null (r_ptr r) then ret (-1) else
  c <- get_cb ;;
  match identifier_cache c !! key with
  | Some _ => ret 1
  | None =>
      modify_cb (set_identifier_cache (<[key := value]> (identifier_cache c))) ;;;
      ret 0
  end.

Definition wm_identifier_cache_lookup (identifier : string) : M W Z :=
  c <- get_cb ;;
  match c_avl_get (identifier_cache c) identifier with
  | None => ret (-1)
  | Some tmp => ret (int_of tmp)
  end.

Definition wm_identifier_cache_insert (identifier : string) (id : Z) : M W Z :=
  key <- strdup identifier ;;
  if is_null key then ret ENOMEM else
  status <- c_avl_insert identifier id ;;
  ret status.

(** *** Identifier resolution against the store *)

(** The seven parameters of the identifier INSERT; the type of the data
    source goes through [sstrncpy] into [ds_type[DATA_MAX_NAME_LEN]]. *)
Definition wm_identifier_insert_binding (vl : value_list_t) (d : data_set_t)
  (index : nat) : list MYSQL_BIND :=
  let ds_type_str :=
    snprintf_result DATA_MAX_NAME_LEN
      (DS_TYPE_TO_STRING (ds_type (ds_at d index))) in
  [ BIND_STRING (vl_host vl); BIND_STRING (vl_plugin vl);
    BIND_STRING (vl_plugin_instance vl); BIND_STRING (vl_type vl);
    BIND_STRING (vl_type_instance vl);
    BIND_STRING (ds_name (ds_at d index)); BIND_STRING ds_type_str ].

(** The six parameters of the identifier SELECT. *)
Definition wm_identifier_select_binding (vl : value_list_t) (d : data_set_t)
  (index : nat) : list MYSQL_BIND :=
  [ BIND_STRING (vl_host vl); BIND_STRING (vl_plugin vl);
    BIND_STRING (vl_plugin_instance vl); BIND_STRING (vl_type vl);
    BIND_STRING (vl_type_instance vl);
    BIND_STRING (ds_name (ds_at d index)) ].

Definition wm_identifier_database_insert (vl : value_list_t) (d : data_set_t)
  (index : nat) : M W Z :=
  c <- get_cb ;;
  status <- mysql_stmt_reset (identifier_stmt_insert c) ;;
  if negb (status =? 0) then ret (-1) else
  let binding := wm_identifier_insert_binding vl d index in
  status <- mysql_stmt_bind_param (identifier_stmt_insert c) binding ;;
  if negb (status =? 0) then ret (-1) else
  status <- mysql_stmt_execute (identifier_stmt_insert c) ;;
  if negb (status =? 0) then ret (-1) else
  affected <- mysql_stmt_affected_rows (identifier_stmt_insert c) ;;
  let status := int_of affected in
  if negb (status =? 1) then ret (-1) else
  inserted <- mysql_stmt_insert_id (identifier_stmt_insert c) ;;
  let id := int_of inserted in
  ret id.

Definition wm_identifier_database_lookup (vl : value_list_t) (d : data_set_t)
  (index : nat) : M W Z :=
  c <- get_cb ;;
  let param_bind := wm_identifier_select_binding vl d index in
  status <- mysql_stmt_bind_param (identifier_stmt_select c) param_bind ;;
  if negb (status =? 0) then ret (-1) else
  (* Bind output buffers *)
  status <- mysql_stmt_bind_result (identifier_stmt_select c) ;;
  if negb (status =? 0) then ret (-1) else
  (* Execute statement *)
  status <- mysql_stmt_execute (identifier_stmt_select c) ;;
  if negb (status =? 0) then ret (-1) else
  (* Fetch all results, otherwise mysql_stmt_num_rows() is not available. *)
  status <- mysql_stmt_store_result (identifier_stmt_select c) ;;
  if negb (status =? 0) then
    (mysql_stmt_free_result (identifier_stmt_select c) ;;; ret (-1))
  else
  rows <- mysql_stmt_num_rows (identifier_stmt_select c) ;;
  let affected_rows := ulong_of rows in
  if affected_rows =? 0 then
    (mysql_stmt_free_result (identifier_stmt_select c) ;;;
     wm_identifier_database_insert vl d index)
  else if 1 <? affected_rows then
    (mysql_stmt_free_result (identifier_stmt_select c) ;;; ret (-1))
  else
  (* Copy value to the provided buffer "id". *)
  fetched <- mysql_stmt_fetch (identifier_stmt_select c) ;;
  let '(status, (id, id_is_null)) := fetched in
  if negb (status =? 0) then
    (mysql_stmt_free_result (identifier_stmt_select c) ;;; ret (-1))
  else
  mysql_stmt_free_result (identifier_stmt_select c) ;;;
  if (id_is_null : bool) then ret (-1) else
  ret id.

(** The cache key of [wm_identifier_to_id]: [FORMAT_VL] into
    [tmp[6 * DATA_MAX_NAME_LEN]], then ["%s/%s"] with the data source name
    into [identifier[7 * DATA_MAX_NAME_LEN]].  [None] when [FORMAT_VL]
    reports an error. *)
Definition wm_identifier_key (vl : value_list_t) (d : data_set_t)
  (index : nat) : option string :=
  match FORMAT_VL (6 * DATA_MAX_NAME_LEN) vl with
  | None => None
  | Some tmp =>
      Some (snprintf_result (7 * DATA_MAX_NAME_LEN)
              (tmp +:+ "/" +:+ ds_name (ds_at d index)))
  end.

Definition wm_identifier_to_id (vl : value_list_t) (d : data_set_t)
  (index : nat) : M W Z :=
  match wm_identifier_key vl d index with
  | None => ret (-1)
  | Some identifier =>
      pthread_mutex_lock Identifier_lock ;;;
      status <- wm_identifier_cache_lookup identifier ;;
      if 0 <=? status then
        (pthread_mutex_unlock Identifier_lock ;;; ret status)
      else
      status <- wm_identifier_database_lookup vl d index ;;
      (if 0 <=? status
       then (_ <- wm_identifier_cache_insert identifier status ;; ret tt)
       else ret tt) ;;;
      pthread_mutex_unlock Identifier_lock ;;;
      ret status
  end.

(** *** The write pipeline *)

Definition MYSQL_TIME_zero : MYSQL_TIME := mk_MYSQL_TIME 0 0 0 0 0 0.

Definition wm_cdtime_t_to_mysql_time (t_in : Z) : M W (Z * MYSQL_TIME) :=
  let t := CDTIME_T_TO_TIME_T t_in in
  r <- localtime_r t ;;
  match r with
  | None => ret (-1, MYSQL_TIME_zero)
  | Some stm =>
      ret (0, mk_MYSQL_TIME (uint_of (tm_year stm + 1900))
                (uint_of (tm_mon stm + 1)) (uint_of (tm_mday stm))
                (uint_of (tm_hour stm)) (uint_of (tm_min stm))
                (uint_of (tm_sec stm)))
  end.

(** The three parameters of the data INSERT: the id, the timestamp and
    [rates + i]. *)
Definition wm_data_binding (dataset_id : Z) (vl_time : MYSQL_TIME)
  (rates : list gauge_t) (i : nat) : list MYSQL_BIND :=
  [ BIND_LONG dataset_id; BIND_DATETIME vl_time; BIND_DOUBLE (rates !! i) ].

(** How one pass through the body of the [for] loop ends: it falls through
    or [continue]s to the next data source, or it [return]s. *)
Inductive control := Continue | Return (status : Z).

(** The body of the loop over [ds->ds] in [wm_write_locked], for index [i]. *)
Definition wm_write_source (d : data_set_t) (vl : value_list_t)
  (rates : list gauge_t) (vl_time : MYSQL_TIME) (i : nat) : M W control :=
  dataset_id <- wm_identifier_to_id vl d i ;;
  if dataset_id <? 0 then ret Continue else
  c <- get_cb ;;
  let param_bind := wm_data_binding dataset_id vl_time rates i in
  status <- mysql_stmt_bind_param (data_stmt c) param_bind ;;
  if negb (status =? 0) then ret (Return (-1)) else
  status <- mysql_stmt_execute (data_stmt c) ;;
  if negb (status =? 0) then ret (Return (-1)) else
  ret Continue.

(** [for (i = ...; i < ds->ds_num; i++)] with [n] passes still to go. *)
Fixpoint wm_write_loop (d : data_set_t) (vl : value_list_t)
  (rates : list gauge_t) (vl_time : MYSQL_TIME) (n : nat) (i : nat)
  : M W Z :=
  match n with
  | O => ret 0
  | S n' =>
      k <- wm_write_source d vl rates vl_time i ;;
      match k with
      | Continue => wm_write_loop d vl rates vl_time n' (S i)
      | Return status => ret status
      end
  end.

Definition wm_write_locked (d : data_set_t) (vl : value_list_t)
  (rates : list gauge_t) : M W Z :=
  status <- wm_callback_connect ;;
  if negb (status =? 0) then ret status else
  converted <- wm_cdtime_t_to_mysql_time (vl_time vl) ;;
  let '(status, vl_time) := converted in
  if negb (status =? 0) then ret status else
  wm_write_loop d vl rates vl_time (ds_num d) 0.

Definition wm_write (d : data_set_t) (vl : value_list_t) : M W Z :=
  rates <- uc_get_rate d vl ;;
  match rates with
  | None => ret (-1)
  | Some rates =>
      pthread_mutex_lock Conn_lock ;;;
      status <- wm_write_locked d vl rates ;;
      pthread_mutex_unlock Conn_lock ;;;
      ret status
  end.

End Plugin.

(** ** Release and configuration of an instance *)

Definition set_host (p : option string) (c : wm_callback_t) : wm_callback_t :=
  mk_wm_callback p (port c) (user c) (passwd c) (database c)
    (conn c) (conn_lock c) (data_lock c) (data_stmt c) (identifier_lock c)
    (identifier_cache c) (identifier_stmt_select c) (identifier_stmt_insert c).

Definition set_port (z : Z) (c : wm_callback_t) : wm_callback_t :=
  mk_wm_callback (host c) z (user c) (passwd c) (database c)
    (conn c) (conn_lock c) (data_lock c) (data_stmt c) (identifier_lock c)
    (identifier_cache c) (identifier_stmt_select c) (identifier_stmt_insert c).

Definition set_user (p : option string) (c : wm_callback_t) : wm_callback_t :=
  mk_wm_callback (host c) (port c) p (passwd c) (database c)
    (conn c) (conn_lock c) (data_lock c) (data_stmt c) (identifier_lock c)
    (identifier_cache c) (identifier_stmt_select c) (identifier_stmt_insert c).

Definition set_passwd (p : option string) (c : wm_callback_t)
  : wm_callback_t :=
  mk_wm_callback (host c) (port c) (user c) p (database c)
    (conn c) (conn_lock c) (data_lock c) (data_stmt c) (identifier_lock c)
    (identifier_cache c) (identifier_stmt_select c) (identifier_stmt_insert c).

Definition set_database (p : option string) (c : wm_callback_t)
  : wm_callback_t :=
  mk_wm_callback (host c) (port c) (user c) (passwd c) p
    (conn c) (conn_lock c) (data_lock c) (data_stmt c) (identifier_lock c)
    (identifier_cache c) (identifier_stmt_select c) (identifier_stmt_insert c).

(** [sfree] of common.h, which is not part of the sources at hand: what
    the pointer holds once the macro has released its memory.  Nothing is
    assumed about it. *)
Class Common := { sfree : option string -> option string }.

(** The four [sfree] of [wm_callback_free]. *)
Definition sfree_options `{Cmn : Common} (c : wm_callback_t) : wm_callback_t :=
  set_database (sfree (database c))
    (set_passwd (sfree (passwd c))
       (set_user (sfree (user c)) (set_host (sfree (host c)) c))).

(** [wm_callback_free], for a [data] pointer that is not [NULL]. *)
Definition wm_callback_free {W : Type} `{Env : Environment W} `{Cmn : Common}
  : M W unit :=
  bind wm_callback_disconnect (fun _ => modify_cb sfree_options).

(** *** The configuration tree *)

(** A value and an item of the configuration (oconfig.h, which is not part
    of the sources at hand).  The plugin reads the key and the children of
    an item; the values it hands on to the [cf_util_] functions. *)
Inductive oconfig_value_t :=
| OCONFIG_TYPE_STRING (s : string)
| OCONFIG_TYPE_NUMBER (n : Z)
| OCONFIG_TYPE_BOOLEAN (b : bool).

#[warnings="-register-all"]
Inductive oconfig_item_t :=
| mk_oconfig_item (key : string) (values : list oconfig_value_t)
    (children : list oconfig_item_t).

Definition oc_key (ci : oconfig_item_t) : string :=
  match ci with mk_oconfig_item k _ _ => k end.
Definition oc_values (ci : oconfig_item_t) : list oconfig_value_t :=
  match ci with mk_oconfig_item _ v _ => v end.
Definition oc_children (ci : oconfig_item_t) : list oconfig_item_t :=
  match ci with mk_oconfig_item _ _ c => c end.

(** [tolower] and [strcasecmp] of libc, in the C locale: the difference of
    the first two characters that differ once letters are lowered, and 0
    when there is none. *)
Definition tolower (c : ascii) : ascii :=
  let n := nat_of_ascii c in
  if ((65 <=? n) && (n <=? 90))%nat then ascii_of_nat (n + 32) else c.

Fixpoint strcasecmp (a b : string) : Z :=
  match a, b with
  | EmptyString, EmptyString => 0
  | EmptyString, String y _ => - Z.of_nat (nat_of_ascii (tolower y))
  | String x _, EmptyString => Z.of_nat (nat_of_ascii (tolower x))
  | String x a', String y b' =>
      if Ascii.eqb (tolower x) (tolower y) then strcasecmp a' b'
      else Z.of_nat (nat_of_ascii (tolower x))
           - Z.of_nat (nat_of_ascii (tolower y))
  end.

(** collectd's helpers for configuration values (configfile.c) and the one
    choice the C library has in formatting the callback name; nothing is
    assumed about them. *)
Class ConfigHelpers := {
  (** [cf_util_get_string (ci, &ret)]: the status and what [ret] points
      to afterwards, given what it pointed to before *)
  cf_util_get_string : oconfig_item_t -> option string -> Z * option string;
  (** [cf_util_get_port_number (ci)] *)
  cf_util_get_port_number : oconfig_item_t -> Z;
  (** what ["%s"] prints for a [NULL] pointer *)
  PRINTF_NULL : string
}.

(** What the daemon holds of the plugin: the world behind the calls and
    the write callbacks registered with [plugin_register_write], newest
    first, each with its name and its user data. *)
Record daemon (W : Type) := mk_daemon {
  d_world : W;
  d_writers : list (string * wm_callback_t)
}.
Arguments mk_daemon {W}.
Arguments d_world {W}.
Arguments d_writers {W}.

Section Configuration.

Context {W : Type} `{Env : Environment W} `{Cfg : ConfigHelpers}.

(** One pass through the loop over the children of an [Instance] block:
    the chain of [strcasecmp] tests on the key of [child]. *)
Definition wm_config_option (cb : wm_callback_t) (child : oconfig_item_t)
  : wm_callback_t :=
  if strcasecmp "Host" (oc_key child) =? 0 then
    set_host (cf_util_get_string child (host cb)).2 cb
  else if strcasecmp "Port" (oc_key child) =? 0 then
    let tmp := cf_util_get_port_number child in
    if 0 <? tmp then set_port tmp cb else cb
  else if strcasecmp "User" (oc_key child) =? 0 then
    set_user (cf_util_get_string child (user cb)).2 cb
  else if strcasecmp "Password" (oc_key child) =? 0 then
    set_passwd (cf_util_get_string child (passwd cb)).2 cb
  else if strcasecmp "Database" (oc_key child) =? 0 then
    set_database (cf_util_get_string child (database cb)).2 cb
  else cb.

(** The name of the write callback: ["write_mysql/%s/%i"] of host and
    port into [callback_name[DATA_MAX_NAME_LEN]]. *)
Definition wm_callback_name (cb : wm_callback_t) : string :=
  snprintf_result DATA_MAX_NAME_LEN
    ("write_mysql/" +:+ default PRINTF_NULL (host cb) +:+ "/" +:+
     pretty (port cb)).

(** [wm_config_instance]: [malloc] of the structure, the options, the
    cache -- whose creation is asserted to succeed -- and the registration
    of [wm_write] with the structure as user data. *)
Definition wm_config_instance (ci : oconfig_item_t) (s : daemon W)
  : outcome (daemon W) Z :=
  let (r, w1) := perform Malloc (d_world s) in
  if is_null (r_ptr r) then Ret ENOMEM (mk_daemon w1 (d_writers s)) else
  let cb := fold_left wm_config_option (oc_children ci) wm_callback_init in
  (* c_avl_create *)
  let (r', w2) := perform Malloc w1 in
  if is_null (r_ptr r') then Fault AssertionFailed else
  let cb := set_identifier_cache ∅ cb in
  Ret 0 (mk_daemon w2 ((wm_callback_name cb, cb) :: d_writers s)).

(** [wm_config]: every [Instance] block is configured, whatever its
    status; any other block is skipped; the result is 0. *)
Fixpoint wm_config_children (children : list oconfig_item_t) (s : daemon W)
  : outcome (daemon W) unit :=
  match children with
  | [] => Ret tt s
  | child :: rest =>
      if strcasecmp "Instance" (oc_key child) =? 0 then
        match wm_config_instance child s with
        | Ret _ s' => wm_config_children rest s'
        | Fault f => Fault f
        end
      else wm_config_children rest s
  end.

Definition wm_config (ci : oconfig_item_t) (s : daemon W)
  : outcome (daemon W) Z :=
  match wm_config_children (oc_children ci) s with
  | Ret _ s' => Ret 0 s'
  | Fault f => Fault f
  end.

End Configuration.

(** ** Connection states *)

(** The two states of a connection: the handle and its three prepared
    statements exist together or not at all. *)
Definition Disconnected (c : wm_callback_t) : Prop :=
  conn c = None /\ data_stmt c = None /\
  identifier_stmt_select c = None /\ identifier_stmt_insert c = None.

Definition Connected (c : wm_callback_t) : Prop :=
  is_Some (conn c) /\ is_Some (data_stmt c) /\
  is_Some (identifier_stmt_select c) /\ is_Some (identifier_stmt_insert c).

Definition wm_wf (c : wm_callback_t) : Prop := Disconnected c \/ Connected c.

(** Among the calls [evs], [mysql_stmt_prepare] of the query [q] on the
    statement [p] returned 0. *)
Definition prepared_in (evs : list event) (p : option MYSQL_STMT)
  (q : string) : Prop :=
  exists r, In (Mysql_stmt_prepare p q, r) evs /\ r_int r = 0.

(** The calls [evs] prepared the three statements of [c]. *)
Definition statements_prepared (c : wm_callback_t) (evs : list event) : Prop :=
  prepared_in evs (data_stmt c) wm_data_statement /\
  prepared_in evs (identifier_stmt_select c) wm_identifier_statement_select /\
  prepared_in evs (identifier_stmt_insert c) wm_identifier_statement_insert.

(** *** The calls of a connection set-up *)

(** A call of the set-up that reports a failure: [NULL] from [mysql_init],
    [mysql_real_connect] or [mysql_stmt_init], a status other than 0 from
    [mysql_select_db] or [mysql_stmt_prepare]. *)
Definition failed (e : event) : bool :=
  match e with
  | (Mysql_init, r) | (Mysql_real_connect _ _ _ _ _, r)
  | (Mysql_stmt_init _, r) => is_null (r_ptr r)
  | (Mysql_select_db _ _, r) | (Mysql_stmt_prepare _ _, r) =>
      negb (r_int r =? 0)
  | _ => false
  end.

Definition succeeded (e : event) : bool := negb (failed e).

(** The calls of a set-up in which nothing fails, first to last, with the
    handles and the options of the instance [c] it leaves. *)
Definition setup_calls (c : wm_callback_t) : list call :=
  [ Mysql_init;
    Mysql_options (conn c) MYSQL_OPT_RECONNECT;
    Mysql_options (conn c) MYSQL_OPT_COMPRESS;
    Mysql_real_connect (conn c) (host c) (user c) (passwd c) (port c);
    Mysql_select_db (conn c) (database c);
    Mysql_stmt_init (conn c);
    Mysql_stmt_prepare (data_stmt c) wm_data_statement;
    Mysql_stmt_init (conn c);
    Mysql_stmt_prepare (identifier_stmt_select c)
      wm_identifier_statement_select;
    Mysql_stmt_init (conn c);
    Mysql_stmt_prepare (identifier_stmt_insert c)
      wm_identifier_statement_insert ].

(** *** Handles still open after a run of calls *)

Fixpoint remove_one (h : N) (l : list N) : list N :=
  match l with
  | [] => []
  | x :: l' => if N.eqb x h then l' else x :: remove_one h l'
  end.

(** Effect of one call on the connections and statements that are open. *)
Definition track (e : event) (open : list MYSQL * list MYSQL_STMT)
  : list MYSQL * list MYSQL_STMT :=
  match e with
  | (Mysql_init, r) =>
      match r_ptr r with Some h => (h :: open.1, open.2) | None => open end
  | (Mysql_stmt_init _, r) =>
      match r_ptr r with Some h => (open.1, h :: open.2) | None => open end
  | (Mysql_stmt_close (Some h), _) => (open.1, remove_one h open.2)
  | (Mysql_close (Some h), _) => (remove_one h open.1, open.2)
  | _ => open
  end.

(** Handles opened and not closed again by the calls [t] (newest first). *)
Definition live_handles (t : list event) : list MYSQL * list MYSQL_STMT :=
  foldr track ([], []) t.

(** ** Rows written *)

(** A successful [mysql_stmt_execute] on the statement [p]. *)
Definition is_row_insert (p : option MYSQL_STMT) (e : event) : bool :=
  match e with
  | (Mysql_stmt_execute q, r) => bool_decide (q = p) && (r_int r =? 0)
  | _ => false
  end.

(** Number of rows the calls [t] wrote through the statement [p]: with [p]
    the data INSERT statement, the number of data rows. *)
Definition rows_written (p : option MYSQL_STMT) (t : list event) : nat :=
  length (filter (fun e => is_row_insert p e = true) t).

(** The three statement handles are three different objects. *)
Definition distinct_stmts (c : wm_callback_t) : Prop :=
  data_stmt c <> identifier_stmt_select c /\
  data_stmt c <> identifier_stmt_insert c.

(** ** The identity of a metric *)

Record MetricIdentity := mk_identity {
  id_host : string;
  id_plugin : string;
  id_plugin_instance : string;
  id_type : string;
  id_type_instance : string;
  id_data_source_name : string;
  id_data_source_type : Z
}.

(** The identity of data source [index] of a batch. *)
Definition identity_of (vl : value_list_t) (d : data_set_t) (index : nat)
  : MetricIdentity :=
  mk_identity (vl_host vl) (vl_plugin vl) (vl_plugin_instance vl)
    (vl_type vl) (vl_type_instance vl)
    (ds_name (ds_at d index)) (ds_type (ds_at d index)).

Fixpoint has_slash (s : string) : bool :=
  match s with
  | EmptyString => false
  | String c s' => Ascii.eqb c "/"%char || has_slash s'
  end.

(** The six fields that go into the cache key, and the key they give:
    the five fields of the value list joined by ["/"], then ["/"] and the
    name of the data source. *)
Definition key_fields (m : MetricIdentity) : list string :=
  [ id_host m; id_plugin m; id_plugin_instance m; id_type m;
    id_type_instance m; id_data_source_name m ].

Definition key_string (m : MetricIdentity) : string :=
  (id_host m +:+ "/" +:+ id_plugin m +:+ "/" +:+ id_plugin_instance m +:+
   "/" +:+ id_type m +:+ "/" +:+ id_type_instance m) +:+
  "/" +:+ id_data_source_name m.

(** Validated fields: each fits a [char[n]] buffer, and the separator does
    not occur in any. *)
Definition bounded_fields (n : nat) (m : MetricIdentity) : Prop :=
  Forall (fun f => (String.length f < n)%nat) (key_fields m).

Definition separator_free (m : MetricIdentity) : Prop :=
  Forall (fun f => has_slash f = false) (key_fields m).

(** Ids kept in the cache are non-negative [int]s. *)
Definition cache_ok (t : gmap string Z) : Prop :=
  forall k v, t !! k = Some v -> 0 <= v < 2 ^ 31.

(** What no function of the plugin but the connection life cycle touches. *)
Definition same_handles (c c1 : wm_callback_t) : Prop :=
  conn c1 = conn c /\ data_stmt c1 = data_stmt c /\
  identifier_stmt_select c1 = identifier_stmt_select c /\
  identifier_stmt_insert c1 = identifier_stmt_insert c /\
  conn_lock c1 = conn_lock c.

(** What the connection life cycle leaves alone. *)
Definition same_cache (c c1 : wm_callback_t) : Prop :=
  identifier_cache c1 = identifier_cache c /\
  identifier_lock c1 = identifier_lock c /\
  conn_lock c1 = conn_lock c.

(** What holds of the callback structure between two calls of [wm_write]:
    the connection is all there or not at all, the cache holds
    non-negative [int]s, and no mutex is held. *)
Definition wm_inv (c : wm_callback_t) : Prop :=
  wm_wf c /\ cache_ok (identifier_cache c) /\
  conn_lock c = false /\ identifier_lock c = false.

(** ** Runs of the plugin *)

Section Runs.

Context {W : Type} `{Env : Environment W}.

(** The state while [identifier_lock] is held, and after its release. *)
Definition locked (s : state W) : state W :=
  with_cb (set_identifier_lock true) s.
Definition unlocked (s : state W) : state W :=
  with_cb (set_identifier_lock false) s.

(** [n] passes of the loop, from index [i] in state [s], none of which
    meets a failure of the data INSERT: each source is skipped because
    its identifier does not resolve, or its row is bound and executed with
    status 0.  The passes end in [s']. *)
Fixpoint passes (d : data_set_t) (vl : value_list_t) (rates : list gauge_t)
  (t : MYSQL_TIME) (n i : nat) (s s' : state W) : Prop :=
  match n with
  | O => s' = s
  | S n' =>
      exists id s1,
        wm_identifier_to_id vl d i s = Ret id s1 /\
        ((id < 0 /\ passes d vl rates t n' (S i) s1 s') \/
         (0 <= id /\
          exists s2 s3,
            mysql_stmt_bind_param (data_stmt (cb s1))
              (wm_data_binding id t rates i) s1 = Ret 0 s2 /\
            mysql_stmt_execute (data_stmt (cb s1)) s2 = Ret 0 s3 /\
            passes d vl rates t n' (S i) s3 s'))
  end.

(** [n] passes in which no identifier resolves. *)
Fixpoint skips (d : data_set_t) (vl : value_list_t) (n i : nat)
  (s s' : state W) : Prop :=
  match n with
  | O => s' = s
  | S n' =>
      exists id s1,
        wm_identifier_to_id vl d i s = Ret id s1 /\ id < 0 /\
        skips d vl n' (S i) s1 s'
  end.

(** What a pass of the loop keeps. *)
Definition pass_keeps (s s1 : state W) : Prop :=
  same_handles (cb s) (cb s1) /\
  identifier_lock (cb s1) = false /\
  (cache_ok (identifier_cache (cb s)) -> cache_ok (identifier_cache (cb s1))).

(** The life of an instance: the batches the daemon dispatches to
    [wm_write], one after the other, and the statuses it gets back. *)
Fixpoint wm_write_all (batches : list (data_set_t * value_list_t))
  : M W (list Z) :=
  match batches with
  | [] => ret []
  | (d, vl) :: rest =>
      bind (wm_write d vl) (fun status =>
      bind (wm_write_all rest) (fun statuses =>
      ret (status :: statuses)))
  end.

End Runs.

(** ** Calls of a run *)

(** Number of calls among [t] that [f] picks out. *)
Fixpoint count_calls (f : call -> bool) (t : list event) : nat :=
  match t with
  | [] => O
  | (c, _) :: t' => ((if f c then 1 else 0) + count_calls f t')%nat
  end.

Definition is_store_result (c : call) : bool :=
  match c with Mysql_stmt_store_result _ => true | _ => false end.

Definition is_free_result (c : call) : bool :=
  match c with Mysql_stmt_free_result _ => true | _ => false end.

Definition is_reset (c : call) : bool :=
  match c with Mysql_stmt_reset _ => true | _ => false end.

Definition is_execute (c : call) : bool :=
  match c with Mysql_stmt_execute _ => true | _ => false end.

Definition is_bind_param (c : call) : bool :=
  match c with Mysql_stmt_bind_param _ _ => true | _ => false end.

(** The calls that open or close a connection or a statement. *)
Definition opens_or_closes (c : call) : bool :=
  match c with
  | Mysql_init | Mysql_stmt_init _ | Mysql_stmt_close _ | Mysql_close _ => true
  | _ => false
  end.

(** Result sets that [mysql_stmt_store_result] has buffered on the client
    and [mysql_stmt_free_result] has not released yet, after the calls [t]
    (newest first), by their statements. *)
Fixpoint remove_stmt (p : option MYSQL_STMT) (l : list (option MYSQL_STMT))
  : list (option MYSQL_STMT) :=
  match l with
  | [] => []
  | q :: l' => if bool_decide (q = p) then l' else q :: remove_stmt p l'
  end.

Definition track_result (e : event) (held : list (option MYSQL_STMT))
  : list (option MYSQL_STMT) :=
  match e.1 with
  | Mysql_stmt_store_result p => p :: held
  | Mysql_stmt_free_result p => remove_stmt p held
  | _ => held
  end.

Definition results_held (t : list event) : list (option MYSQL_STMT) :=
  foldr track_result [] t.

(** The statement a call of the client library works on. *)
Definition stmt_of (c : call) : option (option MYSQL_STMT) :=
  match c with
  | Mysql_stmt_prepare p _ | Mysql_stmt_close p | Mysql_stmt_reset p
  | Mysql_stmt_bind_param p _ | Mysql_stmt_bind_result p
  | Mysql_stmt_execute p | Mysql_stmt_store_result p
  | Mysql_stmt_free_result p | Mysql_stmt_num_rows p | Mysql_stmt_fetch p
  | Mysql_stmt_affected_rows p | Mysql_stmt_insert_id p => Some p
  | _ => None
  end.

(** The call [c] works on the statement [p]. *)
Definition on_stmt (p : option MYSQL_STMT) (c : call) : bool :=
  match stmt_of c with
  | Some q => bool_decide (q = p)
  | None => false
  end.

(** What a call on the data statement [p] may be while the sources [lo],
    ..., [hi - 1] of a batch are written: the execution of the statement,
    or the binding of a non-negative id, the time [t] of the batch and
    the rate of one of these sources. *)
Definition data_call_ok (p : option MYSQL_STMT) (t : MYSQL_TIME)
  (rates : list gauge_t) (lo hi : nat) (e : event) : Prop :=
  on_stmt p e.1 = true ->
  e.1 = Mysql_stmt_execute p \/
  exists id j, 0 <= id /\ (lo <= j < hi)%nat /\
               e.1 = Mysql_stmt_bind_param p (wm_data_binding id t rates j).

(** The calls of a full [wm_callback_disconnect], first to last: every
    statement that is there is closed, then the connection. *)
Definition disconnect_calls (c : wm_callback_t) : list call :=
  (if is_null (data_stmt c) then [] else [Mysql_stmt_close (data_stmt c)]) ++
  (if is_null (identifier_stmt_select c) then []
   else [Mysql_stmt_close (identifier_stmt_select c)]) ++
  (if is_null (identifier_stmt_insert c) then []
   else [Mysql_stmt_close (identifier_stmt_insert c)]) ++
  [Mysql_close (conn c)].

(** The configured options of an instance. *)
Definition same_options (c c1 : wm_callback_t) : Prop :=
  host c1 = host c /\ port c1 = port c /\ user c1 = user c /\
  passwd c1 = passwd c /\ database c1 = database c.

(** The handles an instance holds, listed as [live_handles] lists them:
    the connection, and the statements, the one initialised last first. *)
Definition held_handles (c : wm_callback_t) : list MYSQL * list MYSQL_STMT :=
  (option_list (conn c),
   option_list (identifier_stmt_insert c) ++
   option_list (identifier_stmt_select c) ++ option_list (data_stmt c)).

(** The calls [evs] account for the handles of the instance: opening and
    closing as [evs] does turns the handles that [c] holds into those that
    [c1] holds. *)
Definition handles_follow (c c1 : wm_callback_t) (evs : list event) : Prop :=
  foldr track (held_handles c) evs = held_handles c1.

(** ** Configuration blocks *)

(** The key of [child] is one of the five options of an [Instance] block,
    letter case apart. *)
Definition wm_known_option (child : oconfig_item_t) : bool :=
  (strcasecmp "Host" (oc_key child) =? 0) ||
  (strcasecmp "Port" (oc_key child) =? 0) ||
  (strcasecmp "User" (oc_key child) =? 0) ||
  (strcasecmp "Password" (oc_key child) =? 0) ||
  (strcasecmp "Database" (oc_key child) =? 0).

Definition is_instance_block (child : oconfig_item_t) : bool :=
  strcasecmp "Instance" (oc_key child) =? 0.

(** [ci] with only those of its children that [keep] picks. *)
Definition with_children (keep : oconfig_item_t -> bool) (ci : oconfig_item_t)
  : oconfig_item_t :=
  mk_oconfig_item (oc_key ci) (oc_values ci)
    (List.filter keep (oc_children ci)).

(** The port after one more option of an [Instance] block, and the port
    the options of a block give: that of the last [Port] option whose
    number is above 0, and 0 when there is none. *)
Definition port_after `{Cfg : ConfigHelpers} (p : Z) (child : oconfig_item_t)
  : Z :=
  if (strcasecmp "Port" (oc_key child) =? 0) &&
     (0 <? cf_util_get_port_number child)
  then cf_util_get_port_number child else p.

Definition configured_port `{Cfg : ConfigHelpers}
  (children : list oconfig_item_t) : Z :=
  fold_left port_after children 0.

(** ** A scripted environment *)

(** An environment that answers the calls from a script, whatever the
    call; once the script is used up every call succeeds with [reply_ok].
    It drives the plugin along any chosen path. *)
Definition reply_ok : reply :=
  mk_reply 0 (Some 1%N) 1 false (Some (mk_tm 112 0 1 12 0 0)) (Some [0; 0]).

Definition scripted (c : call) (w : list reply) : reply * list reply :=
  match w with
  | [] => (reply_ok, [])
  | r :: w' => (r, w')
  end.

(** A status or a count. *)
Definition r_status (z : Z) : reply := mk_reply z (Some 1%N) 1 false None None.
(** A handle. *)
Definition r_handle (h : N) : reply := mk_reply 0 (Some h) 1 false None None.
(** A [NULL] pointer. *)
Definition r_null : reply := mk_reply 1 None 1 false None None.
(** One fetched row. *)
Definition r_row (id : Z) (null : bool) : reply :=
  mk_reply 0 None id null None None.

(** Modelled from the spec: [FORMAT_VL] (common.h, over [format_name] of
    common.c), which is not part of the sources at hand: the fields of the
    value list joined by the separator ["/"]; an error when the result
    does not fit the buffer. *)
Definition format_vl (ret_len : nat) (vl : value_list_t) : option string :=
  let s := vl_host vl +:+ "/" +:+ vl_plugin vl +:+ "/" +:+
           vl_plugin_instance vl +:+ "/" +:+ vl_type vl +:+ "/" +:+
           vl_type_instance vl in
  if (String.length s <? ret_len)%nat then Some s else None.

(** Modelled from the spec: [DS_TYPE_TO_STRING] (plugin.h), the text of the
    data source type, with [GAUGE] the type in the scenario of the spec. *)
Definition ds_type_to_string (t : Z) : string :=
  if t =? 1 then "GAUGE" else "COUNTER".

(** Modelled from the spec: [CDTIME_T_TO_TIME_T] (utils_time.h), the
    timestamp at second granularity. *)
Definition cdtime_t_to_time_t (t : Z) : Z := Z.shiftr t 30.

#[global] Instance scripted_env : Environment (list reply) := {|
  perform := scripted;
  DATA_MAX_NAME_LEN := 64;
  FORMAT_VL := format_vl;
  DS_TYPE_TO_STRING := ds_type_to_string;
  CDTIME_T_TO_TIME_T := cdtime_t_to_time_t
|}.

(** *** Sample data *)

Definition vl0 : value_list_t :=
  mk_value_list (Z.shiftl 1325419200 30) "host1" "cpu" "0" "cpu" "idle".

Definition DS_TYPE_COUNTER : Z := 0.
Definition DS_TYPE_GAUGE : Z := 1.

Definition ds_gauge : data_set_t :=
  mk_data_set "cpu" [mk_data_source "value" DS_TYPE_GAUGE].
Definition ds_counter : data_set_t :=
  mk_data_set "cpu" [mk_data_source "value" DS_TYPE_COUNTER].
Definition ds_two : data_set_t :=
  mk_data_set "if_octets"
    [mk_data_source "rx" DS_TYPE_GAUGE; mk_data_source "tx" DS_TYPE_GAUGE].

(** A freshly initialised, not yet connected instance. *)
Definition s_fresh (script : list reply) : state (list reply) :=
  mk_state wm_callback_init script [].

(** A connected instance with the given cache. *)
Definition cb_live (cache : gmap string Z) : wm_callback_t :=
  mk_wm_callback (Some "db.example") 3306 (Some "collectd") (Some "secret")
    (Some "collectd") (Some 1%N) false false (Some 10%N) false cache
    (Some 11%N) (Some 12%N).

Definition s_live (cache : gmap string Z) (script : list reply)
  : state (list reply) :=
  mk_state (cb_live cache) script [].

(** Replies of a connection attempt in which everything succeeds. *)
Definition connect_ok_script : list reply :=
  [ r_handle 1; reply_ok; reply_ok; r_handle 1; r_status 0;
    r_handle 10; r_status 0; r_handle 11; r_status 0;
    r_handle 12; r_status 0 ].

(** *** Scripts and keys of the sample runs *)

Definition key_value : string := "host1/cpu/0/cpu/idle/value".
Definition key_rx : string := "host1/cpu/0/cpu/idle/rx".
Definition key_tx : string := "host1/cpu/0/cpu/idle/tx".
Definition t2012 : MYSQL_TIME := mk_MYSQL_TIME 2012 1 1 12 0 0.

(** The identifier SELECT finds id 7; [strdup] then fails. *)
Definition script_strdup_fails : list reply :=
  [ r_status 0; r_status 0; r_status 0; r_status 0; r_status 1;
    r_row 7 false; reply_ok; r_null ].

(** The identifier SELECT yields two rows. *)
Definition script_two_rows : list reply :=
  [ r_status 0; r_status 0; r_status 0; r_status 0; r_status 2; reply_ok ].

(** The identifier INSERT reports no affected row. *)
Definition script_no_row_affected : list reply :=
  [ r_status 0; r_status 0; r_status 0; r_status 0 ].

(** [localtime_r] fails. *)
Definition r_no_time : reply := mk_reply 0 None 0 false None None.
Definition script_no_time : list reply := [ r_no_time ].

(** Source ["rx"] is in the cache and its row goes through; for source
    ["tx"] the parameters of the identifier SELECT cannot be bound. *)
Definition script_second_unresolved : list reply :=
  [ r_status 0; r_status 0; r_status 1 ].

(** The rates, the time, then the row of source ["rx"] is bound and its
    execution fails. *)
Definition script_execute_fails : list reply :=
  [ reply_ok; reply_ok; r_status 0; r_status 1 ].

(** The rates, the time, and for both sources an identifier SELECT whose
    parameters cannot be bound. *)
Definition script_nothing_resolves : list reply :=
  [ reply_ok; reply_ok; r_status 1; r_status 1 ].

(** The connected instance once [wm_write] has read the rates of the
    batch [ds_two], before and after it takes [conn_lock]. *)
Definition s_rates_read (cache : gmap string Z) (script : list reply)
  : state (list reply) :=
  mk_state (cb_live cache) script [(Uc_get_rate ds_two vl0, reply_ok)].

Definition s_conn_locked (cache : gmap string Z) (script : list reply)
  : state (list reply) :=
  with_cb (set_conn_lock true) (s_rates_read cache script).

(** For source ["rx"] the parameters of the identifier SELECT cannot be
    bound; source ["tx"] is in the cache and its row goes through. *)
Definition script_first_unresolved : list reply :=
  [ r_status 1; r_status 0; r_status 0 ].

(** The rates, the time, then the row of source ["rx"] cannot be bound. *)
Definition script_bind_fails : list reply :=
  [ reply_ok; reply_ok; r_status 1 ].

(** The rates, the time, the row of source ["rx"], and for source ["tx"]
    an identifier SELECT whose parameters cannot be bound. *)
Definition script_one_row : list reply :=
  [ reply_ok; reply_ok; r_status 0; r_status 0; r_status 1 ].

(** A first batch of two sources on a fresh instance: the rates, the
    connection, the time; ["rx"] is not in the store yet and is inserted
    with id 5, ["tx"] is found there with id 6; both rows are written. *)
Definition script_first_batch : list reply :=
  [ reply_ok ] ++ connect_ok_script ++ [ reply_ok ] ++
  [ r_status 0; r_status 0; r_status 0; r_status 0; r_status 0; reply_ok;
    r_status 0; r_status 0; r_status 0; r_status 1; r_status 5;
    reply_ok; reply_ok; r_status 0; r_status 0 ] ++
  [ r_status 0; r_status 0; r_status 0; r_status 0; r_status 1;
    r_row 6 false; reply_ok; reply_ok; reply_ok; r_status 0; r_status 0 ].

(** *** Sample data of the further runs *)

(** The identifier SELECT finds nothing, the identifier INSERT goes
    through and the store reports the insert id [id]. *)
Definition script_insert_only (id : Z) : list reply :=
  [ r_status 0; r_status 0; r_status 0; r_status 1; r_status id ].

Definition script_inserted (id : Z) : list reply :=
  [ r_status 0; r_status 0; r_status 0; r_status 0; r_status 0; reply_ok ] ++
  script_insert_only id.

(** The identifier SELECT finds id 7. *)
Definition script_found : list reply :=
  [ r_status 0; r_status 0; r_status 0; r_status 0; r_status 1;
    r_row 7 false; reply_ok ].

(** [mysql_select_db] fails on a fresh instance. *)
Definition script_select_db_fails : list reply :=
  [ r_handle 1; reply_ok; reply_ok; r_handle 1; r_status 1 ].

(** The identifier SELECT finds nothing and the identifier INSERT reports
    no affected row. *)
Definition script_insert_refused : list reply :=
  [ r_status 0; r_status 0; r_status 0; r_status 0; r_status 0; reply_ok ] ++
  script_no_row_affected.


(** [sfree] that clears the pointer. *)
#[global] Instance sfree_null : Common := {| sfree := fun _ => None |}.

(** Stand-ins for the configuration helpers in the sample runs: a string
    option takes one string, a port option one number from 1 to 65535. *)
Definition get_string (ci : oconfig_item_t) (old : option string)
  : Z * option string :=
  match oc_values ci with
  | [OCONFIG_TYPE_STRING s] => (0, Some s)
  | _ => (-1, old)
  end.

Definition get_port_number (ci : oconfig_item_t) : Z :=
  match oc_values ci with
  | [OCONFIG_TYPE_NUMBER n] => if (1 <=? n) && (n <=? 65535) then n else -1
  | _ => -1
  end.

#[global] Instance sample_helpers : ConfigHelpers := {|
  cf_util_get_string := get_string;
  cf_util_get_port_number := get_port_number;
  PRINTF_NULL := "(null)"
|}.

(** An [Instance] block with a host, a port in mixed case, an option the
    plugin does not know and a port that is out of range. *)
Definition block_instance : oconfig_item_t :=
  mk_oconfig_item "Instance" [OCONFIG_TYPE_STRING "default"]
    [ mk_oconfig_item "Host" [OCONFIG_TYPE_STRING "db.example"] [];
      mk_oconfig_item "pOrT" [OCONFIG_TYPE_NUMBER 3307] [];
      mk_oconfig_item "Colour" [OCONFIG_TYPE_STRING "red"] [];
      mk_oconfig_item "Port" [OCONFIG_TYPE_NUMBER 70000] [] ].

(** An [Instance] block without any option. *)
Definition block_empty : oconfig_item_t :=
  mk_oconfig_item "instance" [] [].

(** The block of the plugin: two instances and an option that does not
    belong there. *)
Definition block_plugin : oconfig_item_t :=
  mk_oconfig_item "Plugin" [OCONFIG_TYPE_STRING "write_mysql"]
    [ block_instance;
      mk_oconfig_item "Interval" [OCONFIG_TYPE_NUMBER 10] [];
      block_empty ].

(** The daemon before any plugin is configured. *)
Definition daemon_start (script : list reply) : daemon (list reply) :=
  mk_daemon script [].

(** * Properties *)

(** ** Proof steps *)

(** [unfold_m] and [unfold_api] lay a function open down to the calls it
    makes; [mcbv] opens the monad only and leaves the calls folded. *)
Ltac unfold_m :=
  cbv [bind ret get_cb modify_cb with_cb c_assert api
       mysql_init mysql_options mysql_real_connect mysql_select_db
       mysql_stmt_init mysql_stmt_prepare mysql_stmt_close mysql_close
       disconnect_and_fail].

Ltac mcbv := cbv [bind ret get_cb modify_cb].

(** One branch point of the code: the reply to the next call, a pointer
    test or a status test. *)
Ltac step :=
  match goal with
  | |- context [perform ?c ?w] =>
      let r := fresh "r" in
      let w' := fresh "w" in
      let E := fresh "E" in
      destruct (perform c w) as [r w'] eqn:E; simpl
  | |- context [is_null ?p] => destruct p eqn:?; simpl
  | |- context [negb (?a =? ?b)] => destruct (Z.eqb_spec a b); simpl
  | |- context [if ?b then _ else _] => destruct b eqn:?; simpl
  end.

Ltac unfold_api :=
  cbv [bind ret get_cb modify_cb with_cb api
       mysql_stmt_reset mysql_stmt_bind_param mysql_stmt_bind_result
       mysql_stmt_execute mysql_stmt_store_result mysql_stmt_free_result
       mysql_stmt_num_rows mysql_stmt_fetch mysql_stmt_affected_rows
       mysql_stmt_insert_id localtime_r strdup uc_get_rate].

(** The calls a run put in front of the trace it started with. *)
Ltac prefix_of l :=
  lazymatch l with
  | ?e :: ?l' => let p := prefix_of l' in constr:(e :: p)
  | _ => constr:(@nil event)
  end.

Ltac use_replies :=
  repeat match goal with
         | H : r_ptr ?r = _ |- context [r_ptr ?r] => rewrite H; simpl
         end.

Ltac use_status :=
  repeat match goal with
         | H : r_int ?r = 0 |- context [r_int ?r] => rewrite H; simpl
         | H : r_int ?r <> 0 |- context [r_int ?r =? 0] =>
             rewrite (proj2 (Z.eqb_neq _ _) H); simpl
         end.

Ltac close_handles :=
  repeat first
    [ rewrite N.eqb_refl; simpl
    | match goal with
      | |- context [N.eqb ?a ?b] => destruct (N.eqb_spec a b); subst; simpl
      end ].

(** Names the result, the final state and the new calls of a run that
    has been followed to its end. *)
Ltac finish :=
  match goal with
  | |- context [Ret _ (mk_state _ _ ?l)] =>
      let p := prefix_of l in
      do 2 eexists; exists p; split; [reflexivity|]; split; [reflexivity|]
  end.

Section ConnectionFacts.

Context {W : Type} `{Env : Environment W}.

Lemma disconnect_null (s : state W) :
  conn (cb s) = None -> wm_callback_disconnect s = Ret 0 s.
Proof.
  intros H. unfold wm_callback_disconnect, bind, get_cb. rewrite H. reflexivity.
Qed.

Lemma connect_live (s : state W) :
  is_Some (conn (cb s)) -> wm_callback_connect s = Ret 0 s.
Proof.
  intros [h H]. unfold wm_callback_connect, bind, get_cb. rewrite H. reflexivity.
Qed.

(** [wm_callback_disconnect] always returns 0 and leaves no connection. *)
Lemma disconnect_returns (s : state W) :
  exists s', wm_callback_disconnect s = Ret 0 s' /\ conn (cb s') = None.
Proof.
  destruct s as [c w t]. destruct c.
  unfold wm_callback_disconnect. unfold_m. simpl.
  repeat step; eexists; split; reflexivity.
Qed.

(** From a disconnected instance [wm_callback_connect] returns, and either
    everything is set up or everything it opened is closed again. *)
Lemma connect_dichotomy (s : state W) :
  Disconnected (cb s) ->
  exists r s' evs,
    wm_callback_connect s = Ret r s' /\
    trace s' = evs ++ trace s /\
    ((r = 0 /\ Connected (cb s') /\ statements_prepared (cb s') evs) \/
     (r = -1 /\ Disconnected (cb s') /\ live_handles evs = ([], []))).
Proof.
  destruct s as [c w t]. destruct c. unfold Disconnected. simpl.
  intros (-> & -> & -> & ->).
  unfold wm_callback_connect. unfold_m.
  unfold wm_callback_disconnect. unfold_m. simpl.
  repeat step; finish.
  all: try (left; split; [reflexivity|]; split;
            [ unfold Connected; simpl; by eauto 10
            | repeat split; eexists;
              (split; [simpl; repeat first [left; reflexivity | right]
                      | assumption]) ]).
  all: right; simpl; use_replies; close_handles.
  all: by repeat split.
Qed.

(** A successful [wm_callback_connect] leaves a connection. *)
Lemma connect_success_live (s s1 : state W) :
  wm_callback_connect s = Ret 0 s1 -> is_Some (conn (cb s1)).
Proof.
  destruct s as [c w t]. destruct c.
  unfold wm_callback_connect. unfold_m. simpl.
  repeat step;
    repeat match goal with
           | |- context [wm_callback_disconnect ?st] =>
               destruct (wm_callback_disconnect st)
           end;
    intros [= <-]; simpl; eauto.
Qed.

(** C9.  [wm_callback_connect] on an instance that is already connected
    changes nothing and returns 0, [wm_callback_disconnect] on a
    disconnected instance changes nothing and returns 0, and both are
    idempotent: a second [wm_callback_disconnect] after a first, and a
    second [wm_callback_connect] after a successful first, is such a no-op. *)
Theorem connect_disconnect_idempotent (s : state W) :
  (is_Some (conn (cb s)) -> wm_callback_connect s = Ret 0 s) /\
  (conn (cb s) = None -> wm_callback_disconnect s = Ret 0 s) /\
  (exists s1, wm_callback_disconnect s = Ret 0 s1 /\
              wm_callback_disconnect s1 = Ret 0 s1) /\
  (forall s1, wm_callback_connect s = Ret 0 s1 ->
              wm_callback_connect s1 = Ret 0 s1).
Proof.
  split; [apply connect_live|].
  split; [apply disconnect_null|].
  split.
  - destruct (disconnect_returns s) as (s1 & H1 & Hc).
    exists s1. split; [exact H1|]. by apply disconnect_null.
  - intros s1 H1. apply connect_live. by eapply connect_success_live.
Qed.

(** [wm_callback_connect] keeps an instance well-formed. *)
Lemma connect_returns (s : state W) :
  wm_wf (cb s) ->
  exists r s' evs,
    wm_callback_connect s = Ret r s' /\
    trace s' = evs ++ trace s /\
    ((r = 0 /\ Connected (cb s') /\
      (Disconnected (cb s) -> statements_prepared (cb s') evs)) \/
     (r = -1 /\ Disconnected (cb s') /\ live_handles evs = ([], []))).
Proof.
  intros [Hd | Hc].
  - destruct (connect_dichotomy s Hd) as (r & s' & evs & H1 & H2 & H3).
    exists r, s', evs. split; [exact H1|]. split; [exact H2|].
    destruct H3 as [(? & ? & ?) | ?]; [left|right]; auto.
  - exists 0, s, []. split; [by apply connect_live, Hc|].
    split; [reflexivity|]. left. split; [reflexivity|]. split; [exact Hc|].
    intros (Hnone & _). destruct Hc as [[h Hsome] _]. congruence.
Qed.

Lemma disconnect_extends (s s1 : state W) (r : Z) :
  wm_callback_disconnect s = Ret r s1 ->
  exists closes, trace s1 = closes ++ trace s.
Proof.
  destruct s as [c w t]. destruct c.
  unfold wm_callback_disconnect. unfold_m. simpl.
  repeat step; intros [= <- <-]; simpl;
    match goal with
    | |- context [?l = _ ++ t] =>
        let p := prefix_of l in exists p; reflexivity
    end.
Qed.

Ltac setup_fails :=
  match goal with
  | |- context [wm_callback_disconnect ?st] =>
      let sd := fresh "sd" in
      let Hd := fresh "Hd" in
      let closes := fresh "closes" in
      let Hcl := fresh "Hcl" in
      destruct (disconnect_returns st) as (sd & Hd & _); rewrite Hd;
      destruct (disconnect_extends _ _ _ Hd) as (closes & Hcl);
      lazymatch st with
      | mk_state _ _ (?e :: ?l) =>
          let p := prefix_of l in
          exists (-1), sd, (closes ++ e :: p); split; [reflexivity|];
          split; [rewrite Hcl; simpl; by rewrite <- app_assoc|];
          right; split; [reflexivity|]; exists st, e, p, closes;
          split; [reflexivity|]; split; [reflexivity|];
          split; [unfold failed; simpl; use_replies; use_status; reflexivity|];
          split; [unfold succeeded, failed; simpl; use_replies; use_status;
                  reflexivity|exact Hd]
      end
  end.

(** A set-up from a disconnected instance: every call succeeded and it
    returns 0, or one call failed, nothing was called after it but what
    [wm_callback_disconnect] calls, and it returns -1. *)
Lemma connect_outcome (s : state W) :
  Disconnected (cb s) ->
  exists r s' evs,
    wm_callback_connect s = Ret r s' /\
    trace s' = evs ++ trace s /\
    ((r = 0 /\ forallb succeeded evs = true /\
      map fst evs = rev (setup_calls (cb s'))) \/
     (r = -1 /\
      exists s_fail e pre closes,
        evs = closes ++ e :: pre /\
        trace s_fail = e :: pre ++ trace s /\
        failed e = true /\ forallb succeeded pre = true /\
        wm_callback_disconnect s_fail = Ret 0 s')).
Proof.
  destruct s as [c w t]. destruct c. unfold Disconnected. simpl.
  intros (-> & -> & -> & ->).
  unfold wm_callback_connect.
  cbv [bind ret get_cb modify_cb with_cb c_assert api
       mysql_init mysql_options mysql_real_connect mysql_select_db
       mysql_stmt_init mysql_stmt_prepare disconnect_and_fail].
  simpl.
  repeat match goal with
         | |- context [perform ?c ?w] =>
             let r := fresh "r" in
             let w' := fresh "w" in
             let E := fresh "E" in
             destruct (perform c w) as [r w'] eqn:E; simpl
         | |- context [is_null ?p] => destruct p eqn:?; simpl
         | |- context [negb (?a =? ?b)] => destruct (Z.eqb_spec a b); simpl
         end.
  all: try setup_fails.
  - finish. left. split; [reflexivity|].
    split; [unfold succeeded, failed; simpl; use_replies; use_status;
            reflexivity|reflexivity].
  - match goal with
    | |- context [Ret _ ?st] =>
        exists (-1), st, [(Mysql_init, r)]; split; [reflexivity|];
        split; [reflexivity|]; right; split; [reflexivity|];
        exists st, (Mysql_init, r), [], []
    end.
    split; [reflexivity|]. split; [reflexivity|].
    split; [unfold failed; simpl; use_replies; reflexivity|].
    split; reflexivity.
Qed.

(** C1.  Called on an instance that is connected with its three
    statements or disconnected without any, [wm_callback_connect] returns.
    It returns 0 with the connection and the three statements in place and
    no call of the set-up failed; from a disconnected instance its calls
    are exactly those of a full set-up, which prepares the three
    statements.  Or a call of the set-up failed -- [mysql_init],
    [mysql_real_connect], [mysql_select_db], a [mysql_stmt_init] or a
    [mysql_stmt_prepare] -- all calls before it had succeeded, and from the
    state [s_fail] right after the failure the function does what
    [wm_callback_disconnect] does there and nothing else: it returns -1
    with no connection and no statement, every handle it opened closed
    again.  No other state is left behind. *)
Theorem connect_all_or_nothing (s : state W) :
  wm_wf (cb s) ->
  exists r s' evs,
    wm_callback_connect s = Ret r s' /\
    trace s' = evs ++ trace s /\
    ((r = 0 /\ Connected (cb s') /\ forallb succeeded evs = true /\
      (Disconnected (cb s) ->
       statements_prepared (cb s') evs /\
       map fst evs = rev (setup_calls (cb s')))) \/
     (r = -1 /\ Disconnected (cb s') /\ live_handles evs = ([], []) /\
      exists s_fail e pre closes,
        evs = closes ++ e :: pre /\
        trace s_fail = e :: pre ++ trace s /\
        failed e = true /\ forallb succeeded pre = true /\
        wm_callback_disconnect s_fail = Ret 0 s')).
Proof.
  intros [Hd | Hc].
  - destruct (connect_dichotomy s Hd) as (r & s' & evs & Hret & Htr & Hold).
    destruct (connect_outcome s Hd) as (r' & s'' & evs' & Hret' & Htr' & Hnew).
    rewrite Hret in Hret'. injection Hret' as <- <-.
    assert (evs' = evs) as ->.
    { apply (app_inv_tail (trace s)). by rewrite <- Htr, <- Htr'. }
    exists r, s', evs. split; [exact Hret|]. split; [exact Htr|].
    destruct Hold as [(-> & Hconn & Hprep) | (-> & Hdisc & Hlive)].
    + left. destruct Hnew as [(_ & Hok & Hcalls) | (Hno & _)];
        [|discriminate Hno].
      split; [reflexivity|]. split; [exact Hconn|]. split; [exact Hok|].
      intros _. by split.
    + right. destruct Hnew as [(Hno & _) | (_ & Hfail)]; [discriminate Hno|].
      split; [reflexivity|]. split; [exact Hdisc|]. by split.
  - exists 0, s, []. split; [by apply connect_live, Hc|].
    split; [reflexivity|]. left. split; [reflexivity|]. split; [exact Hc|].
    split; [reflexivity|].
    intros (Hnone & _). destruct Hc as [[h Hsome] _]. congruence.
Qed.

End ConnectionFacts.

(** A first connection attempt in which [mysql_select_db] fails, and one
    in which everything succeeds. *)
Lemma connect_all_or_nothing_witness :
  (exists s',
     wm_callback_connect (s_fresh script_select_db_fails) = Ret (-1) s' /\
     Disconnected (cb s') /\
     map fst (trace s') =
       [ Mysql_close (Some 1%N);
         Mysql_select_db (Some 1%N) None;
         Mysql_real_connect (Some 1%N) None None None 0;
         Mysql_options (Some 1%N) MYSQL_OPT_COMPRESS;
         Mysql_options (Some 1%N) MYSQL_OPT_RECONNECT;
         Mysql_init ] /\
     live_handles (trace s') = ([], [])) /\
  (exists s',
     wm_callback_connect (s_fresh connect_ok_script) = Ret 0 s' /\
     Connected (cb s') /\
     map fst (trace s') = rev (setup_calls (cb s'))).
Proof.
  split.
  - destruct (connect_all_or_nothing (s_fresh script_select_db_fails))
      as (r & s' & evs & Hret & Htr & Hcases).
    { left. by repeat split. }
    simpl in Htr. rewrite app_nil_r in Htr. subst evs.
    destruct Hcases as [(Hr & _) | (_ & Hdisc & Hlive & _)].
    + exfalso. vm_compute in Hret. injection Hret as Hret _.
      rewrite Hr in Hret. discriminate Hret.
    + exists s'. vm_compute in Hret. injection Hret as _ <-.
      split; [vm_compute; reflexivity|]. split; [exact Hdisc|].
      split; [reflexivity|exact Hlive].
  - destruct (connect_all_or_nothing (s_fresh connect_ok_script))
      as (r & s' & evs & Hret & Htr & Hcases).
    { left. by repeat split. }
    simpl in Htr. rewrite app_nil_r in Htr. subst evs.
    destruct Hcases as [(_ & Hconn & _ & Hall) | (Hr & _)].
    + exists s'. vm_compute in Hret. injection Hret as _ <-.
      split; [vm_compute; reflexivity|]. split; [exact Hconn|].
      apply Hall. by repeat split.
    + exfalso. vm_compute in Hret. injection Hret as Hret _.
      rewrite Hr in Hret. discriminate Hret.
Defined.

Lemma connect_disconnect_idempotent_witness :
  wm_callback_connect (s_live ∅ []) = Ret 0 (s_live ∅ []) /\
  wm_callback_disconnect (s_fresh []) = Ret 0 (s_fresh []) /\
  (exists s1, wm_callback_disconnect (s_live ∅ []) = Ret 0 s1 /\
              wm_callback_disconnect s1 = Ret 0 s1) /\
  (exists s1, wm_callback_connect (s_fresh connect_ok_script) = Ret 0 s1 /\
              wm_callback_connect s1 = Ret 0 s1).
Proof.
  destruct (connect_disconnect_idempotent (s_live ∅ []))
    as (Hconnect & _ & Htwice & _).
  destruct (connect_disconnect_idempotent (s_fresh []))
    as (_ & Hdisconnect & _ & _).
  destruct (connect_disconnect_idempotent (s_fresh connect_ok_script))
    as (_ & _ & _ & Hagain).
  split; [apply Hconnect; eexists; reflexivity|].
  split; [apply Hdisconnect; reflexivity|].
  split; [exact Htwice|].
  eexists. split; [vm_compute; reflexivity|].
  apply Hagain. vm_compute. reflexivity.
Defined.

(** ** Identifier resolution *)

Lemma int_of_small (z : Z) : 0 <= z < 2 ^ 31 -> int_of z = z.
Proof. intros H. unfold int_of. rewrite Z.mod_small; lia. Qed.

Lemma int_of_range (z : Z) : - 2 ^ 31 <= int_of z < 2 ^ 31.
Proof.
  unfold int_of. pose proof (Z.mod_pos_bound (z + 2 ^ 31) (2 ^ 32)). lia.
Qed.

Lemma truncate_fits (n : nat) (s : string) :
  (String.length s <= n)%nat -> truncate n s = s.
Proof.
  revert n. induction s as [|c s IH]; intros [|n] H; simpl in *;
    try reflexivity; try lia.
  f_equal. apply IH. lia.
Qed.

Lemma string_length_app (a b : string) :
  String.length (a +:+ b) = (String.length a + String.length b)%nat.
Proof. induction a as [|c a IH]; simpl; [reflexivity|]. by rewrite IH. Qed.

Lemma has_slash_app (a b : string) :
  has_slash (a +:+ "/" +:+ b) = true.
Proof.
  induction a as [|c a IH]; simpl; [reflexivity|].
  rewrite IH. apply orb_true_r.
Qed.

(** The last ["/"] of a key separates it in one way only. *)
Lemma app_slash_inj (a c b d : string) :
  has_slash b = false -> has_slash d = false ->
  a +:+ "/" +:+ b = c +:+ "/" +:+ d -> a = c /\ b = d.
Proof.
  intros Hb Hd. revert c.
  induction a as [|x a IH]; intros [|y c]; simpl; intros H.
  - by injection H.
  - injection H as _ H. change (b = c +:+ "/" +:+ d) in H.
    rewrite H, has_slash_app in Hb. discriminate.
  - injection H as _ H. change (a +:+ "/" +:+ b = d) in H.
    rewrite <- H, has_slash_app in Hd. discriminate.
  - injection H as -> H. destruct (IH _ H) as [-> ->]. done.
Qed.

(** So does the first, after a part that holds none. *)
Lemma slash_app_inj_l (a c b d : string) :
  has_slash a = false -> has_slash c = false ->
  a +:+ "/" +:+ b = c +:+ "/" +:+ d -> a = c /\ b = d.
Proof.
  revert c. induction a as [|x a IH]; intros [|y c]; simpl; intros Ha Hc H.
  - by injection H.
  - injection H as <- _. discriminate Hc.
  - injection H as -> _. discriminate Ha.
  - apply orb_false_elim in Ha as [_ Ha]. apply orb_false_elim in Hc as [_ Hc].
    injection H as -> H. destruct (IH _ Ha Hc H) as [-> ->]. done.
Qed.

Lemma rows_written_cons (p : option MYSQL_STMT) (e : event) (t : list event) :
  rows_written p (e :: t) =
  ((if is_row_insert p e then 1 else 0) + rows_written p t)%nat.
Proof.
  unfold rows_written. rewrite filter_cons.
  destruct (is_row_insert p e); case_decide; done.
Qed.

Lemma rows_written_app (p : option MYSQL_STMT) (t1 t2 : list event) :
  rows_written p (t1 ++ t2) = (rows_written p t1 + rows_written p t2)%nat.
Proof. unfold rows_written. by rewrite filter_app, length_app. Qed.

Ltac count_rows :=
  repeat rewrite rows_written_cons; simpl;
  rewrite ?bool_decide_eq_false_2 by congruence; simpl;
  try reflexivity.

Section ResolverFacts.

Context {W : Type} `{Env : Environment W}.

Lemma lock_free (m : mutex) (s : state W) :
  held m (cb s) = false ->
  pthread_mutex_lock m s = Ret tt (with_cb (set_held m true) s).
Proof.
  intros H. unfold pthread_mutex_lock, bind, get_cb. by rewrite H.
Qed.

Lemma unlock_after_lock (s : state W) :
  identifier_lock (cb s) = false -> unlocked (locked s) = s.
Proof.
  destruct s as [c w t]. destruct c. simpl. intros ->. reflexivity.
Qed.

Lemma unlock_eq (m : mutex) (s : state W) :
  pthread_mutex_unlock m s = Ret tt (with_cb (set_held m false) s).
Proof. reflexivity. Qed.

Lemma cache_lookup_eq (key : string) (s : state W) :
  wm_identifier_cache_lookup key s =
  Ret (match identifier_cache (cb s) !! key with
       | Some tmp => int_of tmp
       | None => -1
       end) s.
Proof.
  unfold wm_identifier_cache_lookup, c_avl_get. mcbv.
  by destruct (identifier_cache (cb s) !! key).
Qed.

(** C7.  When the key of an identity is in the cache, [wm_identifier_to_id]
    returns the cached id and leaves the whole state as it was: no call
    leaves the plugin -- no identifier SELECT, no identifier INSERT -- and
    the world behind the calls is untouched. *)
Theorem cache_hit_is_memory_only (vl : value_list_t) (d : data_set_t)
  (i : nat) (s : state W) (key : string) (id : Z) :
  wm_identifier_key vl d i = Some key ->
  identifier_lock (cb s) = false ->
  identifier_cache (cb s) !! key = Some id ->
  0 <= id < 2 ^ 31 ->
  wm_identifier_to_id vl d i s = Ret id s.
Proof.
  intros Hkey Hlock Hhit Hid.
  unfold wm_identifier_to_id. rewrite Hkey. mcbv.
  rewrite (lock_free Identifier_lock) by exact Hlock.
  rewrite cache_lookup_eq. simpl. rewrite Hhit, (int_of_small _ Hid).
  destruct (Z.leb_spec 0 id) as [_|]; [|lia].
  f_equal. apply (unlock_after_lock s Hlock).
Qed.

(** The store round trip changes nothing in the callback structure, and
    executes the two identifier statements only. *)
Lemma database_lookup_frame (vl : value_list_t) (d : data_set_t) (i : nat)
  (s s1 : state W) (r : Z) :
  wm_identifier_database_lookup vl d i s = Ret r s1 ->
  cb s1 = cb s /\
  forall p, p <> identifier_stmt_select (cb s) ->
            p <> identifier_stmt_insert (cb s) ->
            rows_written p (trace s1) = rows_written p (trace s).
Proof.
  destruct s as [c w t].
  unfold wm_identifier_database_lookup, wm_identifier_database_insert.
  unfold_api. simpl.
  repeat step; intros [= <- <-]; (split; [reflexivity|]);
    simpl; intros p Hs Hi; count_rows.
Qed.

(** [wm_identifier_cache_insert] touches the cache only, and only when it
    succeeds. *)
Lemma cache_insert_frame (key : string) (id : Z) (s s1 : state W) (st : Z) :
  wm_identifier_cache_insert key id s = Ret st s1 ->
  (st <> 0 -> cb s1 = cb s) /\
  same_handles (cb s) (cb s1) /\
  identifier_lock (cb s1) = identifier_lock (cb s) /\
  (identifier_cache (cb s1) = identifier_cache (cb s) \/
   identifier_cache (cb s1) = <[key := id]> (identifier_cache (cb s))) /\
  forall p, rows_written p (trace s1) = rows_written p (trace s).
Proof.
  destruct s as [c w t]. destruct c.
  unfold wm_identifier_cache_insert, c_avl_insert. unfold_api. simpl.
  repeat step;
    try match goal with
        | |- context [?m !! key] => destruct (m !! key) eqn:?; simpl
        end;
    intros [= <- <-]; simpl; unfold same_handles; simpl;
    (split; [try done|]); repeat split; auto; intros; count_rows.
Qed.

(** C8.  On the slow path, when the store round trip has produced an id
    and the insertion into the cache then fails ([strdup] or the tree
    cannot allocate), [wm_identifier_to_id] still returns that id.  The
    cache is as it was before, so the next lookup of the key misses
    again. *)
Theorem cache_insert_failure_is_not_fatal (vl : value_list_t)
  (d : data_set_t) (i : nat) (s s1 s2 : state W) (key : string)
  (id st : Z) :
  wm_identifier_key vl d i = Some key ->
  identifier_lock (cb s) = false ->
  identifier_cache (cb s) !! key = None ->
  wm_identifier_database_lookup vl d i (locked s) = Ret id s1 ->
  0 <= id ->
  wm_identifier_cache_insert key id s1 = Ret st s2 ->
  st <> 0 ->
  wm_identifier_to_id vl d i s = Ret id (unlocked s2) /\
  cb (unlocked s2) = cb s /\
  wm_identifier_cache_lookup key (unlocked s2) = Ret (-1) (unlocked s2).
Proof.
  intros Hkey Hlock Hmiss Hdb Hid Hins Hst.
  destruct (database_lookup_frame _ _ _ _ _ _ Hdb) as [Hcb1 _].
  destruct (cache_insert_frame _ _ _ _ _ Hins) as [Hcb2 _].
  specialize (Hcb2 Hst).
  assert (Hcb : cb (unlocked s2) = cb s).
  { unfold unlocked, with_cb. simpl. rewrite Hcb2, Hcb1.
    apply (f_equal cb (unlock_after_lock s Hlock)). }
  split; [|split; [exact Hcb|]].
  - unfold wm_identifier_to_id. rewrite Hkey. mcbv.
    rewrite (lock_free Identifier_lock) by exact Hlock.
    rewrite cache_lookup_eq. simpl. rewrite Hmiss. simpl.
    fold (locked s). rewrite Hdb.
    destruct (Z.leb_spec 0 id) as [_|]; [|lia].
    rewrite Hins. reflexivity.
  - rewrite cache_lookup_eq, Hcb, Hmiss. reflexivity.
Qed.

(** X23.  A violated cardinality is a hard error.  When the identifier
    SELECT yields more than one row, [wm_identifier_database_lookup] frees
    the result and returns -1 without fetching an id.  When the count of
    affected rows that the identifier INSERT reports is, as the [int] the
    code compares, other than 1, [wm_identifier_database_insert] returns
    -1 without reading an insert id.  When the SELECT yields no row,
    [wm_identifier_database_lookup] returns what
    [wm_identifier_database_insert] returns.  [wm_identifier_to_id] hands a
    negative status of the lookup on and caches nothing. *)
Theorem cardinality_errors_abort_resolution (vl : value_list_t)
  (d : data_set_t) (i : nat) :
  (forall (s s1 s2 s3 s4 s5 : state W) (rows : Z),
     mysql_stmt_bind_param (identifier_stmt_select (cb s))
       (wm_identifier_select_binding vl d i) s = Ret 0 s1 ->
     mysql_stmt_bind_result (identifier_stmt_select (cb s)) s1 = Ret 0 s2 ->
     mysql_stmt_execute (identifier_stmt_select (cb s)) s2 = Ret 0 s3 ->
     mysql_stmt_store_result (identifier_stmt_select (cb s)) s3 = Ret 0 s4 ->
     mysql_stmt_num_rows (identifier_stmt_select (cb s)) s4 = Ret rows s5 ->
     1 < rows ->
     exists s6,
       mysql_stmt_free_result (identifier_stmt_select (cb s)) s5 = Ret tt s6 /\
       wm_identifier_database_lookup vl d i s = Ret (-1) s6) /\
  (forall (s s1 s2 s3 s4 : state W) (affected : Z),
     mysql_stmt_reset (identifier_stmt_insert (cb s)) s = Ret 0 s1 ->
     mysql_stmt_bind_param (identifier_stmt_insert (cb s))
       (wm_identifier_insert_binding vl d i) s1 = Ret 0 s2 ->
     mysql_stmt_execute (identifier_stmt_insert (cb s)) s2 = Ret 0 s3 ->
     mysql_stmt_affected_rows (identifier_stmt_insert (cb s)) s3
       = Ret affected s4 ->
     int_of affected <> 1 ->
     wm_identifier_database_insert vl d i s = Ret (-1) s4) /\
  (forall (s s1 s2 s3 s4 s5 s6 s7 : state W) (status : Z),
     mysql_stmt_bind_param (identifier_stmt_select (cb s))
       (wm_identifier_select_binding vl d i) s = Ret 0 s1 ->
     mysql_stmt_bind_result (identifier_stmt_select (cb s)) s1 = Ret 0 s2 ->
     mysql_stmt_execute (identifier_stmt_select (cb s)) s2 = Ret 0 s3 ->
     mysql_stmt_store_result (identifier_stmt_select (cb s)) s3 = Ret 0 s4 ->
     mysql_stmt_num_rows (identifier_stmt_select (cb s)) s4 = Ret 0 s5 ->
     mysql_stmt_free_result (identifier_stmt_select (cb s)) s5 = Ret tt s6 ->
     wm_identifier_database_insert vl d i s6 = Ret status s7 ->
     wm_identifier_database_lookup vl d i s = Ret status s7) /\
  (forall (s s1 : state W) (key : string) (status : Z),
     wm_identifier_key vl d i = Some key ->
     identifier_lock (cb s) = false ->
     identifier_cache (cb s) !! key = None ->
     wm_identifier_database_lookup vl d i (locked s) = Ret status s1 ->
     status < 0 ->
     wm_identifier_to_id vl d i s = Ret status (unlocked s1) /\
     cb (unlocked s1) = cb s).
Proof.
  split; [|split; [|split]].
  - intros s s1 s2 s3 s4 s5 rows H1 H2 H3 H4 H5 Hrows.
    assert (Hu : ulong_of rows = rows).
    { revert H5. unfold mysql_stmt_num_rows. unfold_api.
      destruct (perform _ _). intros [= <- _].
      unfold ulong_of. apply Z.mod_mod. lia. }
    destruct (mysql_stmt_free_result (identifier_stmt_select (cb s)) s5)
      as [[] s6|] eqn:H6.
    2:{ revert H6. unfold_api. by destruct (perform _ _). }
    exists s6. split; [reflexivity|].
    unfold wm_identifier_database_lookup. mcbv.
    rewrite H1. simpl. rewrite H2. simpl. rewrite H3. simpl.
    rewrite H4. simpl. rewrite H5, Hu.
    destruct (Z.eqb_spec rows 0); [lia|].
    destruct (Z.ltb_spec 1 rows); [|lia].
    rewrite H6. reflexivity.
  - intros s s1 s2 s3 s4 affected H1 H2 H3 H4 Hint.
    unfold wm_identifier_database_insert. mcbv.
    rewrite H1. simpl. rewrite H2. simpl. rewrite H3. simpl. rewrite H4.
    destruct (Z.eqb_spec (int_of affected) 1); [contradiction|]. reflexivity.
  - intros s s1 s2 s3 s4 s5 s6 s7 status H1 H2 H3 H4 H5 H6 H7.
    assert (Hcb : cb s6 = cb s).
    { revert H1 H2 H3 H4 H5 H6. unfold_api.
      repeat match goal with
             | |- context [perform ?c ?w] => destruct (perform c w)
             end.
      intros [= _ <-] [= _ <-] [= _ <-] [= _ <-] [= _ <-] [= <-].
      reflexivity. }
    unfold wm_identifier_database_lookup. mcbv.
    rewrite H1. simpl. rewrite H2. simpl. rewrite H3. simpl.
    rewrite H4. simpl. rewrite H5. change (ulong_of 0 =? 0) with true.
    simpl. rewrite H6.
    revert H7. unfold wm_identifier_database_insert. mcbv.
    by rewrite Hcb.
  - intros s s1 key status Hkey Hlock Hmiss Hdb Hneg.
    destruct (database_lookup_frame _ _ _ _ _ _ Hdb) as [Hcb1 _].
    split.
    + unfold wm_identifier_to_id. rewrite Hkey. mcbv.
      rewrite (lock_free Identifier_lock) by exact Hlock.
      rewrite cache_lookup_eq. simpl. rewrite Hmiss. simpl.
      fold (locked s). rewrite Hdb.
      destruct (Z.leb_spec 0 status) as [|_]; [lia|]. reflexivity.
    + unfold unlocked, with_cb. simpl. rewrite Hcb1.
      apply (f_equal cb (unlock_after_lock s Hlock)).
Qed.

(** With [FORMAT_VL] as the spec has it, fields that fit their buffers
    give a key that is neither refused nor cut. *)
Lemma key_of_bounded_identity (vl : value_list_t) (d : data_set_t) (i : nat) :
  (forall n v, FORMAT_VL n v = format_vl n v) ->
  bounded_fields DATA_MAX_NAME_LEN (identity_of vl d i) ->
  wm_identifier_key vl d i = Some (key_string (identity_of vl d i)).
Proof.
  intros Hfmt Hb. unfold bounded_fields, key_fields in Hb. simpl in Hb.
  rewrite !Forall_cons in Hb.
  destruct Hb as (H1 & H2 & H3 & H4 & H5 & H6 & _).
  unfold wm_identifier_key. rewrite Hfmt. unfold format_vl.
  match goal with
  | |- context [(String.length ?s <? ?n)%nat] =>
      assert (Hlen : (String.length s < n)%nat)
        by (rewrite !string_length_app; simpl; lia);
      destruct (Nat.ltb_spec (String.length s) n) as [_|]; [|lia]
  end.
  unfold snprintf_result. rewrite truncate_fits; [reflexivity|].
  rewrite !string_length_app in *. simpl in *. lia.
Qed.

(** C6, as the code has it.  The type of the data source is no part of
    the cache key: two identities with the same value list and the same
    data source name have the same key whatever their data source types.
    With [FORMAT_VL] joining the five fields of the value list by ["/"],
    as the spec has it, the key of an identity with validated fields --
    each shorter than [DATA_MAX_NAME_LEN], none holding the separator --
    is the one string [key_string] built from its six other fields, and
    two such identities have the same key exactly when they agree on
    these six fields. *)
Theorem key_is_built_from_six_fields :
  (forall (vl : value_list_t) (d1 d2 : data_set_t) (i1 i2 : nat),
     ds_name (ds_at d1 i1) = ds_name (ds_at d2 i2) ->
     wm_identifier_key vl d1 i1 = wm_identifier_key vl d2 i2) /\
  ((forall n v, FORMAT_VL n v = format_vl n v) ->
   forall (vl1 vl2 : value_list_t) (d1 d2 : data_set_t) (i1 i2 : nat),
     bounded_fields DATA_MAX_NAME_LEN (identity_of vl1 d1 i1) ->
     bounded_fields DATA_MAX_NAME_LEN (identity_of vl2 d2 i2) ->
     separator_free (identity_of vl1 d1 i1) ->
     separator_free (identity_of vl2 d2 i2) ->
     wm_identifier_key vl1 d1 i1 = Some (key_string (identity_of vl1 d1 i1)) /\
     (wm_identifier_key vl1 d1 i1 = wm_identifier_key vl2 d2 i2 <->
      key_fields (identity_of vl1 d1 i1) = key_fields (identity_of vl2 d2 i2))).
Proof.
  split.
  - intros vl d1 d2 i1 i2 Hname. unfold wm_identifier_key. by rewrite Hname.
  - intros Hfmt vl1 vl2 d1 d2 i1 i2 B1 B2 S1 S2.
    rewrite (key_of_bounded_identity vl1 d1 i1 Hfmt B1).
    rewrite (key_of_bounded_identity vl2 d2 i2 Hfmt B2).
    split; [reflexivity|].
    unfold separator_free, key_fields in S1, S2. simpl in S1, S2.
    rewrite !Forall_cons in S1, S2.
    destruct S1 as (Sa1 & Sb1 & Sc1 & Sd1 & _ & Sf1 & _).
    destruct S2 as (Sa2 & Sb2 & Sc2 & Sd2 & _ & Sf2 & _).
    unfold key_string, key_fields. simpl. split.
    + intros [= H].
      apply app_slash_inj in H as [H ->]; [|done|done].
      apply slash_app_inj_l in H as [-> H]; [|done|done].
      apply slash_app_inj_l in H as [-> H]; [|done|done].
      apply slash_app_inj_l in H as [-> H]; [|done|done].
      apply slash_app_inj_l in H as [-> ->]; [|done|done].
      reflexivity.
    + intros [= -> -> -> -> -> ->]. reflexivity.
Qed.

End ResolverFacts.

(** Two identities that differ in the type of the data source only: their
    keys are the same, the identities are not. *)
Lemma key_ignores_data_source_type :
  ~ (wm_identifier_key vl0 ds_gauge 0 = wm_identifier_key vl0 ds_counter 0 <->
     identity_of vl0 ds_gauge 0 = identity_of vl0 ds_counter 0).
Proof.
  intros [H _]. specialize (H eq_refl). discriminate H.
Qed.

(** ** The write pipeline *)

Section PipelineFacts.

Context {W : Type} `{Env : Environment W}.

Lemma bind_param_inv (p : option MYSQL_STMT) (b : list MYSQL_BIND)
  (s s1 : state W) (a : Z) :
  mysql_stmt_bind_param p b s = Ret a s1 ->
  cb s1 = cb s /\
  exists r, trace s1 = (Mysql_stmt_bind_param p b, r) :: trace s.
Proof.
  unfold_api. destruct (perform _ _). intros [= <- <-]. simpl. eauto.
Qed.

Lemma execute_inv (p : option MYSQL_STMT) (s s1 : state W) (a : Z) :
  mysql_stmt_execute p s = Ret a s1 ->
  cb s1 = cb s /\
  exists r, r_int r = a /\ trace s1 = (Mysql_stmt_execute p, r) :: trace s.
Proof.
  unfold_api. destruct (perform _ _). intros [= <- <-]. simpl. eauto.
Qed.

(** [wm_identifier_to_id] leaves the handles alone and executes the two
    identifier statements only. *)
Lemma to_id_frame (vl : value_list_t) (d : data_set_t) (i : nat)
  (s s1 : state W) (r : Z) :
  wm_identifier_to_id vl d i s = Ret r s1 ->
  same_handles (cb s) (cb s1) /\
  forall p, p <> identifier_stmt_select (cb s) ->
            p <> identifier_stmt_insert (cb s) ->
            rows_written p (trace s1) = rows_written p (trace s).
Proof.
  unfold wm_identifier_to_id.
  destruct (wm_identifier_key vl d i) as [key|].
  2:{ intros [= <- <-]. by repeat split. }
  mcbv. unfold pthread_mutex_lock. mcbv. simpl.
  destruct (identifier_lock (cb s)) eqn:Hlock; [discriminate|].
  rewrite cache_lookup_eq.
  match goal with |- context [0 <=? ?x] => destruct (0 <=? x) end.
  { intros [= <- <-]. by repeat split. }
  destruct (wm_identifier_database_lookup _ _ _ _) as [a sa|] eqn:Hdb;
    [|discriminate].
  destruct (database_lookup_frame _ _ _ _ _ _ Hdb) as [Hcb Hrows].
  simpl in Hcb, Hrows.
  destruct (0 <=? a).
  - destruct (wm_identifier_cache_insert key a sa) as [st sb|] eqn:Hins;
      [|discriminate].
    destruct (cache_insert_frame _ _ _ _ _ Hins)
      as (_ & Hh & _ & _ & Hrows').
    intros [= <- <-]. simpl. rewrite Hcb in Hh. split.
    + unfold same_handles in *. simpl in *. tauto.
    + intros p H1 H2. rewrite Hrows'. by apply Hrows.
  - intros [= <- <-]. simpl. rewrite Hcb. split.
    + by repeat split.
    + exact Hrows.
Qed.

Lemma disconnect_frame (s s1 : state W) (r : Z) :
  wm_callback_disconnect s = Ret r s1 ->
  same_cache (cb s) (cb s1) /\
  forall p, rows_written p (trace s1) = rows_written p (trace s).
Proof.
  destruct s as [c w t]. destruct c.
  unfold wm_callback_disconnect. unfold_m. simpl.
  repeat step; intros [= <- <-]; simpl; (split; [by repeat split|]);
    intros p; count_rows.
Qed.

(** Setting up or tearing down the connection executes no statement. *)
Lemma connect_frame (s s1 : state W) (r : Z) :
  wm_callback_connect s = Ret r s1 ->
  same_cache (cb s) (cb s1) /\
  forall p, rows_written p (trace s1) = rows_written p (trace s).
Proof.
  destruct s as [c w t]. destruct c.
  unfold wm_callback_connect. unfold_m. simpl.
  repeat step;
    try match goal with
        | |- context [wm_callback_disconnect ?st] =>
            let Hd := fresh "Hd" in
            destruct (wm_callback_disconnect st) eqn:Hd; [|discriminate];
            apply disconnect_frame in Hd; simpl in Hd;
            destruct Hd as [(? & ? & ?) Hd]
        end;
    try discriminate;
    intros [= <- <-]; simpl; (split; [by repeat split|]);
    intros p; rewrite ?Hd; count_rows.
Qed.

Lemma time_frame (t_in : Z) (s s1 : state W) (r : Z * MYSQL_TIME) :
  wm_cdtime_t_to_mysql_time t_in s = Ret r s1 ->
  cb s1 = cb s /\
  forall p, rows_written p (trace s1) = rows_written p (trace s).
Proof.
  unfold wm_cdtime_t_to_mysql_time. unfold_api.
  destruct (perform _ _) as [rp w]. destruct (r_tm rp);
    intros [= <- <-]; simpl; (split; [reflexivity|]); intros p; count_rows.
Qed.

Lemma uc_get_rate_frame (d : data_set_t) (vl : value_list_t) (s s1 : state W)
  (r : option (list gauge_t)) :
  uc_get_rate d vl s = Ret r s1 ->
  cb s1 = cb s /\
  forall p, rows_written p (trace s1) = rows_written p (trace s).
Proof.
  unfold_api. destruct (perform _ _) as [rp w].
  intros [= <- <-]; simpl; (split; [reflexivity|]); intros p; count_rows.
Qed.

Section Batch.

Variables (d : data_set_t) (vl : value_list_t) (rates : list gauge_t)
  (t : MYSQL_TIME).

Lemma source_skipped (i : nat) (s s1 : state W) (id : Z) :
  wm_identifier_to_id vl d i s = Ret id s1 -> id < 0 ->
  wm_write_source d vl rates t i s = Ret Continue s1.
Proof.
  intros H Hid. unfold wm_write_source. mcbv. rewrite H.
  destruct (Z.ltb_spec id 0); [reflexivity|lia].
Qed.

Lemma source_bind_fails (i : nat) (s s1 s2 : state W) (id st : Z) :
  wm_identifier_to_id vl d i s = Ret id s1 -> 0 <= id ->
  mysql_stmt_bind_param (data_stmt (cb s1))
    (wm_data_binding id t rates i) s1 = Ret st s2 ->
  st <> 0 ->
  wm_write_source d vl rates t i s = Ret (Return (-1)) s2.
Proof.
  intros H Hid Hb Hst. unfold wm_write_source. mcbv. rewrite H.
  destruct (Z.ltb_spec id 0); [lia|]. rewrite Hb.
  destruct (Z.eqb_spec st 0); [contradiction|reflexivity].
Qed.

Lemma source_execute_fails (i : nat) (s s1 s2 s3 : state W) (id st : Z) :
  wm_identifier_to_id vl d i s = Ret id s1 -> 0 <= id ->
  mysql_stmt_bind_param (data_stmt (cb s1))
    (wm_data_binding id t rates i) s1 = Ret 0 s2 ->
  mysql_stmt_execute (data_stmt (cb s1)) s2 = Ret st s3 ->
  st <> 0 ->
  wm_write_source d vl rates t i s = Ret (Return (-1)) s3.
Proof.
  intros H Hid Hb He Hst. unfold wm_write_source. mcbv. rewrite H.
  destruct (Z.ltb_spec id 0); [lia|]. rewrite Hb. simpl. rewrite He.
  destruct (Z.eqb_spec st 0); [contradiction|reflexivity].
Qed.

Lemma source_written (i : nat) (s s1 s2 s3 : state W) (id : Z) :
  wm_identifier_to_id vl d i s = Ret id s1 -> 0 <= id ->
  mysql_stmt_bind_param (data_stmt (cb s1))
    (wm_data_binding id t rates i) s1 = Ret 0 s2 ->
  mysql_stmt_execute (data_stmt (cb s1)) s2 = Ret 0 s3 ->
  wm_write_source d vl rates t i s = Ret Continue s3.
Proof.
  intros H Hid Hb He. unfold wm_write_source. mcbv. rewrite H.
  destruct (Z.ltb_spec id 0); [lia|]. rewrite Hb. simpl. by rewrite He.
Qed.

Lemma loop_unfold (n i : nat) (s : state W) :
  wm_write_loop d vl rates t (S n) i s =
  match wm_write_source d vl rates t i s with
  | Ret Continue s1 => wm_write_loop d vl rates t n (S i) s1
  | Ret (Return status) s1 => Ret status s1
  | Fault f => Fault f
  end.
Proof.
  simpl. unfold bind. destruct (wm_write_source d vl rates t i s) as [[]|];
    reflexivity.
Qed.

(** Passes without a failure of the data INSERT are a prefix of the run
    of the loop. *)
Lemma loop_passes (n m i : nat) (s s' : state W) :
  passes d vl rates t n i s s' ->
  wm_write_loop d vl rates t (n + m) i s =
  wm_write_loop d vl rates t m (n + i) s'.
Proof.
  revert i s. induction n as [|n IH]; intros i s; simpl passes.
  - by intros ->.
  - intros (id & s1 & Hid & [[Hneg Hp] | (Hpos & s2 & s3 & Hb & He & Hp)]).
    + change (S n + m)%nat with (S (n + m)). rewrite loop_unfold.
      rewrite (source_skipped _ _ _ _ Hid Hneg).
      rewrite (IH _ _ Hp). f_equal. lia.
    + change (S n + m)%nat with (S (n + m)). rewrite loop_unfold.
      rewrite (source_written _ _ _ _ _ _ Hid Hpos Hb He).
      rewrite (IH _ _ Hp). f_equal. lia.
Qed.

Lemma skips_passes (n i : nat) (s s' : state W) :
  skips d vl n i s s' -> passes d vl rates t n i s s'.
Proof.
  revert i s. induction n as [|n IH]; intros i s; simpl; [done|].
  intros (id & s1 & Hid & Hneg & Hs). exists id, s1. split; [done|].
  left. split; [done|]. by apply IH.
Qed.

(** Sources that are skipped write no row. *)
Lemma skips_frame (n i : nat) (s s' : state W) :
  skips d vl n i s s' ->
  same_handles (cb s) (cb s') /\
  forall p, p <> identifier_stmt_select (cb s) ->
            p <> identifier_stmt_insert (cb s) ->
            rows_written p (trace s') = rows_written p (trace s).
Proof.
  revert i s. induction n as [|n IH]; intros i s; simpl.
  - intros ->. by repeat split.
  - intros (id & s1 & Hid & _ & Hs).
    destruct (to_id_frame _ _ _ _ _ _ Hid) as [Hh Hr].
    destruct (IH _ _ Hs) as [Hh' Hr'].
    unfold same_handles in *.
    destruct Hh as (? & ? & Hsel & Hins & ?).
    destruct Hh' as (? & ? & ? & ? & ?).
    split; [repeat split; congruence|].
    intros p Hp1 Hp2. rewrite Hr'; [by apply Hr| |]; congruence.
Qed.

Lemma wm_write_eq (s s0 s' : state W) (status : Z) :
  uc_get_rate d vl s = Ret (Some rates) s0 ->
  conn_lock (cb s0) = false ->
  wm_write_locked d vl rates (with_cb (set_conn_lock true) s0)
    = Ret status s' ->
  wm_write d vl s = Ret status (with_cb (set_conn_lock false) s').
Proof.
  intros Hr Hl Hw. unfold wm_write. mcbv. rewrite Hr.
  rewrite (lock_free Conn_lock) by exact Hl. simpl. by rewrite Hw.
Qed.

Lemma wm_write_locked_eq (s s1 s2 : state W) :
  wm_callback_connect s = Ret 0 s1 ->
  wm_cdtime_t_to_mysql_time (vl_time vl) s1 = Ret (0, t) s2 ->
  wm_write_locked d vl rates s = wm_write_loop d vl rates t (ds_num d) 0 s2.
Proof.
  intros Hc Ht. unfold wm_write_locked. mcbv. rewrite Hc. simpl.
  by rewrite Ht.
Qed.

(** C2.  When the connection is up and [localtime_r] fails on the time of
    the batch, [wm_write_locked] returns -1 right after that call: nothing
    is resolved, bound or executed for any data source, and no row is
    written, whatever the number of data sources. *)
Theorem time_failure_aborts_batch (s s1 s2 : state W) :
  wm_callback_connect s = Ret 0 s1 ->
  localtime_r (CDTIME_T_TO_TIME_T (vl_time vl)) s1 = Ret None s2 ->
  wm_write_locked d vl rates s = Ret (-1) s2 /\
  cb s2 = cb s1 /\
  (exists r,
     trace s2 = (Localtime_r (CDTIME_T_TO_TIME_T (vl_time vl)), r) :: trace s1) /\
  (forall p, rows_written p (trace s2) = rows_written p (trace s)) /\
  (forall s_in s0 : state W,
     uc_get_rate d vl s_in = Ret (Some rates) s0 ->
     conn_lock (cb s0) = false ->
     s = with_cb (set_conn_lock true) s0 ->
     wm_write d vl s_in = Ret (-1) (with_cb (set_conn_lock false) s2)).
Proof.
  intros Hc Hl.
  assert (Ht : wm_cdtime_t_to_mysql_time (vl_time vl) s1
               = Ret (-1, MYSQL_TIME_zero) s2).
  { unfold wm_cdtime_t_to_mysql_time. mcbv. by rewrite Hl. }
  assert (Hlocked : wm_write_locked d vl rates s = Ret (-1) s2).
  { unfold wm_write_locked. mcbv. rewrite Hc. simpl. by rewrite Ht. }
  destruct (connect_frame _ _ _ Hc) as [_ Hrc].
  destruct (time_frame _ _ _ _ Ht) as [Hcb Hrt].
  split; [exact Hlocked|]. split; [exact Hcb|]. split; [|split].
  - revert Hl. unfold_api. destruct (perform _ _) as [r w].
    intros [= _ <-]. by exists r.
  - intros p. by rewrite Hrt, Hrc.
  - intros s_in s0 Hr Hfree Hs. subst s.
    by apply (wm_write_eq _ _ _ _ Hr Hfree).
Qed.

(** C3.  A data source whose identifier does not resolve is skipped and
    nothing else: the pass ends in the state the resolution left, no call
    is made on the data statement, and the loop goes on with the next
    source.  So a batch of two sources of which one resolves and the other
    does not -- in either order -- makes the loop return 0 with exactly
    one more row written through the data statement. *)
Theorem unresolved_source_is_skipped :
  (forall (n i : nat) (s s1 : state W) (id : Z),
     wm_identifier_to_id vl d i s = Ret id s1 -> id < 0 ->
     wm_write_source d vl rates t i s = Ret Continue s1 /\
     wm_write_loop d vl rates t (S n) i s =
     wm_write_loop d vl rates t n (S i) s1) /\
  (forall (s s1 s2 s3 s4 : state W) (id0 id1 : Z),
     distinct_stmts (cb s) ->
     wm_identifier_to_id vl d 0 s = Ret id0 s1 -> 0 <= id0 ->
     mysql_stmt_bind_param (data_stmt (cb s1))
       (wm_data_binding id0 t rates 0) s1 = Ret 0 s2 ->
     mysql_stmt_execute (data_stmt (cb s1)) s2 = Ret 0 s3 ->
     wm_identifier_to_id vl d 1 s3 = Ret id1 s4 -> id1 < 0 ->
     wm_write_loop d vl rates t 2 0 s = Ret 0 s4 /\
     rows_written (data_stmt (cb s)) (trace s4) =
     S (rows_written (data_stmt (cb s)) (trace s))) /\
  (forall (s s1 s2 s3 s4 : state W) (id0 id1 : Z),
     distinct_stmts (cb s) ->
     wm_identifier_to_id vl d 0 s = Ret id0 s1 -> id0 < 0 ->
     wm_identifier_to_id vl d 1 s1 = Ret id1 s2 -> 0 <= id1 ->
     mysql_stmt_bind_param (data_stmt (cb s2))
       (wm_data_binding id1 t rates 1) s2 = Ret 0 s3 ->
     mysql_stmt_execute (data_stmt (cb s2)) s3 = Ret 0 s4 ->
     wm_write_loop d vl rates t 2 0 s = Ret 0 s4 /\
     rows_written (data_stmt (cb s)) (trace s4) =
     S (rows_written (data_stmt (cb s)) (trace s))).
Proof.
  split; [|split].
  - intros n i s s1 id Hid Hneg.
    pose proof (source_skipped _ _ _ _ Hid Hneg) as Hs.
    split; [exact Hs|]. by rewrite loop_unfold, Hs.
  - intros s s1 s2 s3 s4 id0 id1 [Hd1 Hd2] H0 Hpos Hb He H1 Hneg.
    split.
    + rewrite loop_unfold, (source_written _ _ _ _ _ _ H0 Hpos Hb He).
      rewrite loop_unfold, (source_skipped _ _ _ _ H1 Hneg). reflexivity.
    + destruct (to_id_frame _ _ _ _ _ _ H0) as [(_ & Hds & Hsel & Hins & _) R0].
      destruct (bind_param_inv _ _ _ _ _ Hb) as [Hcb2 [rb Hb']].
      destruct (execute_inv _ _ _ _ He) as [Hcb3 (re & Hre & He')].
      destruct (to_id_frame _ _ _ _ _ _ H1) as [_ R1].
      rewrite R1 by (rewrite Hcb3, Hcb2; congruence).
      rewrite He', Hb', Hds. count_rows.
      rewrite bool_decide_eq_true_2 by reflexivity. rewrite Hre. simpl.
      rewrite R0; congruence.
  - intros s s1 s2 s3 s4 id0 id1 [Hd1 Hd2] H0 Hneg H1 Hpos Hb He.
    split.
    + rewrite loop_unfold, (source_skipped _ _ _ _ H0 Hneg).
      rewrite loop_unfold, (source_written _ _ _ _ _ _ H1 Hpos Hb He).
      reflexivity.
    + destruct (to_id_frame _ _ _ _ _ _ H0) as [(_ & Hds & Hsel & Hins & _) R0].
      destruct (to_id_frame _ _ _ _ _ _ H1) as [(_ & Hds' & _) R1].
      destruct (bind_param_inv _ _ _ _ _ Hb) as [Hcb2 [rb Hb']].
      destruct (execute_inv _ _ _ _ He) as [Hcb3 (re & Hre & He')].
      rewrite He', Hb', Hds', Hds. count_rows.
      rewrite bool_decide_eq_true_2 by reflexivity. rewrite Hre. simpl.
      rewrite R1 by congruence. rewrite R0; congruence.
Qed.

(** C4.  In a batch whose first [i] sources passed without a failure of
    the data INSERT, when the identifier of source [i] resolves and
    [mysql_stmt_bind_param] or [mysql_stmt_execute] then fails on the data
    statement, [wm_write] returns -1 in the state that failing call left,
    with [conn_lock] released: no later source is resolved, bound or
    executed. *)
Theorem data_insert_failure_ends_batch (i : nat)
  (s s0 s1 s2 s3 s4 : state W) (id : Z) :
  uc_get_rate d vl s = Ret (Some rates) s0 ->
  conn_lock (cb s0) = false ->
  wm_callback_connect (with_cb (set_conn_lock true) s0) = Ret 0 s1 ->
  wm_cdtime_t_to_mysql_time (vl_time vl) s1 = Ret (0, t) s2 ->
  (i < ds_num d)%nat ->
  passes d vl rates t i 0 s2 s3 ->
  wm_identifier_to_id vl d i s3 = Ret id s4 ->
  0 <= id ->
  (forall (st : Z) (s5 : state W),
     mysql_stmt_bind_param (data_stmt (cb s4))
       (wm_data_binding id t rates i) s4 = Ret st s5 ->
     st <> 0 ->
     wm_write d vl s = Ret (-1) (with_cb (set_conn_lock false) s5)) /\
  (forall (st : Z) (s5 s6 : state W),
     mysql_stmt_bind_param (data_stmt (cb s4))
       (wm_data_binding id t rates i) s4 = Ret 0 s5 ->
     mysql_stmt_execute (data_stmt (cb s4)) s5 = Ret st s6 ->
     st <> 0 ->
     wm_write d vl s = Ret (-1) (with_cb (set_conn_lock false) s6)).
Proof.
  intros Hr Hl Hc Ht Hi Hp Hid Hpos.
  assert (Hloop : forall k s',
            wm_write_source d vl rates t i s3 = Ret (Return k) s' ->
            wm_write d vl s = Ret k (with_cb (set_conn_lock false) s')).
  { intros k s' Hs. apply (wm_write_eq _ _ _ _ Hr Hl).
    rewrite (wm_write_locked_eq _ _ _ Hc Ht).
    replace (ds_num d) with (i + S (ds_num d - S i))%nat by lia.
    rewrite (loop_passes _ _ _ _ _ Hp), Nat.add_0_r, loop_unfold.
    by rewrite Hs. }
  split.
  - intros st s5 Hb Hst. apply Hloop.
    by apply (source_bind_fails _ _ _ _ _ _ Hid Hpos Hb).
  - intros st s5 s6 Hb He Hst. apply Hloop.
    by apply (source_execute_fails _ _ _ _ _ _ _ Hid Hpos Hb He).
Qed.

(** C10.  When the rates are there, the connection is up, the time
    converts and no pass of the loop meets a failure of the data INSERT,
    [wm_write] returns 0.  That is so in particular when no identifier of
    the batch resolves: every source is skipped, no row is written through
    the data statement, and the caller still gets 0. *)
Theorem skipped_batch_reports_success (s s0 s1 s2 s3 : state W) :
  uc_get_rate d vl s = Ret (Some rates) s0 ->
  conn_lock (cb s0) = false ->
  wm_callback_connect (with_cb (set_conn_lock true) s0) = Ret 0 s1 ->
  wm_cdtime_t_to_mysql_time (vl_time vl) s1 = Ret (0, t) s2 ->
  (passes d vl rates t (ds_num d) 0 s2 s3 ->
   wm_write d vl s = Ret 0 (with_cb (set_conn_lock false) s3)) /\
  (skips d vl (ds_num d) 0 s2 s3 ->
   distinct_stmts (cb s2) ->
   wm_write d vl s = Ret 0 (with_cb (set_conn_lock false) s3) /\
   rows_written (data_stmt (cb s2)) (trace s3) =
   rows_written (data_stmt (cb s2)) (trace s)).
Proof.
  intros Hr Hl Hc Ht.
  assert (Hpass : passes d vl rates t (ds_num d) 0 s2 s3 ->
                  wm_write d vl s = Ret 0 (with_cb (set_conn_lock false) s3)).
  { intros Hp. apply (wm_write_eq _ _ _ _ Hr Hl).
    rewrite (wm_write_locked_eq _ _ _ Hc Ht).
    replace (ds_num d) with (ds_num d + 0)%nat at 1 by lia.
    by rewrite (loop_passes _ _ _ _ _ Hp). }
  split; [exact Hpass|].
  intros Hs [Hd1 Hd2]. split; [by apply Hpass, skips_passes|].
  destruct (skips_frame _ _ _ _ Hs) as [_ Rs].
  destruct (uc_get_rate_frame _ _ _ _ _ Hr) as [_ R0].
  destruct (connect_frame _ _ _ Hc) as [_ R1].
  destruct (time_frame _ _ _ _ Ht) as [_ R2].
  rewrite Rs by done. rewrite R2, R1. simpl. apply R0.
Qed.

End Batch.

End PipelineFacts.

(** ** The invariant of an instance *)

Lemma init_inv : wm_inv wm_callback_init.
Proof.
  split; [left; by repeat split|]. split; [|done].
  intros k v H. simpl in H. by rewrite lookup_empty in H.
Qed.

Lemma same_handles_wf (c c1 : wm_callback_t) :
  same_handles c c1 -> wm_wf c -> wm_wf c1.
Proof.
  unfold same_handles, wm_wf, Disconnected, Connected.
  intros (-> & -> & -> & -> & _). tauto.
Qed.

Lemma cache_ok_insert (t : gmap string Z) (key : string) (id : Z) :
  cache_ok t -> 0 <= id < 2 ^ 31 -> cache_ok (<[key := id]> t).
Proof.
  intros Ht Hid k v. rewrite lookup_insert. case_decide.
  - by intros [= <-].
  - apply Ht.
Qed.

Section Totality.

Context {W : Type} `{Env : Environment W}.

(** The store round trip always returns, with a status that is an [int]. *)
Lemma database_lookup_returns (vl : value_list_t) (d : data_set_t) (i : nat)
  (s : state W) :
  exists r s1,
    wm_identifier_database_lookup vl d i s = Ret r s1 /\
    - 2 ^ 31 <= r < 2 ^ 31.
Proof.
  destruct s as [c w t].
  unfold wm_identifier_database_lookup, wm_identifier_database_insert.
  unfold_api. simpl.
  repeat step; eexists _, _; (split; [reflexivity|]);
    first [apply int_of_range | lia].
Qed.

Lemma cache_insert_returns (key : string) (id : Z) (s : state W) :
  exists st s1, wm_identifier_cache_insert key id s = Ret st s1.
Proof.
  destruct s as [c w t]. destruct c.
  unfold wm_identifier_cache_insert, c_avl_insert. unfold_api. simpl.
  repeat step;
    try match goal with
        | |- context [?m !! key] => destruct (m !! key) eqn:?; simpl
        end;
    by eexists _, _.
Qed.

(** With [identifier_lock] free, [wm_identifier_to_id] returns; it has
    released the lock and kept the cache in order. *)
Lemma to_id_returns (vl : value_list_t) (d : data_set_t) (i : nat)
  (s : state W) :
  identifier_lock (cb s) = false ->
  exists r s1,
    wm_identifier_to_id vl d i s = Ret r s1 /\
    identifier_lock (cb s1) = false /\
    (cache_ok (identifier_cache (cb s)) ->
     cache_ok (identifier_cache (cb s1))).
Proof.
  intros Hlock. unfold wm_identifier_to_id.
  destruct (wm_identifier_key vl d i) as [key|]; [|by exists (-1), s].
  mcbv. rewrite (lock_free Identifier_lock) by exact Hlock.
  rewrite cache_lookup_eq.
  match goal with |- context [0 <=? ?x] => destruct (0 <=? x) end.
  { eexists _, _. split; [reflexivity|]. split; [reflexivity|]. done. }
  destruct (database_lookup_returns vl d i
              (with_cb (set_held Identifier_lock true) s))
    as (a & sa & Hdb & Ha).
  rewrite Hdb.
  destruct (database_lookup_frame _ _ _ _ _ _ Hdb) as [Hcb _].
  destruct (Z.leb_spec 0 a).
  - destruct (cache_insert_returns key a sa) as (st & sb & Hins).
    rewrite Hins.
    destruct (cache_insert_frame _ _ _ _ _ Hins) as (_ & _ & _ & Hc & _).
    eexists _, _. split; [reflexivity|]. split; [reflexivity|].
    simpl. rewrite Hcb in Hc. simpl in Hc.
    destruct Hc as [-> | ->]; [done|].
    intros Hok. apply cache_ok_insert; [done|lia].
  - eexists _, _. split; [reflexivity|]. split; [reflexivity|].
    simpl. by rewrite Hcb.
Qed.

Lemma pass_keeps_refl (s : state W) :
  identifier_lock (cb s) = false -> pass_keeps s s.
Proof. intros H. split; [by repeat split|]. by split. Qed.

Lemma pass_keeps_trans (s s1 s2 : state W) :
  pass_keeps s s1 -> pass_keeps s1 s2 -> pass_keeps s s2.
Proof.
  intros (Hh & _ & Hc) (Hh' & Hl' & Hc').
  split; [|split; [exact Hl'|tauto]].
  unfold same_handles in *. destruct Hh as (?&?&?&?&?).
  destruct Hh' as (?&?&?&?&?). repeat split; congruence.
Qed.

Lemma source_returns (d : data_set_t) (vl : value_list_t)
  (rates : list gauge_t) (t : MYSQL_TIME) (i : nat) (s : state W) :
  identifier_lock (cb s) = false ->
  exists k s1,
    wm_write_source d vl rates t i s = Ret k s1 /\
    (k = Continue \/ k = Return (-1)) /\ pass_keeps s s1.
Proof.
  intros Hlock.
  destruct (to_id_returns vl d i s Hlock) as (id & s1 & Hid & Hl1 & Hc1).
  destruct (to_id_frame _ _ _ _ _ _ Hid) as [Hh _].
  unfold wm_write_source. mcbv. rewrite Hid.
  assert (Hkeep : forall w' t', pass_keeps s (mk_state (cb s1) w' t')).
  { intros w' t'. split; [exact Hh|]. by split. }
  destruct (id <? 0).
  { exists Continue, s1. split; [reflexivity|]. split; [by left|].
    destruct s1. apply Hkeep. }
  unfold_api. destruct s1 as [c1 w1 t1]. simpl in *.
  repeat step; eexists _, _; (split; [reflexivity|]);
    (split; [auto|]); apply Hkeep.
Qed.

Lemma loop_returns (d : data_set_t) (vl : value_list_t)
  (rates : list gauge_t) (t : MYSQL_TIME) (n i : nat) (s : state W) :
  identifier_lock (cb s) = false ->
  exists r s1,
    wm_write_loop d vl rates t n i s = Ret r s1 /\
    (r = 0 \/ r = -1) /\ pass_keeps s s1.
Proof.
  revert i s. induction n as [|n IH]; intros i s Hlock.
  - exists 0, s. split; [reflexivity|]. split; [by left|].
    by apply pass_keeps_refl.
  - destruct (source_returns d vl rates t i s Hlock)
      as (k & s1 & Hk & Hkk & Hkeep).
    rewrite loop_unfold, Hk. destruct Hkk as [-> | ->].
    + destruct (IH (S i) s1 (proj1 (proj2 Hkeep)))
        as (r & s2 & Hr & Hrr & Hkeep').
      exists r, s2. split; [exact Hr|]. split; [exact Hrr|].
      by eapply pass_keeps_trans.
    + exists (-1), s1. split; [reflexivity|]. split; [by right|]. done.
Qed.

Lemma wm_wf_set_conn_lock (b : bool) (c : wm_callback_t) :
  wm_wf c -> wm_wf (set_conn_lock b c).
Proof.
  intros [(?&?&?&?) | (?&?&?&?)]; [left|right]; by repeat split.
Qed.

Lemma wm_inv_unlock (c : wm_callback_t) :
  wm_wf c -> cache_ok (identifier_cache c) -> identifier_lock c = false ->
  wm_inv (set_conn_lock false c).
Proof.
  intros Hwf Hok Hl. split; [by apply wm_wf_set_conn_lock|]. by split.
Qed.

(** From an instance in order [wm_write] returns, with 0 or -1, and
    leaves the instance in order: the invariant holds whenever a batch
    arrives. *)
Lemma wm_write_returns (d : data_set_t) (vl : value_list_t) (s : state W) :
  wm_inv (cb s) ->
  exists r s1,
    wm_write d vl s = Ret r s1 /\ (r = 0 \/ r = -1) /\ wm_inv (cb s1).
Proof.
  intros (Hwf & Hok & Hcl & Hil).
  unfold wm_write. mcbv.
  destruct (uc_get_rate d vl s) as [rates s0|] eqn:Hr.
  2:{ revert Hr. unfold_api. by destruct (perform _ _). }
  destruct (uc_get_rate_frame _ _ _ _ _ Hr) as [Hcb0 _].
  destruct rates as [rates|].
  2:{ exists (-1), s0. split; [reflexivity|]. split; [by right|].
      by rewrite Hcb0. }
  rewrite (lock_free Conn_lock) by (by rewrite Hcb0). simpl.
  unfold wm_write_locked. mcbv.
  destruct (connect_returns (with_cb (set_conn_lock true) s0))
    as (r & s1 & evs & Hc & _ & Hcases).
  { simpl. rewrite Hcb0. by apply wm_wf_set_conn_lock. }
  rewrite Hc.
  destruct (connect_frame _ _ _ Hc) as [(Hcache & Hil1 & _) _].
  simpl in Hcache, Hil1. rewrite Hcb0 in Hcache, Hil1.
  assert (Hwf1 : wm_wf (cb s1)).
  { destruct Hcases as [(_ & ? & _) | (_ & ? & _)]; [by right|by left]. }
  assert (Hok1 : cache_ok (identifier_cache (cb s1))) by (by rewrite Hcache).
  assert (Hl1 : identifier_lock (cb s1) = false) by congruence.
  assert (Hr1 : r = 0 \/ r = -1) by (destruct Hcases as [[-> _] | [-> _]]; auto).
  destruct (Z.eqb_spec r 0) as [-> | Hne]; simpl.
  2:{ exists r, (with_cb (set_conn_lock false) s1).
      split; [reflexivity|]. split; [exact Hr1|]. by apply wm_inv_unlock. }
  destruct (wm_cdtime_t_to_mysql_time (vl_time vl) s1)
    as [[st t] s2|] eqn:Ht.
  2:{ revert Ht. unfold wm_cdtime_t_to_mysql_time. unfold_api.
      destruct (perform _ _) as [rp ?]. by destruct (r_tm rp). }
  destruct (time_frame _ _ _ _ Ht) as [Hcb2 _].
  assert (Hst : st = 0 \/ st = -1).
  { revert Ht. unfold wm_cdtime_t_to_mysql_time. unfold_api.
    destruct (perform _ _) as [rp ?]. destruct (r_tm rp); intros [= <- _ _];
      auto. }
  destruct (Z.eqb_spec st 0) as [-> | Hne]; simpl.
  2:{ exists st, (with_cb (set_conn_lock false) s2).
      split; [reflexivity|]. split; [exact Hst|].
      simpl. rewrite Hcb2. by apply wm_inv_unlock. }
  destruct (loop_returns d vl rates t (ds_num d) 0 s2)
    as (r & s3 & Hloop & Hr3 & Hh & Hl3 & Hc3).
  { by rewrite Hcb2. }
  rewrite Hloop. exists r, (with_cb (set_conn_lock false) s3).
  split; [reflexivity|]. split; [exact Hr3|].
  rewrite Hcb2 in Hh, Hc3.
  apply wm_inv_unlock; [|by apply Hc3|exact Hl3].
  by eapply same_handles_wf.
Qed.

(** Whatever the batches and whatever the world answers, every call of
    [wm_write] on an instance set up by [wm_callback_init] returns, and it
    finds and leaves the instance in order. *)
Lemma wm_write_all_returns (batches : list (data_set_t * value_list_t))
  (s : state W) :
  wm_inv (cb s) ->
  exists statuses s1,
    wm_write_all batches s = Ret statuses s1 /\
    length statuses = length batches /\
    Forall (fun r => r = 0 \/ r = -1) statuses /\
    wm_inv (cb s1).
Proof.
  revert s. induction batches as [|[d vl] rest IH]; intros s Hinv.
  - exists [], s. split; [reflexivity|]. split; [reflexivity|].
    split; [constructor|exact Hinv].
  - destruct (wm_write_returns d vl s Hinv) as (r & s1 & Hr & Hrr & Hinv1).
    destruct (IH s1 Hinv1) as (rs & s2 & Hrs & Hlen & Hall & Hinv2).
    exists (r :: rs), s2. simpl. unfold bind. rewrite Hr, Hrs.
    split; [reflexivity|]. split; [by rewrite Hlen|].
    split; [by constructor|exact Hinv2].
Qed.

End Totality.

(** * Runs in the scripted environment *)

Example fresh_instance_connects :
  exists s',
    wm_callback_connect (s_fresh connect_ok_script) = Ret 0 s' /\
    conn (cb s') = Some 1%N /\
    data_stmt (cb s') = Some 10%N /\
    identifier_stmt_select (cb s') = Some 11%N /\
    identifier_stmt_insert (cb s') = Some 12%N /\
    length (trace s') = 11%nat /\
    world s' = [].
Proof. eexists. split; [vm_compute; reflexivity|]. by repeat split. Qed.

Example first_batch_is_written :
  exists s',
    wm_write ds_two vl0 (s_fresh script_first_batch) = Ret 0 s' /\
    rows_written (Some 10%N) (trace s') = 2%nat /\
    identifier_cache (cb s') !! key_rx = Some 5 /\
    identifier_cache (cb s') !! key_tx = Some 6 /\
    conn_lock (cb s') = false /\
    world s' = [].
Proof. eexists. split; [vm_compute; reflexivity|]. by repeat split. Qed.

Example data_binding_of_first_batch :
  exists s',
    wm_write ds_two vl0 (s_fresh script_first_batch) = Ret 0 s' /\
    In (Mysql_stmt_bind_param (Some 10%N)
          [BIND_LONG 5; BIND_DATETIME t2012; BIND_DOUBLE (Some 0)])
       (map fst (trace s')) /\
    In (Mysql_stmt_bind_param (Some 12%N)
          [BIND_STRING "host1"; BIND_STRING "cpu"; BIND_STRING "0";
           BIND_STRING "cpu"; BIND_STRING "idle"; BIND_STRING "rx";
           BIND_STRING "GAUGE"])
       (map fst (trace s')).
Proof.
  eexists. split; [vm_compute; reflexivity|].
  split; vm_compute; tauto.
Qed.

Lemma cache_hit_is_memory_only_witness :
  wm_identifier_to_id vl0 ds_gauge 0 (s_live {[ key_value := 7 ]} [])
  = Ret 7 (s_live {[ key_value := 7 ]} []).
Proof.
  apply (cache_hit_is_memory_only vl0 ds_gauge 0
           (s_live {[ key_value := 7 ]} []) key_value 7).
  - reflexivity.
  - reflexivity.
  - reflexivity.
  - lia.
Defined.

Lemma cache_insert_failure_is_not_fatal_witness :
  exists s',
    wm_identifier_to_id vl0 ds_gauge 0 (s_live ∅ script_strdup_fails)
    = Ret 7 s' /\
    cb s' = cb_live ∅ /\
    wm_identifier_cache_lookup key_value s' = Ret (-1) s'.
Proof.
  eexists.
  eapply (cache_insert_failure_is_not_fatal vl0 ds_gauge 0
            (s_live ∅ script_strdup_fails) _ _ key_value 7 ENOMEM).
  - reflexivity.
  - reflexivity.
  - reflexivity.
  - vm_compute. reflexivity.
  - lia.
  - vm_compute. reflexivity.
  - discriminate.
Defined.

Lemma cardinality_errors_abort_resolution_witness :
  (exists s',
     wm_identifier_database_lookup vl0 ds_gauge 0 (s_live ∅ script_two_rows)
     = Ret (-1) s') /\
  (exists s',
     wm_identifier_database_insert vl0 ds_gauge 0
       (s_live ∅ script_no_row_affected) = Ret (-1) s') /\
  (exists s',
     wm_identifier_to_id vl0 ds_gauge 0 (s_live ∅ script_insert_refused)
     = Ret (-1) s' /\ cb s' = cb_live ∅) /\
  (exists s',
     wm_identifier_to_id vl0 ds_gauge 0 (s_live ∅ script_two_rows)
     = Ret (-1) s' /\ cb s' = cb_live ∅).
Proof.
  destruct (cardinality_errors_abort_resolution (W := list reply)
              vl0 ds_gauge 0) as (Hsel & Hins & Hover & Hres).
  split; [|split; [|split]].
  - edestruct (Hsel (s_live ∅ script_two_rows)) as (s6 & _ & H).
    + vm_compute. reflexivity.
    + vm_compute. reflexivity.
    + vm_compute. reflexivity.
    + vm_compute. reflexivity.
    + vm_compute. reflexivity.
    + lia.
    + exists s6. exact H.
  - eexists. eapply (Hins (s_live ∅ script_no_row_affected)).
    + vm_compute. reflexivity.
    + vm_compute. reflexivity.
    + vm_compute. reflexivity.
    + vm_compute. reflexivity.
    + vm_compute. discriminate.
  - eexists.
    eapply (Hres (s_live ∅ script_insert_refused) _ key_value).
    + reflexivity.
    + reflexivity.
    + reflexivity.
    + eapply (Hover (locked (s_live ∅ script_insert_refused))).
      * vm_compute. reflexivity.
      * vm_compute. reflexivity.
      * vm_compute. reflexivity.
      * vm_compute. reflexivity.
      * vm_compute. reflexivity.
      * vm_compute. reflexivity.
      * eapply Hins.
        -- vm_compute. reflexivity.
        -- vm_compute. reflexivity.
        -- vm_compute. reflexivity.
        -- vm_compute. reflexivity.
        -- vm_compute. discriminate.
    + lia.
  - eexists. eapply (Hres (s_live ∅ script_two_rows) _ key_value).
    + reflexivity.
    + reflexivity.
    + reflexivity.
    + vm_compute. reflexivity.
    + lia.
Defined.


Lemma key_is_built_from_six_fields_witness :
  wm_identifier_key vl0 ds_gauge 0 = wm_identifier_key vl0 ds_counter 0 /\
  wm_identifier_key vl0 ds_gauge 0 = Some "host1/cpu/0/cpu/idle/value" /\
  (wm_identifier_key vl0 ds_gauge 0 = wm_identifier_key vl0 ds_two 0 <->
   key_fields (identity_of vl0 ds_gauge 0)
   = key_fields (identity_of vl0 ds_two 0)).
Proof.
  destruct (key_is_built_from_six_fields (W := list reply)) as [Hsame Hsix].
  split; [apply Hsame; reflexivity|].
  edestruct (Hsix (fun _ _ => eq_refl) vl0 vl0 ds_gauge ds_two 0%nat 0%nat)
    as [Hkey Hiff].
  - repeat constructor; simpl; lia.
  - repeat constructor; simpl; lia.
  - repeat constructor.
  - repeat constructor.
  - split; [exact Hkey|exact Hiff].
Defined.

Lemma time_failure_aborts_batch_witness :
  exists s2,
    wm_write_locked ds_two vl0 [0; 0] (s_conn_locked ∅ script_no_time)
    = Ret (-1) s2 /\
    (forall p, rows_written p (trace s2) = 0%nat) /\
    wm_write ds_two vl0 (s_live ∅ (reply_ok :: script_no_time))
    = Ret (-1) (with_cb (set_conn_lock false) s2) /\
    trace s2 = [ (Localtime_r 1325419200, r_no_time);
                 (Uc_get_rate ds_two vl0, reply_ok) ].
Proof.
  edestruct (time_failure_aborts_batch ds_two vl0 [0; 0]
               (s_conn_locked ∅ script_no_time)
               (s_conn_locked ∅ script_no_time))
    as (Hret & _ & _ & Hrows & Hwrite).
  - reflexivity.
  - vm_compute. reflexivity.
  - eexists. split; [exact Hret|]. split; [|split].
    + intros p. rewrite Hrows. reflexivity.
    + apply (Hwrite _ (s_rates_read ∅ script_no_time)); reflexivity.
    + reflexivity.
Defined.

Lemma unresolved_source_is_skipped_witness :
  (exists s1,
     wm_write_source ds_two vl0 [1; 2] t2012 1
       (s_live {[ key_rx := 7 ]} [ r_status 1 ]) = Ret Continue s1 /\
     wm_write_loop ds_two vl0 [1; 2] t2012 1 1
       (s_live {[ key_rx := 7 ]} [ r_status 1 ]) = Ret 0 s1) /\
  (exists s4,
     wm_write_loop ds_two vl0 [1; 2] t2012 2 0
       (s_live {[ key_rx := 7 ]} script_second_unresolved) = Ret 0 s4 /\
     rows_written (Some 10%N) (trace s4) = 1%nat) /\
  (exists s4,
     wm_write_loop ds_two vl0 [1; 2] t2012 2 0
       (s_live {[ key_tx := 8 ]} script_first_unresolved) = Ret 0 s4 /\
     rows_written (Some 10%N) (trace s4) = 1%nat).
Proof.
  destruct (unresolved_source_is_skipped (W := list reply)
              ds_two vl0 [1; 2] t2012) as (Hskip & Hfirst & Hsecond).
  split; [|split].
  - edestruct (Hskip 0%nat 1%nat (s_live {[ key_rx := 7 ]} [ r_status 1 ]))
      as [Hsource Hloop].
    + vm_compute. reflexivity.
    + lia.
    + eexists. split; [exact Hsource|]. rewrite Hloop. reflexivity.
  - eexists.
    eapply (Hfirst (s_live {[ key_rx := 7 ]} script_second_unresolved)).
    + split; discriminate.
    + vm_compute. reflexivity.
    + lia.
    + vm_compute. reflexivity.
    + vm_compute. reflexivity.
    + vm_compute. reflexivity.
    + lia.
  - eexists.
    eapply (Hsecond (s_live {[ key_tx := 8 ]} script_first_unresolved)).
    + split; discriminate.
    + vm_compute. reflexivity.
    + lia.
    + vm_compute. reflexivity.
    + lia.
    + vm_compute. reflexivity.
    + vm_compute. reflexivity.
Defined.

Lemma data_insert_failure_ends_batch_witness :
  (exists s',
     wm_write ds_two vl0 (s_live {[ key_rx := 7 ]} script_bind_fails)
     = Ret (-1) s' /\
     length (trace s') = 3%nat) /\
  (exists s',
     wm_write ds_two vl0 (s_live {[ key_rx := 7 ]} script_execute_fails)
     = Ret (-1) s' /\
     length (trace s') = 4%nat).
Proof.
  split.
  - edestruct (data_insert_failure_ends_batch ds_two vl0 [0; 0] t2012 0
                 (s_live {[ key_rx := 7 ]} script_bind_fails))
      as [Hbind _].
    + vm_compute. reflexivity.
    + reflexivity.
    + vm_compute. reflexivity.
    + vm_compute. reflexivity.
    + unfold ds_num. simpl. lia.
    + reflexivity.
    + vm_compute. reflexivity.
    + lia.
    + eexists. split.
      * eapply (Hbind 1); [vm_compute; reflexivity|discriminate].
      * reflexivity.
  - edestruct (data_insert_failure_ends_batch ds_two vl0 [0; 0] t2012 0
                 (s_live {[ key_rx := 7 ]} script_execute_fails))
      as [_ Hexecute].
    + vm_compute. reflexivity.
    + reflexivity.
    + vm_compute. reflexivity.
    + vm_compute. reflexivity.
    + unfold ds_num. simpl. lia.
    + reflexivity.
    + vm_compute. reflexivity.
    + lia.
    + eexists. split.
      * eapply (Hexecute 1).
        -- vm_compute. reflexivity.
        -- vm_compute. reflexivity.
        -- discriminate.
      * reflexivity.
Defined.

Lemma skipped_batch_reports_success_witness :
  (exists s',
     wm_write ds_two vl0 (s_live {[ key_rx := 7 ]} script_one_row)
     = Ret 0 s') /\
  (exists s',
     wm_write ds_two vl0 (s_live ∅ script_nothing_resolves) = Ret 0 s' /\
     rows_written (Some 10%N) (trace s') = 0%nat).
Proof.
  split.
  - edestruct (skipped_batch_reports_success ds_two vl0 [0; 0] t2012
                 (s_live {[ key_rx := 7 ]} script_one_row))
      as [Hpasses _].
    + vm_compute. reflexivity.
    + reflexivity.
    + vm_compute. reflexivity.
    + vm_compute. reflexivity.
    + eexists. apply Hpasses. simpl.
      eexists _, _. split; [vm_compute; reflexivity|].
      right. split; [lia|].
      eexists _, _. split; [vm_compute; reflexivity|].
      split; [vm_compute; reflexivity|].
      eexists _, _. split; [vm_compute; reflexivity|].
      left. split; [lia|]. reflexivity.
  - edestruct (skipped_batch_reports_success ds_two vl0 [0; 0] t2012
                 (s_live ∅ script_nothing_resolves))
      as [_ Hskips].
    + vm_compute. reflexivity.
    + reflexivity.
    + vm_compute. reflexivity.
    + vm_compute. reflexivity.
    + edestruct Hskips as [Hret Hrows].
      * simpl. eexists _, _. split; [vm_compute; reflexivity|].
        split; [lia|].
        eexists _, _. split; [vm_compute; reflexivity|].
        split; [lia|]. reflexivity.
      * split; discriminate.
      * eexists. split; [exact Hret|]. exact Hrows.
Defined.

(** * Further properties of the plugin *)

(** ** The store round trip *)

Lemma ulong_of_count (z : Z) : ulong_of (z mod 2 ^ 64) = z mod 2 ^ 64.
Proof. unfold ulong_of. apply Z.mod_mod. lia. Qed.

Lemma remove_stmt_head (p : option MYSQL_STMT)
  (l : list (option MYSQL_STMT)) :
  remove_stmt p (p :: l) = l.
Proof. simpl. by rewrite bool_decide_eq_true_2. Qed.

Section StoreRoundTrip.

Context {W : Type} `{Env : Environment W}.

Ltac follow_lookup s :=
  destruct s as [c w t];
  unfold wm_identifier_database_lookup, wm_identifier_database_insert;
  unfold_api; simpl; rewrite ?ulong_of_count;
  repeat step; finish.

(** X1.  [wm_identifier_database_lookup] always returns, and on every path
    it releases the result set it stored: following its calls in order, a
    [mysql_stmt_store_result] buffers a result set on its statement and a
    later [mysql_stmt_free_result] on the same statement releases it, and
    at the end no result set is left; a release before the store or on
    another statement would leave one.  Both functions are called equally
    often, once or not at all. *)
Theorem lookup_frees_what_it_stores (vl : value_list_t) (d : data_set_t)
  (i : nat) (s : state W) :
  exists r s1 evs,
    wm_identifier_database_lookup vl d i s = Ret r s1 /\
    trace s1 = evs ++ trace s /\
    results_held evs = [] /\
    count_calls is_store_result evs = count_calls is_free_result evs /\
    (count_calls is_store_result evs <= 1)%nat.
Proof.
  follow_lookup s; simpl.
  all: split; [|split; (reflexivity || lia)].
  all: unfold results_held; cbn [foldr track_result fst];
    rewrite ?remove_stmt_head; reflexivity.
Qed.

(** X2.  In one round trip the identifier INSERT is attempted at most
    once, and only after the identifier SELECT has reported zero rows:
    [mysql_stmt_reset], the first call of [wm_identifier_database_insert],
    is made at most once, and when it is made [mysql_stmt_num_rows]
    answered 0 before.  No more than two statements are executed. *)
Theorem insert_only_after_empty_select (vl : value_list_t) (d : data_set_t)
  (i : nat) (s : state W) :
  exists r s1 evs,
    wm_identifier_database_lookup vl d i s = Ret r s1 /\
    trace s1 = evs ++ trace s /\
    (count_calls is_reset evs <= 1)%nat /\
    (count_calls is_execute evs <= 2)%nat /\
    (count_calls is_reset evs = 1%nat ->
     exists rep,
       In (Mysql_stmt_num_rows (identifier_stmt_select (cb s)), rep) evs /\
       r_int rep mod 2 ^ 64 = 0).
Proof.
  follow_lookup s; simpl; (split; [lia|]); (split; [lia|]);
    intros Hreset; try discriminate Hreset;
    eexists; (split; [repeat first [left; reflexivity | right]|]);
    match goal with
    | H : (_ =? 0) = true |- _ =>
        apply Z.eqb_eq in H; rewrite ulong_of_count in H; exact H
    end.
Qed.

(** X3.  A non-negative result of [wm_identifier_database_lookup] is never
    made up: it is the id of the one row that [mysql_stmt_fetch] delivered
    with status 0 and a non-NULL id, or the value of
    [mysql_stmt_insert_id], narrowed to [int]. *)
Theorem resolved_id_comes_from_store (vl : value_list_t) (d : data_set_t)
  (i : nat) (s : state W) :
  exists r s1 evs,
    wm_identifier_database_lookup vl d i s = Ret r s1 /\
    trace s1 = evs ++ trace s /\
    (0 <= r ->
     (exists rep,
        In (Mysql_stmt_fetch (identifier_stmt_select (cb s)), rep) evs /\
        r_int rep = 0 /\ r_is_null rep = false /\ r = int_of (r_id rep)) \/
     (exists rep,
        In (Mysql_stmt_insert_id (identifier_stmt_insert (cb s)), rep) evs /\
        r = int_of (r_int rep mod 2 ^ 64))).
Proof.
  follow_lookup s; simpl; intros Hr; try lia.
  - right. eexists. split; [repeat first [left; reflexivity | right]|].
    reflexivity.
  - left. eexists. split; [repeat first [left; reflexivity | right]|].
    by repeat split.
Qed.

End StoreRoundTrip.

(** ** The cache *)

Section CacheFacts.

Context {W : Type} `{Env : Environment W}.

(** X11.  The key of an identity always fits.  With [FORMAT_VL] joining
    the five fields of the value list by ["/"], as the spec has it, and
    each of the six fields shorter than [DATA_MAX_NAME_LEN], as the
    [char[DATA_MAX_NAME_LEN]] buffers of collectd make them, [FORMAT_VL]
    does not fail in its buffer of [6 * DATA_MAX_NAME_LEN] and the key is
    not cut in its buffer of [7 * DATA_MAX_NAME_LEN]: [wm_identifier_key]
    is the full string of the six fields, so that [wm_identifier_to_id]
    never gives up before it has consulted the cache. *)
Theorem bounded_identity_has_full_key (vl : value_list_t) (d : data_set_t)
  (i : nat) :
  (forall n v, FORMAT_VL n v = format_vl n v) ->
  bounded_fields DATA_MAX_NAME_LEN (identity_of vl d i) ->
  wm_identifier_key vl d i = Some (key_string (identity_of vl d i)) /\
  forall (s : state W) (id : Z),
    identifier_lock (cb s) = false ->
    identifier_cache (cb s) !! key_string (identity_of vl d i) = Some id ->
    0 <= id < 2 ^ 31 ->
    wm_identifier_to_id vl d i s = Ret id s.
Proof.
  intros Hfmt Hb.
  pose proof (key_of_bounded_identity vl d i Hfmt Hb) as Hkey.
  split; [exact Hkey|].
  intros s id Hlock Hhit Hid.
  unfold wm_identifier_to_id. rewrite Hkey. mcbv.
  rewrite (lock_free Identifier_lock) by exact Hlock.
  rewrite cache_lookup_eq. simpl. rewrite Hhit, (int_of_small _ Hid).
  destruct (Z.leb_spec 0 id) as [_|]; [|lia].
  f_equal. apply (unlock_after_lock s Hlock).
Qed.

(** [wm_identifier_cache_insert] returns 0 exactly when it has stored the
    id under a key that was not there; otherwise the cache is as before. *)
Lemma cache_insert_cases (key : string) (id : Z) (s s1 : state W) (st : Z) :
  wm_identifier_cache_insert key id s = Ret st s1 ->
  (st = 0 /\ identifier_cache (cb s) !! key = None /\
   identifier_cache (cb s1) = <[key := id]> (identifier_cache (cb s))) \/
  (st <> 0 /\ identifier_cache (cb s1) = identifier_cache (cb s)).
Proof.
  destruct s as [c w t]. destruct c.
  unfold wm_identifier_cache_insert, c_avl_insert. unfold_api. simpl.
  repeat step;
    try match goal with
        | |- context [?m !! key] => destruct (m !! key) eqn:?; simpl
        end;
    intros [= <- <-]; simpl; auto; right; by split.
Qed.

Lemma to_id_hit (vl : value_list_t) (d : data_set_t) (i : nat)
  (s : state W) (key : string) (id : Z) :
  wm_identifier_key vl d i = Some key ->
  identifier_lock (cb s) = false ->
  identifier_cache (cb s) !! key = Some id ->
  0 <= id < 2 ^ 31 ->
  wm_identifier_to_id vl d i s = Ret id s.
Proof.
  intros Hkey Hlock Hhit Hid.
  unfold wm_identifier_to_id. rewrite Hkey. mcbv.
  rewrite (lock_free Identifier_lock) by exact Hlock.
  rewrite cache_lookup_eq. simpl. rewrite Hhit, (int_of_small _ Hid).
  destruct (Z.leb_spec 0 id) as [_|]; [|lia].
  f_equal. apply (unlock_after_lock s Hlock).
Qed.

(** X4.  Round trip through the cache.  When an identity goes the slow
    path, the store delivers an id and the insertion into the cache
    succeeds, [wm_identifier_to_id] returns this id, the cache is the old
    one with the id under the key of the identity, and resolving the same
    identity again returns the same id without a call and without any
    change of state. *)
Theorem resolved_id_is_cached (vl : value_list_t) (d : data_set_t)
  (i : nat) (s s1 s2 : state W) (key : string) (id : Z) :
  wm_identifier_key vl d i = Some key ->
  identifier_lock (cb s) = false ->
  identifier_cache (cb s) !! key = None ->
  wm_identifier_database_lookup vl d i (locked s) = Ret id s1 ->
  0 <= id ->
  wm_identifier_cache_insert key id s1 = Ret 0 s2 ->
  wm_identifier_to_id vl d i s = Ret id (unlocked s2) /\
  identifier_cache (cb (unlocked s2)) = <[key := id]> (identifier_cache (cb s)) /\
  wm_identifier_to_id vl d i (unlocked s2) = Ret id (unlocked s2).
Proof.
  intros Hkey Hlock Hmiss Hdb Hid Hins.
  destruct (database_lookup_frame _ _ _ _ _ _ Hdb) as [Hcb1 _].
  destruct (database_lookup_returns vl d i (locked s)) as (r & sr & Hr & Hrange).
  rewrite Hdb in Hr. injection Hr as <- <-.
  destruct (cache_insert_cases _ _ _ _ _ Hins)
    as [(_ & _ & Hcache) | [Hne _]]; [|contradiction].
  rewrite Hcb1 in Hcache. simpl in Hcache.
  assert (Hfirst : wm_identifier_to_id vl d i s = Ret id (unlocked s2)).
  { unfold wm_identifier_to_id. rewrite Hkey. mcbv.
    rewrite (lock_free Identifier_lock) by exact Hlock.
    rewrite cache_lookup_eq. simpl. rewrite Hmiss. simpl.
    fold (locked s). rewrite Hdb.
    destruct (Z.leb_spec 0 id) as [_|]; [|lia].
    rewrite Hins. reflexivity. }
  split; [exact Hfirst|]. split; [exact Hcache|].
  apply (to_id_hit vl d i (unlocked s2) key id Hkey); [reflexivity| |lia].
  simpl. rewrite Hcache. apply lookup_insert_eq.
Qed.

(** X5.  [wm_identifier_to_id] never changes and never removes an entry of
    the cache.  The only entry it can add is the one for the key of the
    identity it resolves, with the non-negative id it returns. *)
Theorem resolution_only_adds_its_own_key (vl : value_list_t)
  (d : data_set_t) (i : nat) (s s1 : state W) (r : Z) :
  wm_identifier_to_id vl d i s = Ret r s1 ->
  (forall k v, identifier_cache (cb s) !! k = Some v ->
               identifier_cache (cb s1) !! k = Some v) /\
  (forall k, identifier_cache (cb s1) !! k <> identifier_cache (cb s) !! k ->
             wm_identifier_key vl d i = Some k /\
             identifier_cache (cb s) !! k = None /\
             identifier_cache (cb s1) !! k = Some r /\ 0 <= r).
Proof.
  unfold wm_identifier_to_id.
  destruct (wm_identifier_key vl d i) as [key|].
  2:{ intros [= <- <-]. split; [done|]. intros k Hk. by destruct Hk. }
  mcbv. unfold pthread_mutex_lock. mcbv. simpl.
  destruct (identifier_lock (cb s)) eqn:Hlock; [discriminate|].
  rewrite cache_lookup_eq.
  match goal with |- context [0 <=? ?x] => destruct (0 <=? x) end.
  { intros [= <- <-]. simpl. split; [done|]. intros k Hk. by destruct Hk. }
  destruct (wm_identifier_database_lookup _ _ _ _) as [a sa|] eqn:Hdb;
    [|discriminate].
  destruct (database_lookup_frame _ _ _ _ _ _ Hdb) as [Hcb _].
  simpl in Hcb.
  destruct (Z.leb_spec 0 a).
  - destruct (wm_identifier_cache_insert key a sa) as [st sb|] eqn:Hins;
      [|discriminate].
    intros [= <- <-]. simpl.
    destruct (cache_insert_cases _ _ _ _ _ Hins)
      as [(_ & Hnone & ->) | [_ ->]]; rewrite Hcb in *; simpl in *.
    + split.
      * intros k v Hk. rewrite lookup_insert. case_decide; [congruence|done].
      * intros k. rewrite lookup_insert. case_decide; [|done].
        subst k. intros _. by repeat split.
    + split; [done|]. intros k Hk. by destruct Hk.
  - intros [= <- <-]. simpl. rewrite Hcb. simpl.
    split; [done|]. intros k Hk. by destruct Hk.
Qed.

(** X6.  An id beyond [INT_MAX] is lost.  When the identifier INSERT goes
    through and the store reports an insert id between [2^31] and [2^32],
    the narrowing to [int] makes [wm_identifier_database_insert] return
    the negative number [id - 2^32], which its callers take for a
    failure. *)
Theorem insert_id_beyond_int_is_negative (vl : value_list_t)
  (d : data_set_t) (i : nat) (s s1 s2 s3 s4 s5 : state W) (id : Z) :
  mysql_stmt_reset (identifier_stmt_insert (cb s)) s = Ret 0 s1 ->
  mysql_stmt_bind_param (identifier_stmt_insert (cb s))
    (wm_identifier_insert_binding vl d i) s1 = Ret 0 s2 ->
  mysql_stmt_execute (identifier_stmt_insert (cb s)) s2 = Ret 0 s3 ->
  mysql_stmt_affected_rows (identifier_stmt_insert (cb s)) s3 = Ret 1 s4 ->
  mysql_stmt_insert_id (identifier_stmt_insert (cb s)) s4 = Ret id s5 ->
  2 ^ 31 <= id < 2 ^ 32 ->
  wm_identifier_database_insert vl d i s = Ret (id - 2 ^ 32) s5 /\
  id - 2 ^ 32 < 0.
Proof.
  intros H1 H2 H3 H4 H5 Hid. split; [|lia].
  unfold wm_identifier_database_insert. mcbv.
  rewrite H1. simpl. rewrite H2. simpl. rewrite H3. simpl. rewrite H4.
  change (int_of 1 =? 1) with true. simpl. rewrite H5. f_equal.
  unfold int_of.
  replace (id + 2 ^ 31) with (id - 2 ^ 31 + 1 * 2 ^ 32) by lia.
  rewrite Z.mod_add by lia. rewrite Z.mod_small; lia.
Qed.

End CacheFacts.

(** ** Connection life cycle, continued *)

Lemma count_calls_app (f : call -> bool) (t1 t2 : list event) :
  count_calls f (t1 ++ t2) = (count_calls f t1 + count_calls f t2)%nat.
Proof.
  induction t1 as [|[c r] t1 IH]; simpl; [reflexivity|]. rewrite IH. lia.
Qed.

Section LifeCycleFacts.

Context {W : Type} `{Env : Environment W}.

(** X7.  On a live connection [wm_callback_disconnect] returns 0 after
    closing every statement that is there and then the connection, in this
    order and each once; it leaves the instance disconnected and keeps the
    cache, the mutexes and the configured options. *)
Theorem disconnect_closes_statements_first (s : state W) :
  is_Some (conn (cb s)) ->
  exists s1 evs,
    wm_callback_disconnect s = Ret 0 s1 /\
    trace s1 = evs ++ trace s /\
    map fst evs = rev (disconnect_calls (cb s)) /\
    Disconnected (cb s1) /\
    same_cache (cb s) (cb s1) /\
    same_options (cb s) (cb s1).
Proof.
  destruct s as [c w t]. destruct c. simpl. intros [h ->].
  unfold wm_callback_disconnect. unfold_m. simpl.
  repeat step;
    match goal with
    | |- context [Ret _ (mk_state _ _ ?l)] =>
        let p := prefix_of l in
        eexists; exists p; split; [reflexivity|]; split; [reflexivity|]
    end;
    by repeat split.
Qed.

End LifeCycleFacts.

(** ** Calls on the data statement *)

Lemma on_stmt_other (p q : option MYSQL_STMT) (c : call) :
  stmt_of c = Some q -> q <> p -> on_stmt p c = false.
Proof.
  intros Hc Hne. unfold on_stmt. rewrite Hc.
  by apply bool_decide_eq_false_2.
Qed.

Lemma untouched_is_ok (p : option MYSQL_STMT) (t : MYSQL_TIME)
  (rates : list gauge_t) (lo hi : nat) (evs : list event) :
  count_calls (on_stmt p) evs = O ->
  Forall (data_call_ok p t rates lo hi) evs.
Proof.
  induction evs as [|[c r] evs IH]; simpl; intros H; constructor.
  - unfold data_call_ok. simpl. destruct (on_stmt p c); [lia|discriminate].
  - apply IH. lia.
Qed.

Lemma data_call_ok_weaken (p : option MYSQL_STMT) (t : MYSQL_TIME)
  (rates : list gauge_t) (lo hi lo' hi' : nat) (e : event) :
  (lo' <= lo)%nat -> (hi <= hi')%nat ->
  data_call_ok p t rates lo hi e -> data_call_ok p t rates lo' hi' e.
Proof.
  intros Hlo Hhi H Hon. destruct (H Hon) as [Hx | (id & j & ? & ? & ?)];
    [by left|right]. exists id, j. repeat split; (done || lia).
Qed.

Section DataStatement.

Context {W : Type} `{Env : Environment W}.

Ltac no_call_on p :=
  intros p ? ?; simpl; unfold on_stmt; simpl;
  rewrite ?bool_decide_eq_false_2 by congruence; reflexivity.

Lemma lookup_calls (vl : value_list_t) (d : data_set_t) (i : nat)
  (s : state W) :
  exists r s1 evs,
    wm_identifier_database_lookup vl d i s = Ret r s1 /\
    trace s1 = evs ++ trace s /\
    (forall p, p <> identifier_stmt_select (cb s) ->
               p <> identifier_stmt_insert (cb s) ->
               count_calls (on_stmt p) evs = O) /\
    count_calls opens_or_closes evs = O.
Proof.
  destruct s as [c w t].
  unfold wm_identifier_database_lookup, wm_identifier_database_insert.
  unfold_api. simpl.
  repeat step; finish; (split; [no_call_on p|reflexivity]).
Qed.

Lemma cache_insert_calls (key : string) (id : Z) (s : state W) :
  exists st s1 evs,
    wm_identifier_cache_insert key id s = Ret st s1 /\
    trace s1 = evs ++ trace s /\
    (forall p, count_calls (on_stmt p) evs = O) /\
    count_calls opens_or_closes evs = O.
Proof.
  destruct s as [c w t]. destruct c.
  unfold wm_identifier_cache_insert, c_avl_insert. unfold_api. simpl.
  repeat step;
    try match goal with
        | |- context [?m !! key] => destruct (m !! key) eqn:?; simpl
        end;
    finish; (split; [intros p|]); reflexivity.
Qed.

Lemma to_id_calls (vl : value_list_t)
  (d : data_set_t) (i : nat) (s s1 : state W) (r : Z) :
  wm_identifier_to_id vl d i s = Ret r s1 ->
  exists evs,
    trace s1 = evs ++ trace s /\
    (forall p, p <> identifier_stmt_select (cb s) ->
               p <> identifier_stmt_insert (cb s) ->
               count_calls (on_stmt p) evs = O) /\
    count_calls opens_or_closes evs = O.
Proof.
  unfold wm_identifier_to_id.
  destruct (wm_identifier_key vl d i) as [key|].
  2:{ intros [= <- <-]. by exists []. }
  mcbv. unfold pthread_mutex_lock. mcbv. simpl.
  destruct (identifier_lock (cb s)) eqn:Hlock; [discriminate|].
  rewrite cache_lookup_eq.
  match goal with |- context [0 <=? ?x] => destruct (0 <=? x) end.
  { intros [= <- <-]. by exists []. }
  destruct (lookup_calls vl d i (with_cb (set_identifier_lock true) s))
    as (a & sa & evs & Hdb & Htr & Hno & Hlc).
  rewrite Hdb. simpl in Htr, Hno.
  destruct (0 <=? a).
  - destruct (cache_insert_calls key a sa)
      as (st & sb & evs' & Hins & Htr' & Hno' & Hlc').
    rewrite Hins. intros [= <- <-]. simpl.
    exists (evs' ++ evs). split; [by rewrite Htr', Htr, app_assoc|].
    split; [|by rewrite count_calls_app, Hlc', Hlc].
    intros p H1 H2. rewrite count_calls_app, Hno', Hno; done.
  - intros [= <- <-]. simpl. by exists evs.
Qed.

(** X8.  [wm_identifier_to_id] works on the two identifier statements
    only: among its calls none is on any other statement, so none on the
    data statement when that is a different object. *)
Theorem resolution_uses_identifier_statements_only (vl : value_list_t)
  (d : data_set_t) (i : nat) (s s1 : state W) (r : Z) :
  wm_identifier_to_id vl d i s = Ret r s1 ->
  exists evs,
    trace s1 = evs ++ trace s /\
    forall p, p <> identifier_stmt_select (cb s) ->
              p <> identifier_stmt_insert (cb s) ->
              count_calls (on_stmt p) evs = O.
Proof.
  intros Hid. destruct (to_id_calls _ _ _ _ _ _ Hid) as (evs & Htr & Hno & _).
  by exists evs.
Qed.

Section Batch.

Variables (d : data_set_t) (vl : value_list_t) (rates : list gauge_t)
  (t : MYSQL_TIME).

(** One pass of the loop: what it calls on the data statement and how
    many rows it writes. *)
Lemma source_calls (i : nat) (s s1 : state W) (k : control) :
  wm_write_source d vl rates t i s = Ret k s1 ->
  distinct_stmts (cb s) ->
  exists evs,
    trace s1 = evs ++ trace s /\
    same_handles (cb s) (cb s1) /\
    Forall (data_call_ok (data_stmt (cb s)) t rates i (S i)) evs /\
    (rows_written (data_stmt (cb s)) evs <= 1)%nat /\
    (k <> Continue -> rows_written (data_stmt (cb s)) evs = O).
Proof.
  intros Hsrc [Hd1 Hd2]. revert Hsrc.
  unfold wm_write_source. mcbv.
  destruct (wm_identifier_to_id vl d i s) as [id sa|] eqn:Hid; [|discriminate].
  destruct (to_id_calls _ _ _ _ _ _ Hid) as (evs & Htr & Hno & _).
  destruct (to_id_frame _ _ _ _ _ _ Hid) as [Hh Hrows].
  specialize (Hno _ Hd1 Hd2). specialize (Hrows _ Hd1 Hd2).
  assert (Hrows0 : rows_written (data_stmt (cb s)) evs = O).
  { rewrite Htr, rows_written_app in Hrows. lia. }
  pose proof (untouched_is_ok _ t rates i (S i) _ Hno) as Hok.
  destruct (Z.ltb_spec id 0).
  { intros [= <- <-]. exists evs. split; [exact Htr|]. split; [exact Hh|].
    split; [exact Hok|]. split; [lia|done]. }
  assert (Hp : data_stmt (cb sa) = data_stmt (cb s)) by apply Hh.
  rewrite Hp. unfold_api. destruct sa as [ca wa ta]. simpl in *. subst ta.
  repeat step; intros [= <- <-].
  - eexists (_ :: _ :: evs). split; [reflexivity|]. split; [exact Hh|].
    split; [|split].
    + constructor; [intros _; by left|].
      constructor; [|exact Hok]. intros _. right. exists id, i.
      repeat split; (done || lia).
    + rewrite !rows_written_cons. simpl.
      destruct (bool_decide _ && _); simpl; lia.
    + intros Hk. by destruct Hk.
  - eexists (_ :: _ :: evs). split; [reflexivity|]. split; [exact Hh|].
    split; [|split].
    + constructor; [intros _; by left|].
      constructor; [|exact Hok]. intros _. right. exists id, i.
      repeat split; (done || lia).
    + rewrite !rows_written_cons. simpl.
      destruct (bool_decide _ && _); simpl; lia.
    + intros _. rewrite !rows_written_cons. simpl.
      match goal with Hst : r_int _ <> 0 |- _ =>
        apply Z.eqb_neq in Hst; rewrite Hst end.
      rewrite andb_false_r. simpl. lia.
  - eexists (_ :: evs). split; [reflexivity|]. split; [exact Hh|].
    split; [|split].
    + constructor; [|exact Hok]. intros _. right. exists id, i.
      repeat split; (done || lia).
    + rewrite rows_written_cons. simpl. lia.
    + intros _. rewrite rows_written_cons. simpl. lia.
Qed.

Lemma same_handles_distinct (c c1 : wm_callback_t) :
  same_handles c c1 -> distinct_stmts c -> distinct_stmts c1.
Proof.
  unfold same_handles, distinct_stmts. intros (_ & -> & -> & -> & _). tauto.
Qed.

Lemma same_handles_trans (c c1 c2 : wm_callback_t) :
  same_handles c c1 -> same_handles c1 c2 -> same_handles c c2.
Proof.
  unfold same_handles. intros (?&?&?&?&?) (?&?&?&?&?).
  repeat split; congruence.
Qed.

(** The whole loop: what it calls on the data statement and how many rows
    it writes. *)
Lemma loop_calls (n i : nat) (s s1 : state W) (r : Z) :
  wm_write_loop d vl rates t n i s = Ret r s1 ->
  distinct_stmts (cb s) ->
  exists evs,
    trace s1 = evs ++ trace s /\
    same_handles (cb s) (cb s1) /\
    Forall (data_call_ok (data_stmt (cb s)) t rates i (i + n)) evs /\
    (rows_written (data_stmt (cb s)) evs <= n)%nat /\
    (r <> 0 -> (rows_written (data_stmt (cb s)) evs < n)%nat).
Proof.
  revert i s. induction n as [|n IH]; intros i s Hloop Hdist.
  - injection Hloop as <- <-. exists []. split; [reflexivity|].
    split; [by repeat split|]. split; [constructor|]. split; [done|].
    intros Hr. by destruct Hr.
  - rewrite loop_unfold in Hloop.
    destruct (wm_write_source d vl rates t i s) as [k sa|] eqn:Hsrc;
      [|discriminate].
    destruct (source_calls _ _ _ _ Hsrc Hdist)
      as (evs1 & Htr1 & Hh1 & Hok1 & Hrows1 & Hfail1).
    assert (Hok1' : Forall (data_call_ok (data_stmt (cb s)) t rates i
                              (i + S n)) evs1).
    { eapply Forall_impl; [exact Hok1|]. intros e.
      apply data_call_ok_weaken; lia. }
    destruct k as [|st].
    + destruct (IH _ _ Hloop (same_handles_distinct _ _ Hh1 Hdist))
        as (evs2 & Htr2 & Hh2 & Hok2 & Hrows2 & Hfail2).
      assert (Hp : data_stmt (cb sa) = data_stmt (cb s)) by apply Hh1.
      rewrite Hp in Hok2, Hrows2, Hfail2.
      exists (evs2 ++ evs1). split; [by rewrite Htr2, Htr1, app_assoc|].
      split; [by eapply same_handles_trans|]. split; [|split].
      * apply Forall_app. split; [|exact Hok1'].
        eapply Forall_impl; [exact Hok2|]. intros e.
        apply data_call_ok_weaken; lia.
      * rewrite rows_written_app. lia.
      * intros Hr. rewrite rows_written_app. specialize (Hfail2 Hr). lia.
    + injection Hloop as <- <-. exists evs1. split; [exact Htr1|].
      split; [exact Hh1|]. split; [exact Hok1'|].
      rewrite Hfail1 by discriminate. split; [lia|]. intros _. lia.
Qed.


(** X10.  The loop writes at most one row per data source, and fewer rows
    than sources when it ends with an error. *)
Theorem at_most_one_row_per_source (n i : nat) (s s1 : state W) (r : Z) :
  wm_write_loop d vl rates t n i s = Ret r s1 ->
  distinct_stmts (cb s) ->
  (rows_written (data_stmt (cb s)) (trace s1)
   <= rows_written (data_stmt (cb s)) (trace s) + n)%nat /\
  (r <> 0 ->
   (rows_written (data_stmt (cb s)) (trace s1)
    < rows_written (data_stmt (cb s)) (trace s) + n)%nat).
Proof.
  intros Hloop Hdist.
  destruct (loop_calls _ _ _ _ _ Hloop Hdist)
    as (evs & Htr & _ & _ & Hrows & Hfail).
  rewrite Htr, rows_written_app. split; [lia|].
  intros Hr. specialize (Hfail Hr). lia.
Qed.

End Batch.

End DataStatement.

(** ** Reconnection *)

Section Reconnection.

Context {W : Type} `{Env : Environment W}.

(** Connecting binds and executes nothing. *)
Lemma connect_calls (s : state W) :
  Disconnected (cb s) ->
  exists r s' evs,
    wm_callback_connect s = Ret r s' /\
    trace s' = evs ++ trace s /\
    (count_calls is_bind_param evs = O /\ count_calls is_execute evs = O) /\
    ((r = 0 /\ Connected (cb s') /\ statements_prepared (cb s') evs) \/
     (r = -1 /\ Disconnected (cb s') /\ live_handles evs = ([], []))).
Proof.
  destruct s as [c w t]. destruct c. unfold Disconnected. simpl.
  intros (-> & -> & -> & ->).
  unfold wm_callback_connect. unfold_m.
  unfold wm_callback_disconnect. unfold_m. simpl.
  repeat step; finish; (split; [by split|]).
  all: try (left; split; [reflexivity|]; split;
            [ unfold Connected; simpl; by eauto 10
            | repeat split; eexists;
              (split; [simpl; repeat first [left; reflexivity | right]
                      | assumption]) ]).
  all: right; simpl; use_replies; close_handles.
  all: by repeat split.
Qed.

Lemma source_extends (d : data_set_t) (vl : value_list_t)
  (rates : list gauge_t) (t : MYSQL_TIME) (i : nat) (s s1 : state W)
  (k : control) :
  wm_write_source d vl rates t i s = Ret k s1 ->
  exists evs,
    trace s1 = evs ++ trace s /\ same_handles (cb s) (cb s1) /\
    count_calls opens_or_closes evs = O.
Proof.
  unfold wm_write_source. mcbv.
  destruct (wm_identifier_to_id vl d i s) as [id sa|] eqn:Hid; [|discriminate].
  destruct (to_id_calls _ _ _ _ _ _ Hid) as (evs & Htr & _ & Hlc).
  destruct (to_id_frame _ _ _ _ _ _ Hid) as [Hh _].
  destruct (id <? 0); [intros [= <- <-]; by exists evs|].
  destruct (mysql_stmt_bind_param _ _ sa) as [st sb|] eqn:Hb; [|discriminate].
  destruct (bind_param_inv _ _ _ _ _ Hb) as [Hcb [rb Hrb]].
  destruct (negb (st =? 0)).
  { intros [= <- <-]. eexists (_ :: evs). rewrite Hrb, Htr, Hcb.
    split; [reflexivity|]. split; [exact Hh|]. simpl. exact Hlc. }
  destruct (mysql_stmt_execute _ sb) as [st' sc|] eqn:He; [|discriminate].
  destruct (execute_inv _ _ _ _ He) as [Hcb' (re & _ & Hre)].
  assert (exists evs', trace sc = evs' ++ trace s /\
                       same_handles (cb s) (cb sc) /\
                       count_calls opens_or_closes evs' = O) as Hboth.
  { eexists (_ :: _ :: evs). rewrite Hre, Hrb, Htr, Hcb', Hcb.
    split; [reflexivity|]. split; [exact Hh|]. simpl. exact Hlc. }
  destruct (negb (st' =? 0)); intros [= <- <-]; exact Hboth.
Qed.

Lemma loop_extends (d : data_set_t) (vl : value_list_t)
  (rates : list gauge_t) (t : MYSQL_TIME) (n i : nat) (s s1 : state W)
  (r : Z) :
  wm_write_loop d vl rates t n i s = Ret r s1 ->
  exists evs,
    trace s1 = evs ++ trace s /\ same_handles (cb s) (cb s1) /\
    count_calls opens_or_closes evs = O.
Proof.
  revert i s. induction n as [|n IH]; intros i s Hloop.
  - injection Hloop as <- <-. exists []. split; [reflexivity|].
    by repeat split.
  - rewrite loop_unfold in Hloop.
    destruct (wm_write_source d vl rates t i s) as [k sa|] eqn:Hsrc;
      [|discriminate].
    destruct (source_extends _ _ _ _ _ _ _ _ Hsrc)
      as (evs1 & Htr1 & Hh1 & Hlc1).
    destruct k as [|st].
    + destruct (IH _ _ Hloop) as (evs2 & Htr2 & Hh2 & Hlc2).
      exists (evs2 ++ evs1). split; [by rewrite Htr2, Htr1, app_assoc|].
      split; [by eapply same_handles_trans|].
      by rewrite count_calls_app, Hlc2, Hlc1.
    + injection Hloop as <- <-. by exists evs1.
Qed.

Lemma same_handles_connected (c c1 : wm_callback_t) :
  same_handles c c1 -> Connected c -> Connected c1.
Proof.
  unfold same_handles, Connected. intros (-> & -> & -> & -> & _). tauto.
Qed.

Lemma same_handles_prepared (c c1 : wm_callback_t) (evs : list event) :
  same_handles c c1 -> statements_prepared c evs -> statements_prepared c1 evs.
Proof.
  unfold same_handles, statements_prepared.
  intros (_ & -> & -> & -> & _). tauto.
Qed.

(** X12.  A write on a disconnected instance starts by connecting.  When
    [wm_write_locked] runs on a disconnected instance, either the
    connection fails and it returns -1 with the instance disconnected,
    every handle closed again and no statement executed; or the instance
    ends connected, and the calls of the write begin with a connection
    phase that prepares the three statements and binds and executes
    nothing: whatever is bound or executed comes after. *)
Theorem write_on_disconnected_connects_first (d : data_set_t)
  (vl : value_list_t) (rates : list gauge_t) (s s' : state W) (r : Z) :
  Disconnected (cb s) ->
  wm_write_locked d vl rates s = Ret r s' ->
  (r = -1 /\ Disconnected (cb s') /\
   exists evs,
     trace s' = evs ++ trace s /\ live_handles evs = ([], []) /\
     count_calls is_execute evs = O) \/
  (Connected (cb s') /\
   exists evs_batch evs_connect,
     trace s' = evs_batch ++ evs_connect ++ trace s /\
     statements_prepared (cb s') evs_connect /\
     count_calls is_bind_param evs_connect = O /\
     count_calls is_execute evs_connect = O).
Proof.
  intros Hdisc. unfold wm_write_locked. mcbv.
  destruct (connect_calls s Hdisc)
    as (rc & s1 & evs & Hc & Htr & [Hnb Hne] & Hcases).
  rewrite Hc.
  destruct Hcases as [(-> & Hconn & Hprep) | (-> & Hdisc1 & Hlive)]; simpl.
  2:{ intros [= <- <-]. left. split; [reflexivity|]. split; [exact Hdisc1|].
      by exists evs. }
  destruct (wm_cdtime_t_to_mysql_time (vl_time vl) s1)
    as [[st t] s2|] eqn:Ht; [|discriminate].
  destruct (time_frame _ _ _ _ Ht) as [Hcb2 _].
  assert (Htr2 : exists e, trace s2 = e :: trace s1).
  { revert Ht. unfold wm_cdtime_t_to_mysql_time. unfold_api.
    destruct (perform _ _) as [rp wp].
    destruct (r_tm rp); intros [= _ _ <-]; simpl; eauto. }
  destruct Htr2 as [e Htr2].
  destruct (negb (st =? 0)).
  { intros [= <- <-]. right. rewrite Hcb2. split; [exact Hconn|].
    exists [e], evs. rewrite Htr2, Htr. split; [reflexivity|].
    split; [exact Hprep|]. by split. }
  intros Hloop.
  destruct (loop_extends _ _ _ _ _ _ _ _ _ Hloop) as (evs3 & Htr3 & Hh3 & _).
  rewrite Hcb2 in Hh3. right.
  split; [by eapply same_handles_connected|].
  exists (evs3 ++ [e]), evs. split; [|split; [|by split]].
  - rewrite Htr3, Htr2, Htr, <- app_assoc. reflexivity.
  - by eapply same_handles_prepared.
Qed.

(** X13.  The cache outlives the connection.  After
    [wm_callback_disconnect] and a successful [wm_callback_connect], an
    identity that was in the cache before is still resolved from memory:
    [wm_identifier_to_id] returns its id and makes no call. *)
Theorem cache_survives_reconnect (vl : value_list_t) (d : data_set_t)
  (i : nat) (s s1 s2 : state W) (key : string) (id : Z) :
  wm_identifier_key vl d i = Some key ->
  identifier_lock (cb s) = false ->
  identifier_cache (cb s) !! key = Some id ->
  0 <= id < 2 ^ 31 ->
  wm_callback_disconnect s = Ret 0 s1 ->
  wm_callback_connect s1 = Ret 0 s2 ->
  wm_identifier_to_id vl d i s2 = Ret id s2.
Proof.
  intros Hkey Hlock Hhit Hid Hd Hc.
  destruct (disconnect_frame _ _ _ Hd) as [(Hc1 & Hl1 & _) _].
  destruct (connect_frame _ _ _ Hc) as [(Hc2 & Hl2 & _) _].
  apply (to_id_hit vl d i s2 key id Hkey); [congruence| |exact Hid].
  by rewrite Hc2, Hc1.
Qed.

(** X14.  From an instance in order -- connection and statements together
    or not at all, non-negative [int]s in the cache, no mutex held --
    [wm_write] always returns: no assertion fails and no mutex is locked
    twice.  It returns 0 or -1 and leaves the instance in order, with
    [conn_lock] and [identifier_lock] released on every path. *)
Theorem wm_write_keeps_instance_in_order (d : data_set_t)
  (vl : value_list_t) (s : state W) :
  wm_inv (cb s) ->
  exists r s1,
    wm_write d vl s = Ret r s1 /\ (r = 0 \/ r = -1) /\ wm_inv (cb s1).
Proof. exact (wm_write_returns d vl s). Qed.

End Reconnection.

(** ** Release of an instance *)

Lemma track_quiet (evs : list event) (open : list MYSQL * list MYSQL_STMT) :
  count_calls opens_or_closes evs = O -> foldr track open evs = open.
Proof.
  induction evs as [|[c r] evs IH]; simpl; [done|].
  destruct (opens_or_closes c) eqn:Hc; [discriminate|].
  intros H. rewrite (IH H). by destruct c.
Qed.

Lemma follow_trans (c c1 c2 : wm_callback_t) (evs1 evs2 : list event) :
  handles_follow c c1 evs1 -> handles_follow c1 c2 evs2 ->
  handles_follow c c2 (evs2 ++ evs1).
Proof.
  unfold handles_follow. intros H1 H2. by rewrite foldr_app, H1.
Qed.

Lemma follow_quiet (c c1 : wm_callback_t) (evs : list event) :
  count_calls opens_or_closes evs = O ->
  held_handles c1 = held_handles c ->
  handles_follow c c1 evs.
Proof.
  unfold handles_follow. intros H1 H2. by rewrite track_quiet.
Qed.

Lemma same_handles_held (c c1 : wm_callback_t) :
  same_handles c c1 -> held_handles c1 = held_handles c.
Proof.
  unfold same_handles, held_handles. by intros (-> & -> & -> & -> & _).
Qed.

Section Release.

Context {W : Type} `{Env : Environment W} `{Cmn : Common}.

(** A first connection opens what the instance holds afterwards, and
    nothing else stays open. *)
Lemma connect_opens (s : state W) :
  Disconnected (cb s) ->
  exists r s' evs,
    wm_callback_connect s = Ret r s' /\
    trace s' = evs ++ trace s /\
    live_handles evs = held_handles (cb s') /\
    wm_wf (cb s') /\ (r = 0 \/ r = -1).
Proof.
  destruct s as [c w t]. destruct c. unfold Disconnected. simpl.
  intros (-> & -> & -> & ->).
  unfold wm_callback_connect. unfold_m.
  unfold wm_callback_disconnect. unfold_m. simpl.
  repeat step; finish; unfold held_handles; simpl; use_replies; close_handles.
  all: split; [reflexivity|].
  all: split; [|by auto].
  all: first [ left; by repeat split
             | right; unfold Connected; simpl; by eauto 10 ].
Qed.

Lemma connect_follows (s : state W) :
  wm_wf (cb s) ->
  exists r s' evs,
    wm_callback_connect s = Ret r s' /\
    trace s' = evs ++ trace s /\
    handles_follow (cb s) (cb s') evs /\
    wm_wf (cb s') /\ (r = 0 \/ r = -1).
Proof.
  intros [Hd | Hc].
  - destruct (connect_opens s Hd) as (r & s' & evs & H1 & H2 & H3 & H4).
    exists r, s', evs. split; [exact H1|]. split; [exact H2|].
    split; [|exact H4]. unfold handles_follow.
    destruct Hd as (Hd1 & Hd2 & Hd3 & Hd4).
    unfold held_handles at 1. rewrite Hd1, Hd2, Hd3, Hd4. exact H3.
  - exists 0, s, []. split; [by apply connect_live, Hc|].
    split; [reflexivity|]. split; [reflexivity|]. split; [by right|by left].
Qed.

Lemma time_quiet (t_in : Z) (s s1 : state W) (r : Z * MYSQL_TIME) :
  wm_cdtime_t_to_mysql_time t_in s = Ret r s1 ->
  cb s1 = cb s /\
  exists e, trace s1 = e :: trace s /\ opens_or_closes e.1 = false.
Proof.
  unfold wm_cdtime_t_to_mysql_time. unfold_api.
  destruct (perform _ _) as [rp w]. destruct (r_tm rp);
    intros [= <- <-]; simpl; (split; [reflexivity|]); by eexists.
Qed.

Lemma write_locked_follows (d : data_set_t) (vl : value_list_t)
  (rates : list gauge_t) (s s' : state W) (r : Z) :
  wm_wf (cb s) ->
  wm_write_locked d vl rates s = Ret r s' ->
  exists evs,
    trace s' = evs ++ trace s /\ handles_follow (cb s) (cb s') evs.
Proof.
  intros Hwf. unfold wm_write_locked. mcbv.
  destruct (connect_follows s Hwf)
    as (rc & s1 & evs & Hc & Htr & Hf & Hwf1 & Hrc).
  rewrite Hc. destruct Hrc as [-> | ->]; simpl.
  2:{ intros [= <- <-]. by exists evs. }
  destruct (wm_cdtime_t_to_mysql_time (vl_time vl) s1)
    as [[st t] s2|] eqn:Ht; [|discriminate].
  destruct (time_quiet _ _ _ _ Ht) as (Hcb2 & e & Htr2 & He).
  assert (Hf2 : handles_follow (cb s) (cb s2) ([e] ++ evs)).
  { apply (follow_trans _ (cb s1)); [exact Hf|].
    apply follow_quiet; [|by rewrite Hcb2]. destruct e as [c rp]. simpl in *.
    by rewrite He. }
  destruct (negb (st =? 0)).
  { intros [= <- <-]. exists ([e] ++ evs). split; [|exact Hf2].
    by rewrite Htr2, Htr. }
  intros Hloop.
  destruct (loop_extends _ _ _ _ _ _ _ _ _ Hloop) as (evs3 & Htr3 & Hh3 & Hq).
  exists (evs3 ++ [e] ++ evs). split.
  - by rewrite Htr3, Htr2, Htr, <- !app_assoc.
  - apply (follow_trans _ (cb s2)); [exact Hf2|].
    apply follow_quiet; [exact Hq|]. by apply same_handles_held.
Qed.

Lemma wm_write_follows (d : data_set_t) (vl : value_list_t)
  (s s' : state W) (r : Z) :
  wm_wf (cb s) -> conn_lock (cb s) = false ->
  wm_write d vl s = Ret r s' ->
  exists evs,
    trace s' = evs ++ trace s /\ handles_follow (cb s) (cb s') evs.
Proof.
  intros Hwf Hcl. unfold wm_write. mcbv.
  destruct (uc_get_rate d vl s) as [rates s0|] eqn:Hr; [|discriminate].
  assert (Hr0 : cb s0 = cb s /\
                exists e, trace s0 = e :: trace s /\
                          opens_or_closes e.1 = false).
  { revert Hr. unfold_api. destruct (perform _ _) as [rp w].
    intros [= _ <-]. simpl. split; [reflexivity|]. by eexists. }
  destruct Hr0 as (Hcb0 & e & Htr0 & He).
  assert (Hf0 : handles_follow (cb s) (cb s0) [e]).
  { apply follow_quiet; [|by rewrite Hcb0]. destruct e as [c rp]. simpl in *.
    by rewrite He. }
  destruct rates as [rates|].
  2:{ intros [= <- <-]. exists [e]. by split. }
  rewrite (lock_free Conn_lock) by (by rewrite Hcb0). simpl.
  destruct (wm_write_locked d vl rates _) as [st s2|] eqn:Hw; [|discriminate].
  apply write_locked_follows in Hw.
  2:{ simpl. rewrite Hcb0. by apply wm_wf_set_conn_lock. }
  destruct Hw as (evs & Htr & Hf). simpl in Htr, Hf.
  intros [= <- <-]. simpl.
  exists (evs ++ [e]). split; [by rewrite Htr, Htr0, <- app_assoc|].
  apply (follow_trans _ (cb s0)); [exact Hf0|]. exact Hf.
Qed.

Lemma wm_write_all_follows (batches : list (data_set_t * value_list_t))
  (s : state W) :
  wm_inv (cb s) ->
  exists statuses s1 evs,
    wm_write_all batches s = Ret statuses s1 /\
    trace s1 = evs ++ trace s /\
    handles_follow (cb s) (cb s1) evs /\
    wm_inv (cb s1).
Proof.
  revert s. induction batches as [|[d vl] rest IH]; intros s Hinv.
  - exists [], s, []. split; [reflexivity|]. split; [reflexivity|].
    split; [reflexivity|exact Hinv].
  - destruct (wm_write_returns d vl s Hinv) as (r & s1 & Hr & _ & Hinv1).
    destruct (wm_write_follows d vl s s1 r) as (evs1 & Htr1 & Hf1);
      [apply Hinv|apply Hinv|exact Hr|].
    destruct (IH s1 Hinv1) as (rs & s2 & evs2 & Hrs & Htr2 & Hf2 & Hinv2).
    exists (r :: rs), s2, (evs2 ++ evs1). simpl. unfold bind. rewrite Hr, Hrs.
    split; [reflexivity|]. split; [by rewrite Htr2, Htr1, app_assoc|].
    split; [by eapply follow_trans|exact Hinv2].
Qed.

(** Releasing a well-formed instance closes every handle it holds. *)
Lemma free_closes (s : state W) :
  wm_wf (cb s) ->
  exists s1 evs,
    wm_callback_free s = Ret tt s1 /\
    trace s1 = evs ++ trace s /\
    handles_follow (cb s) (cb s1) evs /\
    Disconnected (cb s1) /\
    same_cache (cb s) (cb s1).
Proof.
  destruct s as [c w t]. destruct c. unfold wm_callback_free.
  intros [Hd | Hc]; revert Hd || revert Hc;
    unfold Disconnected, Connected; simpl.
  - intros (-> & -> & -> & ->). unfold wm_callback_disconnect. unfold_m. simpl.
    eexists; exists []. by repeat split.
  - intros ([c ->] & [h1 ->] & [h2 ->] & [h3 ->]).
    unfold wm_callback_disconnect. unfold_m. simpl.
    repeat step.
    match goal with
    | |- context [Ret _ (mk_state _ _ ?l)] =>
        let p := prefix_of l in
        eexists; exists p; split; [reflexivity|]; split; [reflexivity|]
    end.
    split; [|by repeat split].
    unfold handles_follow, held_handles. simpl. close_handles; reflexivity.
Qed.

(** X15.  No handle leaks over the life of an instance.  Take an instance
    in order that holds no connection, let the daemon hand it any batches
    through [wm_write], whatever the world answers, and release it with
    [wm_callback_free]: all these calls return, every connection and every
    statement opened along the way has been closed by the end, and the
    instance is left disconnected. *)
Theorem no_handle_outlives_the_instance
  (batches : list (data_set_t * value_list_t)) (s : state W) :
  wm_inv (cb s) -> Disconnected (cb s) ->
  exists statuses s1 s2 evs,
    wm_write_all batches s = Ret statuses s1 /\
    wm_callback_free s1 = Ret tt s2 /\
    trace s2 = evs ++ trace s /\
    live_handles evs = ([], []) /\
    Disconnected (cb s2).
Proof.
  intros Hinv (Hd1 & Hd2 & Hd3 & Hd4).
  destruct (wm_write_all_follows batches s Hinv)
    as (rs & s1 & evs1 & Hrun & Htr1 & Hf1 & Hinv1).
  destruct (free_closes s1) as (s2 & evs2 & Hfree & Htr2 & Hf2 & Hdisc & _);
    [apply Hinv1|].
  exists rs, s1, s2, (evs2 ++ evs1). split; [exact Hrun|].
  split; [exact Hfree|]. split; [by rewrite Htr2, Htr1, app_assoc|].
  split; [|exact Hdisc].
  pose proof (follow_trans _ _ _ _ _ Hf1 Hf2) as Hf.
  unfold handles_follow in Hf. unfold held_handles at 1 in Hf.
  rewrite Hd1, Hd2, Hd3, Hd4 in Hf. simpl in Hf.
  destruct Hdisc as (He1 & He2 & He3 & He4).
  unfold held_handles in Hf. rewrite He1, He2, He3, He4 in Hf. exact Hf.
Qed.

(** X16.  Releasing an instance twice is harmless for the library: once
    [wm_callback_free] has returned, a second [wm_callback_free] returns
    without a single call -- nothing is closed twice. *)
Theorem second_free_makes_no_call (s s1 : state W) :
  wm_callback_free s = Ret tt s1 ->
  exists s2, wm_callback_free s1 = Ret tt s2 /\ trace s2 = trace s1.
Proof.
  unfold wm_callback_free, bind.
  destruct (disconnect_returns s) as (sd & Hd & Hnone). rewrite Hd.
  unfold modify_cb. intros [= <-]. simpl.
  rewrite disconnect_null by exact Hnone. eexists. split; reflexivity.
Qed.

End Release.

(** ** A connection that is up *)

Section KeptConnection.

Context {W : Type} `{Env : Environment W}.

Lemma write_locked_quiet (d : data_set_t) (vl : value_list_t)
  (rates : list gauge_t) (s s' : state W) (r : Z) :
  Connected (cb s) ->
  wm_write_locked d vl rates s = Ret r s' ->
  exists evs,
    trace s' = evs ++ trace s /\ same_handles (cb s) (cb s') /\
    count_calls opens_or_closes evs = O.
Proof.
  intros Hc. unfold wm_write_locked. mcbv.
  rewrite (connect_live s) by apply Hc. simpl.
  destruct (wm_cdtime_t_to_mysql_time (vl_time vl) s)
    as [[st t] s2|] eqn:Ht; [|discriminate].
  destruct (time_quiet _ _ _ _ Ht) as (Hcb2 & [c rp] & Htr2 & He).
  simpl in He.
  destruct (negb (st =? 0)).
  { intros [= <- <-]. exists [(c, rp)]. split; [exact Htr2|].
    split; [rewrite Hcb2; by repeat split|]. simpl. by rewrite He. }
  intros Hloop.
  destruct (loop_extends _ _ _ _ _ _ _ _ _ Hloop) as (evs & Htr & Hh & Hq).
  exists (evs ++ [(c, rp)]). split; [by rewrite Htr, Htr2, <- app_assoc|].
  split; [by rewrite Hcb2 in Hh|].
  rewrite count_calls_app, Hq. simpl. by rewrite He.
Qed.

(** X17.  A connection that is up is never given up by a write.  Whether
    the batch is written or [wm_write] fails with -1, on an instance that is
    connected it opens nothing and closes nothing -- no [mysql_init], no
    [mysql_stmt_init], no [mysql_stmt_close], no [mysql_close] -- and the
    instance holds the same connection and the same three statements
    afterwards, with [conn_lock] released. *)
Theorem live_connection_is_kept (d : data_set_t) (vl : value_list_t)
  (s s1 : state W) (r : Z) :
  Connected (cb s) -> conn_lock (cb s) = false ->
  wm_write d vl s = Ret r s1 ->
  Connected (cb s1) /\ same_handles (cb s) (cb s1) /\
  exists evs,
    trace s1 = evs ++ trace s /\ count_calls opens_or_closes evs = O.
Proof.
  intros Hc Hcl. unfold wm_write. mcbv.
  destruct (uc_get_rate d vl s) as [rates s0|] eqn:Hr; [|discriminate].
  assert (Hr0 : cb s0 = cb s /\
                exists rp, trace s0 = (Uc_get_rate d vl, rp) :: trace s).
  { revert Hr. unfold_api. destruct (perform _ _) as [rp w].
    intros [= _ <-]. simpl. split; [reflexivity|]. by eexists. }
  destruct Hr0 as (Hcb0 & rp & Htr0).
  destruct rates as [rates|].
  2:{ intros [= <- <-]. rewrite Hcb0. split; [exact Hc|].
      split; [by repeat split|]. by exists [(Uc_get_rate d vl, rp)]. }
  rewrite (lock_free Conn_lock) by (by rewrite Hcb0). simpl.
  destruct (wm_write_locked d vl rates _) as [st s2|] eqn:Hw; [|discriminate].
  apply write_locked_quiet in Hw.
  2:{ simpl. rewrite Hcb0. exact Hc. }
  destruct Hw as (evs & Htr & (H1 & H2 & H3 & H4 & _) & Hq).
  simpl in Htr, H1, H2, H3, H4. rewrite Hcb0 in H1, H2, H3, H4.
  intros [= <- <-]. simpl.
  split; [unfold Connected; simpl; by rewrite H1, H2, H3, H4|].
  split; [by repeat split|].
  exists (evs ++ [(Uc_get_rate d vl, rp)]).
  split; [by rewrite Htr, Htr0, <- app_assoc|].
  by rewrite count_calls_app, Hq.
Qed.

(** X18.  [identifier_lock] is released on every path.  Called with the
    lock free, [wm_identifier_to_id] returns -- whether the key cannot be
    built, the cache answers, the store answers or anything fails -- and
    the lock is free again; a cache that held only non-negative [int]s
    still does. *)
Theorem identifier_lock_is_released (vl : value_list_t) (d : data_set_t)
  (i : nat) (s : state W) :
  identifier_lock (cb s) = false ->
  exists r s1,
    wm_identifier_to_id vl d i s = Ret r s1 /\
    identifier_lock (cb s1) = false /\
    (cache_ok (identifier_cache (cb s)) ->
     cache_ok (identifier_cache (cb s1))).
Proof. exact (to_id_returns vl d i s). Qed.

End KeptConnection.

(** ** Configuration *)

Lemma host_is_not_port (k : string) :
  strcasecmp "Host" k = 0 -> strcasecmp "Port" k <> 0.
Proof.
  destruct k as [|c k]; [discriminate|].
  cbn [strcasecmp].
  change (tolower "H") with "h"%char. change (tolower "P") with "p"%char.
  generalize (tolower c). intros x.
  destruct (Ascii.eqb_spec "h" x) as [<-|Hne].
  - intros _. cbn. discriminate.
  - intros H. exfalso. apply Hne.
    change (nat_of_ascii "h") with 104%nat in H.
    assert (Hx : nat_of_ascii x = 104%nat) by lia.
    rewrite <- (ascii_nat_embedding x), Hx. reflexivity.
Qed.

Section ConfigurationFacts.

Context {W : Type} `{Env : Environment W} `{Cfg : ConfigHelpers}.

#[local] Arguments strcasecmp : simpl never.

Lemma unknown_option_skipped (cb : wm_callback_t) (child : oconfig_item_t) :
  wm_known_option child = false -> wm_config_option cb child = cb.
Proof.
  unfold wm_known_option, wm_config_option. intros H.
  repeat (apply orb_false_elim in H; destruct H as [H ?]).
  by repeat match goal with Hx : (_ =? 0) = false |- _ => rewrite Hx; clear Hx end.
Qed.

Lemma options_of_known (children : list oconfig_item_t) (cb : wm_callback_t) :
  fold_left wm_config_option (List.filter wm_known_option children) cb =
  fold_left wm_config_option children cb.
Proof.
  revert cb. induction children as [|child rest IH]; intros cb; simpl;
    [reflexivity|].
  destruct (wm_known_option child) eqn:Hk; simpl.
  - apply IH.
  - rewrite (unknown_option_skipped cb child Hk). apply IH.
Qed.

(** The options touch the five configured fields only. *)
Lemma option_keeps_handles (cb : wm_callback_t) (child : oconfig_item_t) :
  same_handles cb (wm_config_option cb child) /\
  same_cache cb (wm_config_option cb child).
Proof.
  unfold wm_config_option.
  repeat match goal with
         | |- context [if ?b then _ else _] => destruct b
         end; by repeat split.
Qed.

Lemma options_keep_handles (children : list oconfig_item_t)
  (cb : wm_callback_t) :
  same_handles cb (fold_left wm_config_option children cb) /\
  same_cache cb (fold_left wm_config_option children cb).
Proof.
  revert cb. induction children as [|child rest IH]; intros cb; simpl.
  - by repeat split.
  - destruct (option_keeps_handles cb child) as [(?&?&?&?&?) (?&?&?)].
    destruct (IH (wm_config_option cb child)) as [(?&?&?&?&?) (?&?&?)].
    split; repeat split; congruence.
Qed.

(** X19.  Options that the plugin does not know change nothing: an
    [Instance] block is configured, named and registered exactly as the
    block without its unknown children is. *)
Theorem unknown_options_are_ignored (ci : oconfig_item_t) (s : daemon W) :
  wm_config_instance (with_children wm_known_option ci) s =
  wm_config_instance ci s.
Proof.
  unfold wm_config_instance, with_children. simpl.
  by rewrite options_of_known.
Qed.

Lemma option_port (cb : wm_callback_t) (child : oconfig_item_t) :
  port (wm_config_option cb child) = port cb \/
  (0 < port (wm_config_option cb child) /\
   strcasecmp "Port" (oc_key child) = 0 /\
   cf_util_get_port_number child = port (wm_config_option cb child)).
Proof.
  unfold wm_config_option.
  destruct (strcasecmp "Host" (oc_key child) =? 0); [by left|].
  destruct (Z.eqb_spec (strcasecmp "Port" (oc_key child)) 0) as [Hp|].
  - destruct (Z.ltb_spec 0 (cf_util_get_port_number child)); [|by left].
    right. by repeat split.
  - repeat match goal with
           | |- context [if ?b then _ else _] => destruct b
           end; by left.
Qed.

Lemma options_port (children : list oconfig_item_t) (cb : wm_callback_t) :
  port (fold_left wm_config_option children cb) = port cb \/
  (0 < port (fold_left wm_config_option children cb) /\
   exists child,
     In child children /\
     strcasecmp "Port" (oc_key child) = 0 /\
     cf_util_get_port_number child
     = port (fold_left wm_config_option children cb)).
Proof.
  revert cb. induction children as [|child rest IH]; intros cb; simpl;
    [by left|].
  destruct (IH (wm_config_option cb child)) as [Heq | (Hpos & c & Hin & Hc)].
  - rewrite Heq. destruct (option_port cb child) as [? | (? & ? & ?)];
      [by left|right]. split; [done|]. exists child.
    split; [by left|]. by split.
  - right. split; [done|]. exists c. split; [by right|]. exact Hc.
Qed.

Lemma option_port_after (cb : wm_callback_t) (child : oconfig_item_t) :
  port (wm_config_option cb child) = port_after (port cb) child.
Proof.
  unfold wm_config_option, port_after.
  destruct (Z.eqb_spec (strcasecmp "Host" (oc_key child)) 0) as [Hh|_].
  { apply host_is_not_port in Hh. apply Z.eqb_neq in Hh. by rewrite Hh. }
  destruct (strcasecmp "Port" (oc_key child) =? 0); simpl.
  - by destruct (0 <? cf_util_get_port_number child).
  - repeat match goal with
           | |- context [if ?b then _ else _] => destruct b
           end; reflexivity.
Qed.

Lemma options_port_after (children : list oconfig_item_t)
  (cb : wm_callback_t) :
  port (fold_left wm_config_option children cb)
  = fold_left port_after children (port cb).
Proof.
  revert cb. induction children as [|child rest IH]; intros cb; simpl;
    [reflexivity|].
  by rewrite IH, option_port_after.
Qed.

Lemma rejected_port_changes_nothing (cb : wm_callback_t)
  (child : oconfig_item_t) :
  strcasecmp "Port" (oc_key child) = 0 ->
  cf_util_get_port_number child <= 0 ->
  wm_config_option cb child = cb.
Proof.
  intros Hp Hrej. unfold wm_config_option.
  destruct (Z.eqb_spec (strcasecmp "Host" (oc_key child)) 0) as [Hh|_].
  { by apply host_is_not_port in Hh. }
  rewrite Hp. simpl.
  destruct (Z.ltb_spec 0 (cf_util_get_port_number child)); [lia|reflexivity].
Qed.

(** X20.  Only a port number above 0 is taken over.  The port of a
    registered instance is [configured_port] of the options of its block:
    the number of the last [Port] option for which
    [cf_util_get_port_number] delivered a number above 0, and 0, the value
    [wm_callback_init] leaves, when there is none.  A [Port] option whose
    value is rejected (a result of 0 or below) leaves the port, and the
    whole structure, as it was. *)
Theorem port_is_default_or_positive (ci : oconfig_item_t) (s s' : daemon W) :
  wm_config_instance ci s = Ret 0 s' ->
  (exists cb,
     d_writers s' = (wm_callback_name cb, cb) :: d_writers s /\
     port cb = configured_port (oc_children ci) /\
     (port cb = 0 \/
      (0 < port cb /\
       exists child,
         In child (oc_children ci) /\
         strcasecmp "Port" (oc_key child) = 0 /\
         cf_util_get_port_number child = port cb))) /\
  (forall (cb : wm_callback_t) (child : oconfig_item_t),
     strcasecmp "Port" (oc_key child) = 0 ->
     cf_util_get_port_number child <= 0 ->
     wm_config_option cb child = cb).
Proof.
  intros Hrun. split; [|apply rejected_port_changes_nothing].
  revert Hrun. unfold wm_config_instance.
  destruct (perform Malloc (d_world s)) as [r w1].
  destruct (r_ptr r); simpl; [|discriminate].
  destruct (perform Malloc w1) as [r' w2].
  destruct (r_ptr r'); simpl; [|discriminate].
  intros [= <-]. eexists. split; [reflexivity|]. simpl.
  split; [apply (options_port_after (oc_children ci) wm_callback_init)|].
  apply (options_port (oc_children ci) wm_callback_init).
Qed.

Lemma any_instance_block_registered (ci : oconfig_item_t)
  (s s' : daemon W) (st : Z) :
  wm_config_instance ci s = Ret st s' ->
  (st = ENOMEM /\ d_writers s' = d_writers s) \/
  (st = 0 /\
   exists inst,
     d_writers s' = (wm_callback_name inst, inst) :: d_writers s /\
     Disconnected inst /\ identifier_cache inst = ∅ /\ wm_inv inst /\
     forall (d : data_set_t) (vl : value_list_t) (w : W) (t : list event),
     exists r s1,
       wm_write d vl (mk_state inst w t) = Ret r s1 /\ wm_inv (cb s1)).
Proof.
  unfold wm_config_instance.
  destruct (perform Malloc (d_world s)) as [r w1].
  destruct (r_ptr r); simpl; [|intros [= <- <-]; by left].
  destruct (perform Malloc w1) as [r' w2].
  destruct (r_ptr r'); simpl; [|discriminate].
  intros [= <- <-]. right. split; [reflexivity|].
  eexists. split; [reflexivity|].
  destruct (options_keep_handles (oc_children ci) wm_callback_init)
    as [(Hc & Hd & Hs & Hi & Hcl) (_ & Hil & _)].
  simpl in *.
  assert (Hdisc : Disconnected
            (set_identifier_cache ∅
               (fold_left wm_config_option (oc_children ci) wm_callback_init))).
  { by repeat split. }
  assert (Hinv : wm_inv
            (set_identifier_cache ∅
               (fold_left wm_config_option (oc_children ci) wm_callback_init))).
  { split; [by left|]. split; [|by split].
    intros k v Hk. simpl in Hk. by rewrite lookup_empty in Hk. }
  split; [exact Hdisc|]. split; [reflexivity|]. split; [exact Hinv|].
  intros d vl w t.
  destruct (wm_write_returns d vl (mk_state _ w t) Hinv) as (r0 & s1 & ? & _ & ?).
  by exists r0, s1.
Qed.

(** X21.  No option is checked.  When [wm_config_instance] returns, it has
    returned [ENOMEM] and registered nothing because the structure could
    not be allocated, or it has returned 0 and registered [wm_write] with
    one new instance -- whatever the options are, even none at all.  That
    instance is disconnected, its cache is empty and no mutex is held, so
    that the first [wm_write] on it returns. *)
Theorem any_instance_block_is_registered (ci : oconfig_item_t)
  (s s' : daemon W) (st : Z) :
  wm_config_instance ci s = Ret st s' ->
  (st = ENOMEM /\ d_writers s' = d_writers s) \/
  (st = 0 /\
   exists inst,
     d_writers s' = (wm_callback_name inst, inst) :: d_writers s /\
     Disconnected inst /\ identifier_cache inst = ∅ /\ wm_inv inst /\
     forall (d : data_set_t) (vl : value_list_t) (w : W) (t : list event),
     exists r s1,
       wm_write d vl (mk_state inst w t) = Ret r s1 /\ wm_inv (cb s1)).
Proof. exact (any_instance_block_registered ci s s' st). Qed.

Lemma config_children_extend (children : list oconfig_item_t)
  (s s' : daemon W) :
  wm_config_children children s = Ret tt s' ->
  exists new,
    d_writers s' = new ++ d_writers s /\
    (length new <= length (List.filter is_instance_block children))%nat /\
    Forall (fun x => wm_inv x.2) new.
Proof.
  revert s. induction children as [|child rest IH]; intros s; simpl.
  - intros [= <-]. by exists [].
  - change (strcasecmp "Instance" (oc_key child) =? 0)
      with (is_instance_block child).
    destruct (is_instance_block child); [|apply IH].
    destruct (wm_config_instance child s) as [st sa|] eqn:Hi; [|discriminate].
    intros Hrest. destruct (IH _ Hrest) as (new & Hw & Hlen & Hall).
    destruct (any_instance_block_registered child s sa st Hi)
      as [[_ Hsame] | (_ & inst & Hreg & _ & _ & Hinv & _)].
    + exists new. rewrite Hw, Hsame. split; [done|]. split; [simpl; lia|done].
    + exists (new ++ [(wm_callback_name inst, inst)]).
      rewrite Hw, Hreg, <- app_assoc. split; [done|].
      split; [rewrite length_app; simpl; lia|].
      apply Forall_app. split; [done|]. by constructor.
Qed.

(** X22.  [wm_config] reports success whatever happens to its blocks.
    When it returns, it returns 0; it has registered at most one write
    callback per [Instance] block, each with an instance in order, and the
    blocks of any other name have changed nothing. *)
Theorem wm_config_always_succeeds (ci : oconfig_item_t) (s s' : daemon W)
  (st : Z) :
  wm_config ci s = Ret st s' ->
  st = 0 /\
  (exists new,
     d_writers s' = new ++ d_writers s /\
     (length new <= length (List.filter is_instance_block (oc_children ci)))%nat /\
     Forall (fun x => wm_inv x.2) new) /\
  wm_config (with_children is_instance_block ci) s = Ret st s'.
Proof.
  unfold wm_config.
  destruct (wm_config_children (oc_children ci) s) as [[] sa|] eqn:Hc;
    [|discriminate].
  intros [= <- <-]. split; [reflexivity|].
  split; [by apply (config_children_extend _ _ _ Hc)|].
  unfold with_children. simpl.
  assert (Hfilter : forall children (s0 : daemon W),
            wm_config_children (List.filter is_instance_block children) s0
            = wm_config_children children s0).
  { induction children as [|child rest IH]; intros s0; simpl; [reflexivity|].
    change (strcasecmp "Instance" (oc_key child) =? 0)
      with (is_instance_block child).
    destruct (is_instance_block child) eqn:Hk; simpl.
    - change (strcasecmp "Instance" (oc_key child) =? 0)
        with (is_instance_block child). rewrite Hk.
      destruct (wm_config_instance child s0); [apply IH|done].
    - apply IH. }
  by rewrite Hfilter, Hc.
Qed.

End ConfigurationFacts.

(** * Further runs in the scripted environment *)

Lemma insert_only_after_empty_select_witness :
  exists s1 rep,
    wm_identifier_database_lookup vl0 ds_gauge 0
      (s_live ∅ (script_inserted 5)) = Ret 5 s1 /\
    count_calls is_reset (trace s1) = 1%nat /\
    In (Mysql_stmt_num_rows (Some 11%N), rep) (trace s1) /\
    r_int rep mod 2 ^ 64 = 0.
Proof.
  destruct (insert_only_after_empty_select vl0 ds_gauge 0
              (s_live ∅ (script_inserted 5)))
    as (r & s1 & evs & Hret & Htr & _ & _ & Hrep).
  vm_compute in Hret. injection Hret as <- <-.
  simpl in Htr. rewrite app_nil_r in Htr. subst evs.
  destruct Hrep as (rep & Hin & Hzero); [reflexivity|].
  eexists _, rep. split; [vm_compute; reflexivity|].
  split; [reflexivity|]. split; [exact Hin|exact Hzero].
Defined.

Lemma resolved_id_comes_from_store_witness :
  exists s1 rep,
    wm_identifier_database_lookup vl0 ds_gauge 0 (s_live ∅ script_found)
    = Ret 7 s1 /\
    In (Mysql_stmt_fetch (Some 11%N), rep) (trace s1) /\
    int_of (r_id rep) = 7.
Proof.
  destruct (resolved_id_comes_from_store vl0 ds_gauge 0
              (s_live ∅ script_found))
    as (r & s1 & evs & Hret & Htr & Hfrom).
  vm_compute in Hret. injection Hret as <- <-.
  simpl in Htr. rewrite app_nil_r in Htr. subst evs.
  destruct Hfrom as [(rep & Hin & _ & _ & Hid) | (rep & Hin & _)]; [lia| |].
  - eexists _, rep. split; [vm_compute; reflexivity|]. by split.
  - exfalso. simpl in Hin. intuition discriminate.
Defined.

Lemma resolved_id_is_cached_witness :
  exists s',
    wm_identifier_to_id vl0 ds_gauge 0
      (s_live ∅ (script_found ++ [reply_ok; reply_ok])) = Ret 7 s' /\
    identifier_cache (cb s') !! key_value = Some 7 /\
    wm_identifier_to_id vl0 ds_gauge 0 s' = Ret 7 s'.
Proof.
  epose proof (resolved_id_is_cached vl0 ds_gauge 0
                 (s_live ∅ (script_found ++ [reply_ok; reply_ok]))
                 _ _ key_value 7) as Hround.
  edestruct Hround as (Hfirst & Hcache & Hagain).
  - reflexivity.
  - reflexivity.
  - reflexivity.
  - vm_compute. reflexivity.
  - lia.
  - vm_compute. reflexivity.
  - eexists. split; [exact Hfirst|]. split; [|exact Hagain].
    rewrite Hcache. apply lookup_insert_eq.
Defined.

Lemma resolution_only_adds_its_own_key_witness :
  exists s1,
    wm_identifier_to_id vl0 ds_gauge 0
      (s_live {[ key_rx := 3 ]} (script_found ++ [reply_ok; reply_ok]))
    = Ret 7 s1 /\
    identifier_cache (cb s1) !! key_rx = Some 3 /\
    identifier_cache (cb s1) !! key_value = Some 7.
Proof.
  edestruct (resolution_only_adds_its_own_key vl0 ds_gauge 0
               (s_live {[ key_rx := 3 ]}
                  (script_found ++ [reply_ok; reply_ok])))
    as [Hkeep Hnew].
  - vm_compute. reflexivity.
  - eexists. split; [vm_compute; reflexivity|]. split.
    + apply (Hkeep key_rx 3). reflexivity.
    + destruct (Hnew key_value) as (_ & _ & Hthere & _); [|exact Hthere].
      vm_compute. discriminate.
Defined.

Lemma insert_id_beyond_int_is_negative_witness :
  exists s5,
    wm_identifier_database_insert vl0 ds_gauge 0
      (s_live ∅ (script_insert_only 3000000000)) = Ret (-1294967296) s5.
Proof.
  edestruct (insert_id_beyond_int_is_negative vl0 ds_gauge 0
               (s_live ∅ (script_insert_only 3000000000))) as [Hret _].
  - vm_compute. reflexivity.
  - vm_compute. reflexivity.
  - vm_compute. reflexivity.
  - vm_compute. reflexivity.
  - vm_compute. reflexivity.
  - lia.
  - eexists. exact Hret.
Defined.

Lemma disconnect_closes_statements_first_witness :
  exists s1,
    wm_callback_disconnect (s_live ∅ []) = Ret 0 s1 /\
    map fst (trace s1) =
      [ Mysql_close (Some 1%N); Mysql_stmt_close (Some 12%N);
        Mysql_stmt_close (Some 11%N); Mysql_stmt_close (Some 10%N) ] /\
    Disconnected (cb s1).
Proof.
  destruct (disconnect_closes_statements_first (s_live ∅ []))
    as (s1 & evs & Hret & Htr & Hcalls & Hdisc & _).
  - by eexists.
  - exists s1. split; [exact Hret|]. split; [|exact Hdisc].
    simpl in Htr. rewrite app_nil_r in Htr. rewrite Htr. exact Hcalls.
Defined.

Lemma resolution_uses_identifier_statements_only_witness :
  exists s1,
    wm_identifier_to_id vl0 ds_gauge 0
      (s_live ∅ (script_found ++ [reply_ok; reply_ok])) = Ret 7 s1 /\
    count_calls (on_stmt (Some 10%N)) (trace s1) = 0%nat.
Proof.
  edestruct (resolution_uses_identifier_statements_only vl0 ds_gauge 0
               (s_live ∅ (script_found ++ [reply_ok; reply_ok])))
    as (evs & Htr & Hno).
  - vm_compute. reflexivity.
  - eexists. split; [vm_compute; reflexivity|].
    simpl in Htr. rewrite app_nil_r in Htr. subst evs.
    apply Hno; discriminate.
Defined.


Lemma at_most_one_row_per_source_witness :
  exists s1,
    wm_write_loop ds_two vl0 [1; 2] t2012 2 0
      (s_live {[ key_rx := 7 ]} [ r_status 0; r_status 1 ]) = Ret (-1) s1 /\
    (rows_written (Some 10%N) (trace s1) < 2)%nat.
Proof.
  edestruct (at_most_one_row_per_source ds_two vl0 [1; 2] t2012 2 0
               (s_live {[ key_rx := 7 ]} [ r_status 0; r_status 1 ]))
    as [_ Hfewer].
  - vm_compute. reflexivity.
  - split; discriminate.
  - eexists. split; [vm_compute; reflexivity|].
    apply Hfewer. discriminate.
Defined.

Lemma bounded_identity_has_full_key_witness :
  wm_identifier_key vl0 ds_two 1 = Some "host1/cpu/0/cpu/idle/tx" /\
  wm_identifier_to_id vl0 ds_two 1 (s_live {[ key_tx := 8 ]} [])
  = Ret 8 (s_live {[ key_tx := 8 ]} []).
Proof.
  edestruct (bounded_identity_has_full_key (W := list reply) vl0 ds_two 1)
    as [Hkey Hhit].
  - intros n v. reflexivity.
  - repeat constructor; simpl; lia.
  - split; [exact Hkey|].
    apply (Hhit (s_live {[ key_tx := 8 ]} []) 8); [reflexivity|reflexivity|lia].
Defined.

Lemma write_on_disconnected_connects_first_witness :
  exists s',
    wm_write_locked ds_two vl0 [0; 0] (s_fresh (tail script_first_batch))
    = Ret 0 s' /\
    Connected (cb s').
Proof.
  edestruct (write_on_disconnected_connects_first ds_two vl0 [0; 0]
               (s_fresh (tail script_first_batch)))
    as [(Hfailed & _) | (Hconn & _)].
  - by repeat split.
  - vm_compute. reflexivity.
  - discriminate Hfailed.
  - eexists. split; [vm_compute; reflexivity|]. exact Hconn.
Defined.

Lemma cache_survives_reconnect_witness :
  exists s2,
    wm_identifier_to_id vl0 ds_gauge 0 s2 = Ret 7 s2 /\
    length (trace s2) = 15%nat.
Proof.
  eexists. split.
  - eapply (cache_survives_reconnect vl0 ds_gauge 0
              (s_live {[ key_value := 7 ]}
                 ([reply_ok; reply_ok; reply_ok; reply_ok] ++
                  connect_ok_script)) _ _ key_value 7).
    + reflexivity.
    + reflexivity.
    + reflexivity.
    + lia.
    + vm_compute. reflexivity.
    + vm_compute. reflexivity.
  - reflexivity.
Defined.

Lemma wm_write_keeps_instance_in_order_witness :
  exists r s1,
    wm_write ds_two vl0 (s_fresh script_first_batch) = Ret r s1 /\
    (r = 0 \/ r = -1) /\ wm_inv (cb s1).
Proof.
  apply (wm_write_keeps_instance_in_order ds_two vl0
           (s_fresh script_first_batch)).
  exact init_inv.
Defined.

Lemma port_is_default_or_positive_witness :
  (exists s' inst,
     wm_config_instance block_instance (daemon_start []) = Ret 0 s' /\
     d_writers s' = [(wm_callback_name inst, inst)] /\
     port inst = 3307) /\
  wm_config_option (cb_live ∅)
    (mk_oconfig_item "Port" [OCONFIG_TYPE_NUMBER 70000] []) = cb_live ∅.
Proof.
  edestruct (port_is_default_or_positive block_instance (daemon_start []))
    as ((inst & Hreg & Hport & _) & Hrejected).
  - vm_compute. reflexivity.
  - split.
    + eexists _, inst. split; [vm_compute; reflexivity|].
      split; [exact Hreg|]. rewrite Hport. vm_compute. reflexivity.
    + apply Hrejected; [reflexivity|]. vm_compute. discriminate.
Defined.

Lemma any_instance_block_is_registered_witness :
  (exists s',
     wm_config_instance block_instance (daemon_start [r_null])
     = Ret ENOMEM s' /\ d_writers s' = []) /\
  (exists s' inst,
     wm_config_instance block_empty (daemon_start []) = Ret 0 s' /\
     d_writers s' = [(wm_callback_name inst, inst)] /\
     Disconnected inst /\ wm_inv inst).
Proof.
  split.
  - edestruct (any_instance_block_is_registered block_instance
                 (daemon_start [r_null]))
      as [(_ & Hnone) | (Hst & _)].
    + vm_compute. reflexivity.
    + eexists. split; [vm_compute; reflexivity|]. exact Hnone.
    + discriminate Hst.
  - edestruct (any_instance_block_is_registered block_empty (daemon_start []))
      as [(Hst & _) | (_ & inst & Hreg & Hdisc & _ & Hinv & _)].
    + vm_compute. reflexivity.
    + discriminate Hst.
    + eexists _, inst. split; [vm_compute; reflexivity|].
      split; [exact Hreg|]. by split.
Defined.

Lemma wm_config_always_succeeds_witness :
  exists s' new,
    wm_config block_plugin (daemon_start []) = Ret 0 s' /\
    d_writers s' = new /\ (length new <= 2)%nat /\
    Forall (fun x => wm_inv x.2) new.
Proof.
  edestruct (wm_config_always_succeeds block_plugin (daemon_start []))
    as (_ & (new & Hreg & Hlen & Hinv) & _).
  - vm_compute. reflexivity.
  - eexists _, new. split; [vm_compute; reflexivity|].
    split; [by rewrite Hreg, app_nil_r|]. split; [exact Hlen|exact Hinv].
Defined.

Lemma no_handle_outlives_the_instance_witness :
  exists statuses s1 s2 evs,
    wm_write_all [(ds_two, vl0)] (s_fresh script_first_batch)
    = Ret statuses s1 /\
    wm_callback_free s1 = Ret tt s2 /\
    trace s2 = evs ++ [] /\
    live_handles evs = ([], []) /\
    Disconnected (cb s2).
Proof.
  apply (no_handle_outlives_the_instance [(ds_two, vl0)]
           (s_fresh script_first_batch)).
  - exact init_inv.
  - by repeat split.
Defined.

Lemma second_free_makes_no_call_witness :
  exists s1 s2,
    wm_callback_free (s_live ∅ []) = Ret tt s1 /\
    wm_callback_free s1 = Ret tt s2 /\
    trace s2 = trace s1.
Proof.
  eexists.
  edestruct (second_free_makes_no_call (s_live ∅ [])) as (s2 & Hagain & Hquiet).
  - vm_compute. reflexivity.
  - exists s2. split; [vm_compute; reflexivity|]. by split.
Defined.

Lemma live_connection_is_kept_witness :
  exists s1,
    wm_write ds_two vl0 (s_live {[ key_rx := 7 ]} script_execute_fails)
    = Ret (-1) s1 /\
    cb s1 = cb_live {[ key_rx := 7 ]} /\
    count_calls opens_or_closes (trace s1) = 0%nat.
Proof.
  edestruct (live_connection_is_kept ds_two vl0
               (s_live {[ key_rx := 7 ]} script_execute_fails))
    as (_ & _ & evs & Htr & Hquiet).
  - unfold Connected. simpl. by eauto.
  - reflexivity.
  - vm_compute. reflexivity.
  - eexists. split; [vm_compute; reflexivity|]. split; [reflexivity|].
    simpl in Htr. rewrite app_nil_r in Htr. subst evs. exact Hquiet.
Defined.

Lemma identifier_lock_is_released_witness :
  exists r s1,
    wm_identifier_to_id vl0 ds_gauge 0 (s_live ∅ script_two_rows)
    = Ret r s1 /\
    identifier_lock (cb s1) = false /\
    (cache_ok (identifier_cache (cb (s_live ∅ script_two_rows))) ->
     cache_ok (identifier_cache (cb s1))).
Proof.
  apply (identifier_lock_is_released vl0 ds_gauge 0
           (s_live ∅ script_two_rows)).
  reflexivity.
Defined.
